(** * marian-dev GPU backend and N-best selection: a shallow embedding

    Two translation units are embedded here:

    - [tensors/gpu/backend.h]: the class [marian::gpu::Backend] with its
      capability flags, the cached compute capability and the two lazily
      created vendor library handles;
    - the GPU [NthElementGPU] class (translator/nth_element for CUDA) with its
      [getNBestList] entry point, the [selectNBest] dispatch and the
      [getPairs] device-to-host extraction.

    Process-terminating [ABORT]/[ABORT_IF] are an outcome of their own that
    keeps the state the process had when it died.  What the classes ask of
    the CUDA runtime is recorded in a trace of runtime events; the status a
    runtime call wrapped in [CUDA_CHECK] returns is a parameter, and a
    status other than [cudaSuccess] aborts.  The reduction kernels behind
    [topK_kernelLauncher] (3rd_party/topk.cuh) are not among the sources:
    the class is embedded over an arbitrary launcher, and the kernels are
    modelled from the specification where a property depends on them. *)

From Stdlib Require Import ZArith Bool String List Lia Permutation.
From Stdlib Require Import Sorting.Sorted FinFun.
Import ListNotations.

Local Open Scope Z_scope.

(** ** A state monad with fatal aborts *)

(** [Done a s]: the call returned [a] and left state [s].
    [Aborted msg s]: [ABORT] fired with message [msg] while the state was [s]. *)
Inductive outcome (S A : Type) : Type :=
| Done (a : A) (s : S)
| Aborted (msg : string) (s : S).
Arguments Done {S A} a s.
Arguments Aborted {S A} msg s.

Definition M (S A : Type) : Type := S -> outcome S A.

Definition ret {S A} (a : A) : M S A := fun s => Done a s.

Definition bind {S A B} (m : M S A) (k : A -> M S B) : M S B :=
  fun s => match m s with
           | Done a s' => k a s'
           | Aborted msg s' => Aborted msg s'
           end.

Definition get {S} : M S S := fun s => Done s s.
Definition put {S} (s : S) : M S unit := fun _ => Done tt s.
Definition modify {S} (f : S -> S) : M S unit := fun s => Done tt (f s).

(** Modelled from the spec: the macros [ABORT(msg)] and
    [ABORT_IF(cond, msg)] of common/logging.h, "abort with formatted message"
    and its conditional form, both process-terminating. The message is kept
    as its format string. *)
Definition ABORT {S A} (msg : string) : M S A := fun s => Aborted msg s.
Definition ABORT_IF {S} (cond : bool) (msg : string) : M S unit :=
  fun s => if cond then Aborted msg s else Done tt s.

Declare Scope abort_scope.
Delimit Scope abort_scope with abort.
Notation "x <- m ;; k" := (bind m (fun x => k))
  (at level 61, m at next level, right associativity) : abort_scope.
Notation "m ;; k" := (bind m (fun _ => k))
  (at level 61, right associativity) : abort_scope.

(** The state a run ended in, whether it returned or aborted. *)
Definition state_of {S A} (o : outcome S A) : S :=
  match o with Done _ s => s | Aborted _ s => s end.

Definition aborted {S A} (o : outcome S A) : bool :=
  match o with Done _ _ => false | Aborted _ _ => true end.

(** ** tensors/gpu/backend.h *)

Module Backend.

(** Conversion to [int] (32 bits, two's complement), the cast [(int)] of
    the device number. *)
Definition to_int (x : Z) : Z := (x + 2 ^ 31) mod 2 ^ 32 - 2 ^ 31.
Arguments to_int : simpl never.

(** [struct CudaCompute { int major; int minor; }] *)
Record CudaCompute : Type := { major : Z; minor : Z }.

(** The four call sites of [LOG_ONCE] in the class. *)
Inductive site : Type :=
| SiteSetInt16 | SiteSetShifted | SiteSetShiftedAll | SiteSetLegacyBatchedGemm.

Definition site_eqb (a b : site) : bool :=
  match a, b with
  | SiteSetInt16, SiteSetInt16
  | SiteSetShifted, SiteSetShifted
  | SiteSetShiftedAll, SiteSetShiftedAll
  | SiteSetLegacyBatchedGemm, SiteSetLegacyBatchedGemm => true
  | _, _ => false
  end.

(** What the class asks of the CUDA runtime, the vendor libraries and the
    logger, in program order. *)
Inductive event : Type :=
| EvSetDevice (no : Z)
| EvStreamSynchronize
| EvCublasCreate (h : Z)
| EvCublasSetStreamPerThread (h : Z)
| EvCusparseCreate (h : Z)
| EvCusparseSetStreamPerThread (h : Z)
| EvCublasDestroy (h : Z)
| EvCusparseDestroy (h : Z)
| EvCudaFree (ptr : Z)
| EvLog (at_site : site) (msg : string).

(** The object's fields; [deviceId_] comes from the base class. Handles and
    device pointers are opaque numbers, [0] being the null handle. *)
Record Backend : Type := {
  deviceId_ : Z;
  int8_ : bool;
  alpha_ : bool;
  tensorCore_ : bool;
  fused_ : bool;
  dumpMatrices_ : bool;
  oneGPU : Z;
  zeroGPU : Z;
  cublasHandle_ : Z;
  cusparseHandle_ : Z;
  compute_ : CudaCompute
}.

(** Process-wide state around the object: the trace of runtime events and
    the static "already logged" flags of the [LOG_ONCE] call sites. *)
Record World : Type := {
  self : Backend;
  trace : list event;
  logged : list site
}.

Definition set_int8 (v : bool) (b : Backend) : Backend :=
  {| deviceId_ := deviceId_ b; int8_ := v; alpha_ := alpha_ b;
     tensorCore_ := tensorCore_ b; fused_ := fused_ b;
     dumpMatrices_ := dumpMatrices_ b; oneGPU := oneGPU b; zeroGPU := zeroGPU b;
     cublasHandle_ := cublasHandle_ b; cusparseHandle_ := cusparseHandle_ b;
     compute_ := compute_ b |}.

Definition set_alpha (v : bool) (b : Backend) : Backend :=
  {| deviceId_ := deviceId_ b; int8_ := int8_ b; alpha_ := v;
     tensorCore_ := tensorCore_ b; fused_ := fused_ b;
     dumpMatrices_ := dumpMatrices_ b; oneGPU := oneGPU b; zeroGPU := zeroGPU b;
     cublasHandle_ := cublasHandle_ b; cusparseHandle_ := cusparseHandle_ b;
     compute_ := compute_ b |}.

Definition set_tensorCore (v : bool) (b : Backend) : Backend :=
  {| deviceId_ := deviceId_ b; int8_ := int8_ b; alpha_ := alpha_ b;
     tensorCore_ := v; fused_ := fused_ b;
     dumpMatrices_ := dumpMatrices_ b; oneGPU := oneGPU b; zeroGPU := zeroGPU b;
     cublasHandle_ := cublasHandle_ b; cusparseHandle_ := cusparseHandle_ b;
     compute_ := compute_ b |}.

Definition set_fused (v : bool) (b : Backend) : Backend :=
  {| deviceId_ := deviceId_ b; int8_ := int8_ b; alpha_ := alpha_ b;
     tensorCore_ := tensorCore_ b; fused_ := v;
     dumpMatrices_ := dumpMatrices_ b; oneGPU := oneGPU b; zeroGPU := zeroGPU b;
     cublasHandle_ := cublasHandle_ b; cusparseHandle_ := cusparseHandle_ b;
     compute_ := compute_ b |}.

Definition set_dumpMatrices (v : bool) (b : Backend) : Backend :=
  {| deviceId_ := deviceId_ b; int8_ := int8_ b; alpha_ := alpha_ b;
     tensorCore_ := tensorCore_ b; fused_ := fused_ b;
     dumpMatrices_ := v; oneGPU := oneGPU b; zeroGPU := zeroGPU b;
     cublasHandle_ := cublasHandle_ b; cusparseHandle_ := cusparseHandle_ b;
     compute_ := compute_ b |}.

Definition set_cublasHandle (h : Z) (b : Backend) : Backend :=
  {| deviceId_ := deviceId_ b; int8_ := int8_ b; alpha_ := alpha_ b;
     tensorCore_ := tensorCore_ b; fused_ := fused_ b;
     dumpMatrices_ := dumpMatrices_ b; oneGPU := oneGPU b; zeroGPU := zeroGPU b;
     cublasHandle_ := h; cusparseHandle_ := cusparseHandle_ b;
     compute_ := compute_ b |}.

Definition set_cusparseHandle (h : Z) (b : Backend) : Backend :=
  {| deviceId_ := deviceId_ b; int8_ := int8_ b; alpha_ := alpha_ b;
     tensorCore_ := tensorCore_ b; fused_ := fused_ b;
     dumpMatrices_ := dumpMatrices_ b; oneGPU := oneGPU b; zeroGPU := zeroGPU b;
     cublasHandle_ := cublasHandle_ b; cusparseHandle_ := h;
     compute_ := compute_ b |}.

Definition on_self (f : Backend -> Backend) : M World unit :=
  modify (fun w => {| self := f (self w); trace := trace w; logged := logged w |}).

Definition emit (e : event) : M World unit :=
  modify (fun w => {| self := self w; trace := trace w ++ [e]; logged := logged w |}).

Definition field {A} (f : Backend -> A) : M World A :=
  fun w => Done (f (self w)) w.

Definition fmt_bool (b : bool) : string := if b then "true" else "false".

(** Modelled from the spec: the macro [LOG_ONCE(info, fmt, arg)] of
    common/logging.h, "log this message exactly once". The message goes to
    the log the first time control reaches the call site, and never again
    from that site. *)
Definition LOG_ONCE (s : site) (msg : string) : M World unit :=
  fun w =>
    if existsb (site_eqb s) (logged w) then Done tt w
    else Done tt {| self := self w;
                    trace := trace w ++ [EvLog s msg];
                    logged := s :: logged w |}.

Section Vendor.

(** The handle [cublasCreate] / [cusparseCreate] stores through its argument,
    as a function of what the process asked of the runtime so far. The
    source ignores the returned status, so a failed creation is a handle
    that is still null. *)
Variable cublasCreate : list event -> Z.
Variable cusparseCreate : list event -> Z.

(** The status of the runtime calls that are checked: [cudaError tr] says
    that the call the trace [tr] ends with returned a status other than
    [cudaSuccess]. The runtime is outside the program, so its answers are a
    parameter. *)
Variable cudaError : list event -> bool.

Local Open Scope abort_scope.

(** Modelled from the spec: the macro [CUDA_CHECK(call)] of
    tensors/gpu/cuda_helpers.h, which is not part of the sources at hand. A
    failure of the runtime is fatal: the call is made, and a status other
    than [cudaSuccess] aborts. The message is kept as its format string. *)
Definition CUDA_CHECK (call : event) : M World unit :=
  emit call ;;
  w <- get ;;
  ABORT_IF (cudaError (trace w)) "CUDA error {} '{}' - {}:{}: {}".

Definition setDevice : M World unit :=
  no <- field deviceId_ ;;
  CUDA_CHECK (EvSetDevice (to_int no)).

Definition synchronize : M World unit :=
  CUDA_CHECK EvStreamSynchronize.

Definition getCublasHandle : M World Z :=
  h <- field cublasHandle_ ;;
  (if h =? 0 then
     setDevice ;;
     w <- get ;;
     let h' := cublasCreate (trace w) in
     emit (EvCublasCreate h') ;;
     on_self (set_cublasHandle h') ;;
     emit (EvCublasSetStreamPerThread h')
   else ret tt) ;;
  field cublasHandle_.

Definition getCusparseHandle : M World Z :=
  h <- field cusparseHandle_ ;;
  (if h =? 0 then
     setDevice ;;
     w <- get ;;
     let h' := cusparseCreate (trace w) in
     emit (EvCusparseCreate h') ;;
     on_self (set_cusparseHandle h') ;;
     emit (EvCusparseSetStreamPerThread h')
   else ret tt) ;;
  field cusparseHandle_.

Definition getOneGPU : M World Z := field oneGPU.
Definition getZeroGPU : M World Z := field zeroGPU.
Definition getCudaComputeCapability : M World CudaCompute := field compute_.

Definition setInt16 (optimize : bool) : M World unit :=
  LOG_ONCE SiteSetInt16
    (String.append "setOptimized() not supported for GPU_" (fmt_bool optimize)).
Definition isInt16 : M World bool := ret false.

Definition setInt8 (optimize : bool) : M World unit := on_self (set_int8 optimize).
Definition isInt8 : M World bool := field int8_.

Definition setShifted (shifted : bool) : M World unit :=
  LOG_ONCE SiteSetShifted
    (String.append "setShifted() not supported for GPU_" (fmt_bool shifted)).
Definition isShifted : M World bool := ret false.

Definition setShiftedAll (shiftedAll : bool) : M World unit :=
  LOG_ONCE SiteSetShiftedAll
    (String.append "setShiftedAll() not supported for GPU_" (fmt_bool shiftedAll)).
Definition isShiftedAll : M World bool := ret false.

Definition setDumpQuantMult (dump : bool) : M World unit :=
  on_self (set_dumpMatrices dump).
Definition DumpQuantMult : M World bool := field dumpMatrices_.

Definition setPrecomputedAlpha (alpha : bool) : M World unit :=
  on_self (set_alpha alpha).
Definition isPrecomputedAlpha : M World bool := field alpha_.

Definition setLegacyBatchedGemm (legacyBatch : bool) : M World unit :=
  LOG_ONCE SiteSetLegacyBatchedGemm
    (String.append "setLegacyBatchedGemm() not supported for GPU_"
                   (fmt_bool legacyBatch)).
Definition isLegacyBatchedGemm : M World bool := ret false.

Definition setTensorCoreGemm (tensorCore : bool) : M World unit :=
  if tensorCore then
    c <- getCudaComputeCapability ;;
    ABORT_IF (major c <? 7)
      "Compute capability {} below 7 do not support tensor cores" ;;
    on_self (set_tensorCore tensorCore)
  else ret tt.
Definition useTensorCoreGemm : M World bool := field tensorCore_.

Definition setFused (fused : bool) : M World unit := on_self (set_fused fused).
Definition isFused : M World bool := field fused_.

(** [~Backend()]: a handle that exists is destroyed and nulled, then the two
    device constants are freed. *)
Definition destroy : M World unit :=
  setDevice ;;
  hs <- field cusparseHandle_ ;;
  (if hs =? 0 then ret tt
   else emit (EvCusparseDestroy hs) ;; on_self (set_cusparseHandle 0)) ;;
  hb <- field cublasHandle_ ;;
  (if hb =? 0 then ret tt
   else emit (EvCublasDestroy hb) ;; on_self (set_cublasHandle 0)) ;;
  one <- field oneGPU ;;
  emit (EvCudaFree one) ;;
  zero <- field zeroGPU ;;
  emit (EvCudaFree zero).

(** The public member functions as a closed set of calls, so that "after any
    sequence of calls" can be said. *)
Inductive call : Type :=
| CsetDevice | Csynchronize
| CgetCublasHandle | CgetCusparseHandle
| CgetOneGPU | CgetZeroGPU | CgetCudaComputeCapability
| CsetInt16 (v : bool) | CisInt16
| CsetInt8 (v : bool) | CisInt8
| CsetShifted (v : bool) | CisShifted
| CsetShiftedAll (v : bool) | CisShiftedAll
| CsetDumpQuantMult (v : bool) | CDumpQuantMult
| CsetPrecomputedAlpha (v : bool) | CisPrecomputedAlpha
| CsetLegacyBatchedGemm (v : bool) | CisLegacyBatchedGemm
| CsetTensorCoreGemm (v : bool) | CuseTensorCoreGemm
| CsetFused (v : bool) | CisFused.

Inductive value : Type :=
| VUnit
| VBool (b : bool)
| VHandle (h : Z)
| VPtr (p : Z)
| VCompute (c : CudaCompute).

Definition returning {A} (inj : A -> value) (m : M World A) : M World value :=
  a <- m ;; ret (inj a).

Definition invoke (c : call) : M World value :=
  match c with
  | CsetDevice => returning (fun _ => VUnit) setDevice
  | Csynchronize => returning (fun _ => VUnit) synchronize
  | CgetCublasHandle => returning VHandle getCublasHandle
  | CgetCusparseHandle => returning VHandle getCusparseHandle
  | CgetOneGPU => returning VPtr getOneGPU
  | CgetZeroGPU => returning VPtr getZeroGPU
  | CgetCudaComputeCapability => returning VCompute getCudaComputeCapability
  | CsetInt16 v => returning (fun _ => VUnit) (setInt16 v)
  | CisInt16 => returning VBool isInt16
  | CsetInt8 v => returning (fun _ => VUnit) (setInt8 v)
  | CisInt8 => returning VBool isInt8
  | CsetShifted v => returning (fun _ => VUnit) (setShifted v)
  | CisShifted => returning VBool isShifted
  | CsetShiftedAll v => returning (fun _ => VUnit) (setShiftedAll v)
  | CisShiftedAll => returning VBool isShiftedAll
  | CsetDumpQuantMult v => returning (fun _ => VUnit) (setDumpQuantMult v)
  | CDumpQuantMult => returning VBool DumpQuantMult
  | CsetPrecomputedAlpha v => returning (fun _ => VUnit) (setPrecomputedAlpha v)
  | CisPrecomputedAlpha => returning VBool isPrecomputedAlpha
  | CsetLegacyBatchedGemm v => returning (fun _ => VUnit) (setLegacyBatchedGemm v)
  | CisLegacyBatchedGemm => returning VBool isLegacyBatchedGemm
  | CsetTensorCoreGemm v => returning (fun _ => VUnit) (setTensorCoreGemm v)
  | CuseTensorCoreGemm => returning VBool useTensorCoreGemm
  | CsetFused v => returning (fun _ => VUnit) (setFused v)
  | CisFused => returning VBool isFused
  end.

(** A caller's straight-line use of the object; an abort ends the process,
    so the calls after it never run. *)
Fixpoint run (cs : list call) : M World (list value) :=
  match cs with
  | [] => ret []
  | c :: cs' => v <- invoke c ;; vs <- run cs' ;; ret (v :: vs)
  end.

(** The four setters of features this device class does not support, and
    their getters, by [LOG_ONCE] call site. *)
Definition unsupported_setter (s : site) : bool -> M World unit :=
  match s with
  | SiteSetInt16 => setInt16
  | SiteSetShifted => setShifted
  | SiteSetShiftedAll => setShiftedAll
  | SiteSetLegacyBatchedGemm => setLegacyBatchedGemm
  end.

Definition unsupported_getter (s : site) : M World bool :=
  match s with
  | SiteSetInt16 => isInt16
  | SiteSetShifted => isShifted
  | SiteSetShiftedAll => isShiftedAll
  | SiteSetLegacyBatchedGemm => isLegacyBatchedGemm
  end.

Definition unsupported_setter_call (s : site) (v : bool) : call :=
  match s with
  | SiteSetInt16 => CsetInt16 v
  | SiteSetShifted => CsetShifted v
  | SiteSetShiftedAll => CsetShiftedAll v
  | SiteSetLegacyBatchedGemm => CsetLegacyBatchedGemm v
  end.

(** How many notices of call site [s] a trace holds. *)
Definition is_log_at (s : site) (e : event) : bool :=
  match e with EvLog s' _ => site_eqb s s' | _ => false end.

Definition log_count (s : site) (tr : list event) : nat :=
  List.length (filter (is_log_at s) tr).

(** The notices of one call site: none before the site's flag is set, and
    never more than one. *)
Definition log_inv (w : World) : Prop :=
  forall s,
    (existsb (site_eqb s) (logged w) = false -> log_count s (trace w) = 0%nat) /\
    (log_count s (trace w) <= 1)%nat.

(** A process that has not logged anything yet. *)
Definition fresh (b : Backend) : World :=
  {| self := b; trace := []; logged := [] |}.

End Vendor.

(** The object as the constructor leaves it when it has returned, that is
    when each of its checked runtime calls has succeeded: the flags start
    [false] and the handles null (the member initializers), the compute
    capability is what the device reports and the two constants are where
    [cudaMalloc] put them. *)
Definition construct (deviceId : Z) (reported : CudaCompute) (one zero : Z)
    : Backend :=
  {| deviceId_ := deviceId; int8_ := false; alpha_ := false;
     tensorCore_ := false; fused_ := false; dumpMatrices_ := false;
     oneGPU := one; zeroGPU := zero;
     cublasHandle_ := 0; cusparseHandle_ := 0;
     compute_ := reported |}.

(** A device of compute capability [maj].0 right after construction, for
    running the member functions on. *)
Definition example_backend (maj : Z) : Backend :=
  construct 0 {| major := maj; minor := 0 |} 4096 4100.

(** A vendor library that hands out a new non-null handle at every
    creation. *)
Definition example_create (tr : list event) : Z :=
  Z.of_nat (List.length tr) + 100.

(** A runtime whose checked calls all succeed. *)
Definition never_fails (tr : list event) : bool := false.

(** The checked runtime call that the member call [c] makes when it is made
    in [w]: [setDevice] and [synchronize] make one, a handle getter binds
    the device when its handle is null. *)
Definition checked_call (c : call) (w : World) : option event :=
  match c with
  | CsetDevice => Some (EvSetDevice (to_int (deviceId_ (self w))))
  | Csynchronize => Some EvStreamSynchronize
  | CgetCublasHandle =>
      if cublasHandle_ (self w) =? 0
      then Some (EvSetDevice (to_int (deviceId_ (self w)))) else None
  | CgetCusparseHandle =>
      if cusparseHandle_ (self w) =? 0
      then Some (EvSetDevice (to_int (deviceId_ (self w)))) else None
  | _ => None
  end.

(** The runtime reports an error for that call. *)
Definition check_fails (cudaError : list event -> bool) (c : call) (w : World)
    : bool :=
  match checked_call c w with
  | Some e => cudaError (trace w ++ [e])
  | None => false
  end.

(** *** Vocabulary of the statements about sequences of calls *)

(** The four capability flags that a setter really writes. *)
Inductive flag : Type :=
| FlagInt8 | FlagPrecomputedAlpha | FlagDumpQuantMult | FlagFused.

Definition flag_value (f : flag) (b : Backend) : bool :=
  match f with
  | FlagInt8 => int8_ b
  | FlagPrecomputedAlpha => alpha_ b
  | FlagDumpQuantMult => dumpMatrices_ b
  | FlagFused => fused_ b
  end.

Definition flag_getter (f : flag) : M World bool :=
  match f with
  | FlagInt8 => isInt8
  | FlagPrecomputedAlpha => isPrecomputedAlpha
  | FlagDumpQuantMult => DumpQuantMult
  | FlagFused => isFused
  end.

(** The value a call asks to be written to flag [f], if it is a setter of
    [f]. *)
Definition written (f : flag) (c : call) : option bool :=
  match f, c with
  | FlagInt8, CsetInt8 v => Some v
  | FlagPrecomputedAlpha, CsetPrecomputedAlpha v => Some v
  | FlagDumpQuantMult, CsetDumpQuantMult v => Some v
  | FlagFused, CsetFused v => Some v
  | _, _ => None
  end.

(** A boolean register that starts at [init] and sees the calls [cs]. *)
Definition last_written (f : flag) (cs : list call) (init : bool) : bool :=
  fold_left (fun acc c => match written f c with Some v => v | None => acc end)
            cs init.

(** The one call that can abort: [setTensorCoreGemm(true)]. *)
Definition enables_tensorCore (c : call) : bool :=
  match c with CsetTensorCoreGemm true => true | _ => false end.

(** The two calls that ask for a math-library handle. *)
Definition requests_cublas (c : call) : bool :=
  match c with CgetCublasHandle => true | _ => false end.
Definition requests_cusparse (c : call) : bool :=
  match c with CgetCusparseHandle => true | _ => false end.

Definition is_cublas_create (e : event) : bool :=
  match e with EvCublasCreate _ => true | _ => false end.
Definition is_cusparse_create (e : event) : bool :=
  match e with EvCusparseCreate _ => true | _ => false end.
Definition is_cublas_destroy (e : event) : bool :=
  match e with EvCublasDestroy _ => true | _ => false end.
Definition is_cusparse_destroy (e : event) : bool :=
  match e with EvCusparseDestroy _ => true | _ => false end.
Definition is_free (e : event) : bool :=
  match e with EvCudaFree _ => true | _ => false end.

(** How many events of a kind a trace holds. *)
Definition count (kind : event -> bool) (tr : list event) : nat :=
  List.length (filter kind tr).

End Backend.

(** ** translator/nth_element (GPU): class NthElementGPU *)

Module NthElement.

(** *** C++ integer conversions used by the class *)

(** Conversion to [size_t] (64 bits, unsigned). *)
Definition to_size_t (x : Z) : Z := x mod 2 ^ 64.
(** Conversion to [unsigned] (32 bits). *)
Definition to_unsigned (x : Z) : Z := x mod 2 ^ 32.
(** Conversion to [int] (32 bits, two's complement). *)
Definition to_int (x : Z) : Z := (x + 2 ^ 31) mod 2 ^ 32 - 2 ^ 31.

(** The element type tag of a tensor. Only the two enumerators the class
    dispatches on are named; every other enumerator is [other_type]. *)
Inductive Type_ : Type :=
| float32
| float16
| other_type (tag : nat).

(** A four-dimensional shape; [dim_k] is what [shape()[-k]] returns
    (an [int]). *)
Record Shape : Type := { dim_4 : Z; dim_3 : Z; dim_2 : Z; dim_1 : Z }.

(** What the class asks of the CUDA runtime, in program order. *)
Inductive event : Type :=
| EvSetDevice (no : Z)
| EvKernelLaunch (batchSize beamsPerBatch beamWidth vocabSize : Z)
| EvMemcpyDeviceToHost (bytes : Z)
| EvStreamSynchronize.

Definition is_launch (e : event) : bool :=
  match e with EvKernelLaunch _ _ _ _ => true | _ => false end.
Definition is_copy (e : event) : bool :=
  match e with EvMemcpyDeviceToHost _ => true | _ => false end.

Section Engine.

(** The scores are only ever compared and copied, so their type is left
    open: any type with a decidable total preorder will do. *)
Context {score : Type}.

(** [struct TopK]: the index [p] (an [int]) and the score [u] of a
    candidate. *)
Record TopK : Type := { p : Z; u : score }.

(** The tensor handed to [getNBestList]: shape, element type, and the
    elements in row-major order. *)
Record Tensor : Type := {
  shape : Shape;
  type : Type_;
  data : list score
}.

(** The object. Device and pinned host buffers are arrays reached through a
    raw pointer: a content per index. *)
Record NthElementGPU : Type := {
  deviceId_ : Z;
  maxBeamSize_ : Z;
  maxBatchSize_ : Z;
  topk_tmp_id_buf : nat -> Z;
  topk_tmp_val_buf : nat -> score;
  tops : nat -> TopK;
  topsHost : nat -> TopK
}.

(** The object together with the two vectors the caller passes by reference
    and the trace of runtime events. *)
Record World : Type := {
  self : NthElementGPU;
  outCosts : list score;
  outKeys : list Z;
  trace : list event
}.

Definition MAX_VOCAB_SIZE : Z := 500000.

(** Whether the build defines [COMPILE_FP16]. *)
Variable COMPILE_FP16 : bool.

(** The status of the runtime calls that are checked: [cudaError tr] says
    that the call the trace [tr] ends with returned a status other than
    [cudaSuccess]. The runtime is outside the program, so its answers are a
    parameter; an error a kernel launch has caused shows in the status of a
    later call. *)
Variable cudaError : list event -> bool.

(** [topK_kernelLauncher(probs, topk_tmp_id_buf, topk_tmp_val_buf, tops,
    batchSize, beamsPerBatch, beamWidth, vocabSize, stream)] of
    3rd_party/topk.cuh: it reads the scores and leaves new contents in the
    three device buffers. The sources at hand do not hold the launcher; it
    is taken as a call that returns, as [selectNBest] does not check
    anything after it. *)
Definition Launcher : Type :=
  list score -> (nat -> Z) -> (nat -> score) -> (nat -> TopK) ->
  Z -> Z -> Z -> Z ->
  (nat -> Z) * (nat -> score) * (nat -> TopK).

Local Open Scope abort_scope.

Definition emit (e : event) : M World unit :=
  modify (fun w => {| self := self w; outCosts := outCosts w;
                      outKeys := outKeys w; trace := trace w ++ [e] |}).

Definition field {A} (f : NthElementGPU -> A) : M World A :=
  fun w => Done (f (self w)) w.

(** Modelled from the spec: the macro [CUDA_CHECK(call)] of
    tensors/gpu/cuda_helpers.h, which is not part of the sources at hand. A
    failure of the runtime is fatal: the call is made, and a status other
    than [cudaSuccess] aborts. The message is kept as its format string. *)
Definition CUDA_CHECK (call : event) : M World unit :=
  emit call ;;
  w <- get ;;
  ABORT_IF (cudaError (trace w)) "CUDA error {} '{}' - {}:{}: {}".

Definition cudaSetDevice : M World unit :=
  no <- field deviceId_ ;;
  emit (EvSetDevice no).

Definition set_device_buffers (bufs : (nat -> Z) * (nat -> score) * (nat -> TopK))
    (e : NthElementGPU) : NthElementGPU :=
  {| deviceId_ := deviceId_ e; maxBeamSize_ := maxBeamSize_ e;
     maxBatchSize_ := maxBatchSize_ e;
     topk_tmp_id_buf := fst (fst bufs);
     topk_tmp_val_buf := snd (fst bufs);
     tops := snd bufs;
     topsHost := topsHost e |}.

Definition set_topsHost (h : nat -> TopK) (e : NthElementGPU) : NthElementGPU :=
  {| deviceId_ := deviceId_ e; maxBeamSize_ := maxBeamSize_ e;
     maxBatchSize_ := maxBatchSize_ e;
     topk_tmp_id_buf := topk_tmp_id_buf e;
     topk_tmp_val_buf := topk_tmp_val_buf e;
     tops := tops e;
     topsHost := h |}.

Definition on_self (f : NthElementGPU -> NthElementGPU) : M World unit :=
  modify (fun w => {| self := f (self w); outCosts := outCosts w;
                      outKeys := outKeys w; trace := trace w |}).

Definition selectNBest (launch : Launcher) (probs : list score)
    (batchSize beamsPerBatch beamWidth vocabSize : Z) : M World unit :=
  cudaSetDevice ;;
  on_self (fun e =>
    set_device_buffers
      (launch probs (topk_tmp_id_buf e) (topk_tmp_val_buf e) (tops e)
              batchSize beamsPerBatch beamWidth vocabSize) e) ;;
  emit (EvKernelLaunch batchSize beamsPerBatch beamWidth vocabSize).

(** Modelled from the spec: [sizeof(TopK)]. The declaration of [struct TopK]
    is not part of the sources at hand; a record is "an (index, value)
    pair", an [int] and a [float]. *)
Definition sizeof_TopK : Z := 8.

(** [cudaMemcpyAsync(topsHost, tops, bytes, cudaMemcpyDeviceToHost, 0)]:
    the records that lie within the first [bytes] bytes are copied. *)
Definition memcpy_tops (bytes : Z) (e : NthElementGPU) : NthElementGPU :=
  set_topsHost
    (fun i => if (Z.of_nat i + 1) * sizeof_TopK <=? bytes
              then tops e i else topsHost e i) e.

(** [numElts * sizeof(TopK)], computed in [size_t]. *)
Definition copy_bytes (numElts : Z) : Z := to_size_t (numElts * sizeof_TopK).

Definition push_back_pair (i : nat) : M World unit :=
  modify (fun w =>
    {| self := self w;
       outCosts := outCosts w ++ [u (topsHost (self w) i)];
       outKeys := outKeys w ++ [to_unsigned (p (topsHost (self w) i))];
       trace := trace w |}).

(** [for(size_t i = 0; i < numElts; ++i) { outKeys.push_back(topsHost[i].p);
    outValues.push_back(topsHost[i].u); }], with [n] iterations to go and
    the loop variable at [i]. *)
Fixpoint getPairs_loop (n : nat) (i : nat) : M World unit :=
  match n with
  | O => ret tt
  | S n' => push_back_pair i ;; getPairs_loop n' (S i)
  end.

(** The copy is asynchronous: the host mirror holds the records once the
    stream has been synchronised. *)
Definition getPairs (numElts : Z) : M World unit :=
  cudaSetDevice ;;
  CUDA_CHECK (EvMemcpyDeviceToHost (copy_bytes numElts)) ;;
  CUDA_CHECK EvStreamSynchronize ;;
  on_self (memcpy_tops (copy_bytes numElts)) ;;
  getPairs_loop (Z.to_nat numElts) 0.

Definition type_supported (t : Type_) : bool :=
  match t with
  | float32 => true
  | float16 => COMPILE_FP16
  | other_type _ => false
  end.

(** [N] is a [size_t]; the three dimensions are [int]s and are converted
    where C++ converts them. *)
Definition getNBestList (launch : Launcher)
    (scores : Tensor) (N : Z) (isFirst : bool) : M World unit :=
  cudaSetDevice ;;
  let vocabSize := dim_1 (shape scores) in
  let inputN := dim_2 (shape scores) in
  let dimBatch := dim_4 (shape scores) in
  maxBatchSize <- field maxBatchSize_ ;;
  maxBeamSize <- field maxBeamSize_ ;;
  ABORT_IF (negb (to_size_t inputN =? (if isFirst then 1 else N)))
    "Input tensor has wrong beam dim??" ;;
  ABORT_IF (vocabSize >? MAX_VOCAB_SIZE)
    "GetNBestList(): actual vocab size {} exceeds MAX_VOCAB_SIZE of {}" ;;
  ABORT_IF (to_size_t dimBatch >? maxBatchSize)
    "GetNBestList(): actual batch size {} exceeds initialization parameter {}" ;;
  ABORT_IF (Z.max N (to_size_t inputN) >? maxBeamSize)
    "GetNBestList(): actual beam size {} exceeds initialization parameter {}" ;;
  match type scores with
  | float32 =>
      selectNBest launch (data scores) dimBatch inputN (to_int N) vocabSize
  | float16 =>
      if COMPILE_FP16
      then selectNBest launch (data scores) dimBatch inputN (to_int N) vocabSize
      else ABORT "getNBestList not implemented for type {}"
  | other_type _ => ABORT "getNBestList not implemented for type {}"
  end ;;
  let numElts := to_size_t (to_size_t dimBatch * N) in
  getPairs numElts ;;
  w <- get ;;
  ABORT_IF (negb (Z.of_nat (List.length (outKeys w)) =? numElts))
    "Expected {} but got {} values during topk".

(** *** Construction *)

(** The constant [MAX_BLOCKS_PER_BEAM] of 3rd_party/topk.cuh. *)
Variable MAX_BLOCKS_PER_BEAM : nat.

(** [const int tempElts = maxBatchSize * maxBeamSize * maxBeamSize *
    MAX_BLOCKS_PER_BEAM], before it is narrowed to [int]. *)
Definition tempElts (maxBatchSize maxBeamSize : Z) : Z :=
  maxBatchSize * maxBeamSize * maxBeamSize * Z.of_nat MAX_BLOCKS_PER_BEAM.

(** The object as the constructor leaves it when it has returned: the sizes
    are stored and the four buffers allocated ([cudaMalloc] and
    [cudaHostAlloc] under [CUDA_CHECK], so the constructor returns only when
    they have succeeded); what the buffers hold at first is whatever the
    allocator left there. *)
Definition construct (maxBeamSize maxBatchSize : Z) (deviceId : Z)
    (id0 : nat -> Z) (val0 : nat -> score) (tops0 host0 : nat -> TopK)
    : NthElementGPU :=
  {| deviceId_ := deviceId;
     maxBeamSize_ := maxBeamSize;
     maxBatchSize_ := maxBatchSize;
     topk_tmp_id_buf := id0;
     topk_tmp_val_buf := val0;
     tops := tops0;
     topsHost := host0 |}.

(** The sizes are [size_t]s and the element count of the temporary buffers
    fits the [int] it is computed in. *)
Definition engine_ok (e : NthElementGPU) : Prop :=
  0 <= maxBeamSize_ e /\ 0 <= maxBatchSize_ e /\
  tempElts (maxBatchSize_ e) (maxBeamSize_ e) < 2 ^ 31.

(** *** The reduction kernels

    3rd_party/topk.cuh is not part of the sources at hand. What follows, up
    to [topK_kernelLauncher], is the two-stage block reduction as the
    specification describes it. *)

(** The order on scores, [leb a b] for "a is at most b". *)
Variable leb : score -> score -> bool.

(** The score a record slot carries when it holds no candidate. *)
Variable no_score : score.

(** [len] elements of [l] from position [off] on. *)
Definition slice {A} (off len : nat) (l : list A) : list A :=
  firstn len (skipn off l).

(** Modelled from the spec: the candidates of a tensor, "index is the
    flattened vocabulary position of a candidate, value is its score". *)
Definition enumerate (probs : list score) : list TopK :=
  map (fun iv => {| p := Z.of_nat (fst iv); u := snd iv |})
      (combine (seq 0 (List.length probs)) probs).

(** Insertion into a list that is ordered by falling score. *)
Fixpoint insert_desc (x : TopK) (l : list TopK) : list TopK :=
  match l with
  | [] => [x]
  | y :: t => if leb (u y) (u x) then x :: y :: t else y :: insert_desc x t
  end.

Definition sort_desc (l : list TopK) : list TopK :=
  fold_right insert_desc [] l.

(** Modelled from the spec: the "top-K candidates" of a list, the [k] best
    of [l], best first; among equal scores the earlier position wins. *)
Definition top_k (k : nat) (l : list TopK) : list TopK :=
  firstn k (sort_desc l).

(** Modelled from the spec: a slot without a candidate. The spec does not
    say what such a slot holds; it is given the index [-1], which no
    position of a tensor has. *)
Definition no_candidate : TopK := {| p := -1; u := no_score |}.

Definition is_candidate (c : TopK) : bool := negb (p c =? -1).

(** Exactly [k] slots: the candidates of [l], then empty slots. *)
Definition pad_to (k : nat) (l : list TopK) : list TopK :=
  firstn k (l ++ repeat no_candidate k).

(** New contents [new] from index 0 on, the old contents behind them. *)
Definition overwrite {A} (new : list A) (old : nat -> A) : nat -> A :=
  fun i => nth i new (old i).

(** Modelled from the spec: "partitions each row's vocabulary range across
    a bounded number of reduction blocks": every block covers the same
    number of consecutive vocabulary positions, the last ones possibly
    fewer. *)
Definition block_len (vocab : nat) : nat :=
  (vocab + MAX_BLOCKS_PER_BEAM - 1) / MAX_BLOCKS_PER_BEAM.

(** The scores of beam row [r] with their flattened positions. *)
Definition beam_row (probs : list score) (vocab r : nat) : list TopK :=
  slice (r * vocab) vocab (enumerate probs).

(** The part of beam row [r] that reduction block [k] covers. *)
Definition block_of (probs : list score) (vocab r k : nat) : list TopK :=
  slice (k * block_len vocab) (block_len vocab) (beam_row probs vocab r).

(** Modelled from the spec: stage 1 of [topK_kernelLauncher]
    (3rd_party/topk.cuh is not part of the sources at hand). "Stage 1
    partitions each row's vocabulary range across a bounded number of
    reduction blocks per beam row ([MAX_BLOCKS_PER_BEAM]), each block
    computing its local top-K candidates (value, index) independently and
    writing them into the temporary index/value buffers." Every block owns
    [K] consecutive slots, blocks of a row and rows follow each other. *)
Definition block_slots (probs : list score) (vocab K r k : nat) : list TopK :=
  pad_to K (top_k K (block_of probs vocab r k)).

Definition row_slots (probs : list score) (vocab K r : nat) : list TopK :=
  concat (map (block_slots probs vocab K r) (seq 0 MAX_BLOCKS_PER_BEAM)).

Definition stage1 (probs : list score) (rows vocab K : nat) : list TopK :=
  concat (map (row_slots probs vocab K) (seq 0 rows)).

(** The slots [off .. off + len - 1] of the two temporary buffers. *)
Definition read_slots (tmp_id : nat -> Z) (tmp_val : nat -> score)
    (off len : nat) : list TopK :=
  map (fun i => {| p := tmp_id (off + i)%nat; u := tmp_val (off + i)%nat |})
      (seq 0 len).

(** Modelled from the spec: stage 2 of [topK_kernelLauncher]. "Stage 2 merges
    the per-block partial results for each row into the row's final top-N
    record, written into the device result buffer." The row of batch entry
    [b] is made of its [beams] beam rows; its record has [N] slots. *)
Definition merge_row (tmp_id : nat -> Z) (tmp_val : nat -> score)
    (beams K N b : nat) : list TopK :=
  let width := (beams * (MAX_BLOCKS_PER_BEAM * K))%nat in
  pad_to N (top_k N (filter is_candidate
                            (read_slots tmp_id tmp_val (b * width) width))).

Definition stage2 (tmp_id : nat -> Z) (tmp_val : nat -> score)
    (batch beams K N : nat) : list TopK :=
  concat (map (merge_row tmp_id tmp_val beams K N) (seq 0 batch)).

(** Modelled from the spec: [topK_kernelLauncher] as the two stages in
    sequence over the three device buffers. *)
Definition topK_kernelLauncher : Launcher :=
  fun probs tmp_id tmp_val tops_buf batchSize beamsPerBatch beamWidth vocabSize =>
    let batch := Z.to_nat batchSize in
    let beams := Z.to_nat beamsPerBatch in
    let K := Z.to_nat beamWidth in
    let vocab := Z.to_nat vocabSize in
    let slots := stage1 probs (batch * beams) vocab K in
    let tmp_id' := overwrite (map p slots) tmp_id in
    let tmp_val' := overwrite (map u slots) tmp_val in
    (tmp_id', tmp_val',
     overwrite (stage2 tmp_id' tmp_val' batch beams K K) tops_buf).

(** The row of batch entry [b]: all scores of its beams, with their
    flattened positions. *)
Definition batch_row (scores : Tensor) (b : nat) : list TopK :=
  let width := (Z.to_nat (dim_2 (shape scores)) * Z.to_nat (dim_1 (shape scores)))%nat in
  slice (b * width) width (enumerate (data scores)).

(** *** Vocabulary of the statements about [getNBestList] *)

(** [desc a c]: [a] may stand before [c] in a list of falling scores. *)
Definition desc (a c : TopK) : Prop := leb (u c) (u a) = true.

(** The local top-K lists of the blocks of beam row [r], one after the
    other. *)
Definition local_tops (probs : list score) (vocab K r : nat) : list TopK :=
  concat (map (fun k => top_k K (block_of probs vocab r k))
              (seq 0 MAX_BLOCKS_PER_BEAM)).

(** The candidates that reach stage 2 for batch entry [b]: the local lists
    of its [beams] beam rows. *)
Definition candidates (probs : list score) (beams vocab K b : nat) : list TopK :=
  concat (map (local_tops probs vocab K) (seq (b * beams) beams)).

(** The best [N] of them, best first. *)
Definition final_row (probs : list score) (beams vocab N b : nat) : list TopK :=
  top_k N (candidates probs beams vocab N b).

(** The three dimensions the class reads are sizes held in [int]s. *)
Definition shape_ok (scores : Tensor) : Prop :=
  let s := shape scores in
  0 <= dim_4 s < 2 ^ 31 /\ 0 <= dim_2 s < 2 ^ 31 /\ 0 <= dim_1 s < 2 ^ 31.

(** The tensor is batch x 1 x beams x vocabulary and has one element per
    position. *)
Definition tensor_ok (scores : Tensor) : Prop :=
  let s := shape scores in
  shape_ok scores /\ dim_3 s = 1 /\
  Z.of_nat (List.length (data scores)) = dim_4 s * dim_2 s * dim_1 s.

(** The four shape preconditions of [getNBestList], as stated on the
    mathematical values. *)
Definition preconditions (e : NthElementGPU) (scores : Tensor) (N : Z)
    (isFirst : bool) : Prop :=
  dim_2 (shape scores) = (if isFirst then 1 else N) /\
  dim_1 (shape scores) <= MAX_VOCAB_SIZE /\
  dim_4 (shape scores) <= maxBatchSize_ e /\
  Z.max N (dim_2 (shape scores)) <= maxBeamSize_ e.

(** What was pushed onto a vector that held [old] before. *)
Definition appended {A} (old new : list A) : list A :=
  skipn (List.length old) new.

(** The first [n] records of a buffer. *)
Definition records (buf : nat -> TopK) (n : nat) : list TopK :=
  map buf (seq 0 n).

(** The result buffers hold [maxBatchSize * maxBeamSize] records, and their
    size in bytes, which the constructor computes in [size_t], has not
    wrapped around. *)
Definition capacity_ok (e : NthElementGPU) : Prop :=
  0 <= maxBeamSize_ e /\ 0 <= maxBatchSize_ e /\
  maxBatchSize_ e * maxBeamSize_ e * sizeof_TopK < 2 ^ 64.

(** The world in which [getNBestList] runs its checks: the device is bound,
    nothing else has happened. *)
Definition bound (w : World) : World :=
  {| self := self w; outCosts := outCosts w; outKeys := outKeys w;
     trace := trace w ++ [EvSetDevice (deviceId_ (self w))] |}.

(** The four [ABORT_IF] conditions of [getNBestList], all false. *)
Definition checks_ok (e : NthElementGPU) (scores : Tensor) (N : Z)
    (isFirst : bool) : bool :=
  (to_size_t (dim_2 (shape scores)) =? (if isFirst then 1 else N))
  && negb (dim_1 (shape scores) >? MAX_VOCAB_SIZE)
  && negb (to_size_t (dim_4 (shape scores)) >? maxBatchSize_ e)
  && negb (Z.max N (to_size_t (dim_2 (shape scores))) >? maxBeamSize_ e).

(** The argument [getNBestList] hands to [getPairs]: [dimBatch * N],
    computed in [size_t]. *)
Definition numElts_of (scores : Tensor) (N : Z) : Z :=
  to_size_t (to_size_t (dim_4 (shape scores)) * N).

(** The world after the checks and the kernel launch of [getNBestList]. *)
Definition launched (launch : Launcher) (scores : Tensor) (N : Z) (w : World)
    : World :=
  let s := shape scores in
  {| self := set_device_buffers
               (launch (data scores) (topk_tmp_id_buf (self w))
                       (topk_tmp_val_buf (self w)) (tops (self w))
                       (dim_4 s) (dim_2 s) (to_int N) (dim_1 s))
               (self w);
     outCosts := outCosts w;
     outKeys := outKeys w;
     trace := trace w ++ [EvSetDevice (deviceId_ (self w));
                          EvSetDevice (deviceId_ (self w));
                          EvKernelLaunch (dim_4 s) (dim_2 s) (to_int N) (dim_1 s)] |}.

(** The worlds in which [getPairs numElts], run in [w], looks at the status
    of its copy and of its synchronisation. *)
Definition copy_issued (numElts : Z) (w : World) : World :=
  {| self := self w; outCosts := outCosts w; outKeys := outKeys w;
     trace := trace w ++ [EvSetDevice (deviceId_ (self w));
                          EvMemcpyDeviceToHost (copy_bytes numElts)] |}.

Definition sync_issued (numElts : Z) (w : World) : World :=
  {| self := self w; outCosts := outCosts w; outKeys := outKeys w;
     trace := trace w ++ [EvSetDevice (deviceId_ (self w));
                          EvMemcpyDeviceToHost (copy_bytes numElts);
                          EvStreamSynchronize] |}.

(** One of the two checked calls of [getPairs numElts], run in [w], reports
    an error. *)
Definition extraction_fails (numElts : Z) (w : World) : bool :=
  cudaError (trace (copy_issued numElts w))
  || cudaError (trace (sync_issued numElts w)).

(** The same for the extraction that [getNBestList] runs after its launch. *)
Definition runtime_fails (launch : Launcher) (scores : Tensor) (N : Z)
    (w : World) : bool :=
  extraction_fails (numElts_of scores N) (launched launch scores N w).

(** *** The allocations, the factory and repeated calls *)

(** [maxBatchSize * maxBeamSize * sizeof(TopK)], the byte size of [tops]
    that the constructor hands to [cudaMalloc], computed in [size_t]. *)
Definition tops_bytes (e : NthElementGPU) : Z :=
  to_size_t (to_size_t (maxBatchSize_ e * maxBeamSize_ e) * sizeof_TopK).

(** [maxBeamSize * maxBatchSize * sizeof(TopK)], the byte size of
    [topsHost] that the constructor hands to [cudaHostAlloc]. *)
Definition topsHost_bytes (e : NthElementGPU) : Z :=
  to_size_t (to_size_t (maxBeamSize_ e * maxBatchSize_ e) * sizeof_TopK).

(** The callable the factory returns: a function with the signature of
    [getNBestList]; the two vectors are the world's. *)
Definition GetNBestListFn : Type := Tensor -> Z -> bool -> M World unit.

(** [createGetNBestListGPUFn(beamSize, dimBatch, deviceId)]: the engine
    [New<NthElementGPU>(beamSize, dimBatch, deviceId)] and the lambda that
    forwards to its [getNBestList], when the constructor has returned. The
    lambda holds the engine by shared pointer; here the engine is the one of
    the world the lambda runs in. *)
Definition createGetNBestListGPUFn (launch : Launcher)
    (beamSize dimBatch : Z) (deviceId : Z)
    (id0 : nat -> Z) (val0 : nat -> score) (tops0 host0 : nat -> TopK)
    : NthElementGPU * GetNBestListFn :=
  (construct beamSize dimBatch deviceId id0 val0 tops0 host0,
   fun logProbs N isFirst => getNBestList launch logProbs N isFirst).

(** One use of the callable. *)
Record request : Type := {
  req_scores : Tensor;
  req_N : Z;
  req_isFirst : bool
}.

(** A caller's use of the callable for one request: two vectors that start
    empty, the call, and what the vectors hold after it. *)
Definition step (f : GetNBestListFn) (r : request)
    : M World (list Z * list score) :=
  modify (fun w => {| self := self w; outCosts := []; outKeys := [];
                      trace := trace w |}) ;;
  f (req_scores r) (req_N r) (req_isFirst r) ;;
  w <- get ;;
  ret (outKeys w, outCosts w).

(** Requests served one after the other by the same callable. *)
Fixpoint steps (f : GetNBestListFn) (rs : list request)
    : M World (list (list Z * list score)) :=
  match rs with
  | [] => ret []
  | r :: rs' => out <- step f r ;; outs <- steps f rs' ;; ret (out :: outs)
  end.

(** The world after [getPairs numElts] has returned in [w]: the loop reads
    the host mirror as the copy left it. *)
Definition extracted (numElts : Z) (w : World) : World :=
  let e' := memcpy_tops (copy_bytes numElts) (self w) in
  {| self := e';
     outCosts := outCosts w
                 ++ map u (records (topsHost e') (Z.to_nat numElts));
     outKeys := outKeys w
                ++ map (fun t => to_unsigned (p t))
                       (records (topsHost e') (Z.to_nat numElts));
     trace := trace w ++ [EvSetDevice (deviceId_ (self w));
                          EvMemcpyDeviceToHost (copy_bytes numElts);
                          EvStreamSynchronize] |}.

End Engine.

(** *** A small run to evaluate the definitions on

    An engine for batches of at most two sentences and beams of at most
    three hypotheses, whose buffers were left with stale contents, and the
    first decoding step of a batch of two over a vocabulary of five. Scores
    are integers here (hundredths). *)
Definition stale : @TopK Z := {| p := 77; u := 55 |}.

Definition example_engine : @NthElementGPU Z :=
  construct 3 2 0 (fun _ => 77) (fun _ => 55) (fun _ => stale) (fun _ => stale).

Definition example_scores : @Tensor Z :=
  {| shape := {| dim_4 := 2; dim_3 := 1; dim_2 := 1; dim_1 := 5 |};
     type := float32;
     data := [10; 90; 30; 5; 40; 20; 20; 80; 10; 60] |}.

(** The same scores declared with an element type the class does not
    dispatch on. *)
Definition example_scores_typed (t : Type_) : @Tensor Z :=
  {| shape := shape example_scores; type := t; data := data example_scores |}.

(** A tensor of one row over a vocabulary of [vocab], for the checks on
    the shape. *)
Definition example_vocab (t : Type_) (vocab : Z) : @Tensor Z :=
  {| shape := {| dim_4 := 1; dim_3 := 1; dim_2 := 1; dim_1 := vocab |};
     type := t; data := [] |}.

Definition example_world (costs : list Z) (keys : list Z) : @World Z :=
  {| self := example_engine; outCosts := costs; outKeys := keys; trace := [] |}.

Definition example_launch : @Launcher Z :=
  topK_kernelLauncher 8 Z.leb (-1000000).

(** A runtime whose checked calls all succeed, and one whose stream
    synchronisations fail. *)
Definition never_fails (tr : list event) : bool := false.

Definition sync_fails (tr : list event) : bool :=
  match last tr (EvSetDevice 0) with
  | EvStreamSynchronize => true
  | _ => false
  end.

End NthElement.

(** * Properties of the backend *)

Module BackendFacts.

Import Backend.

Section WithVendor.

Variable cublasCreate : list event -> Z.
Variable cusparseCreate : list event -> Z.
Variable cudaError : list event -> bool.

Local Abbreviation run := (Backend.run cublasCreate cusparseCreate cudaError).
Local Abbreviation invoke :=
  (Backend.invoke cublasCreate cusparseCreate cudaError).
Local Abbreviation getCublasHandle :=
  (Backend.getCublasHandle cublasCreate cudaError).
Local Abbreviation getCusparseHandle :=
  (Backend.getCusparseHandle cusparseCreate cudaError).
Local Abbreviation destroy := (Backend.destroy cudaError).

Ltac run_call :=
  cbv [invoke Backend.invoke returning bind ret get put modify field emit
       on_self Backend.setDevice Backend.synchronize CUDA_CHECK
       Backend.getCublasHandle Backend.getCusparseHandle
       getOneGPU getZeroGPU getCudaComputeCapability setInt16 isInt16 setInt8
       isInt8 setShifted isShifted setShiftedAll isShiftedAll setDumpQuantMult
       DumpQuantMult setPrecomputedAlpha isPrecomputedAlpha
       setLegacyBatchedGemm isLegacyBatchedGemm setTensorCoreGemm
       useTensorCoreGemm setFused isFused LOG_ONCE ABORT_IF state_of
       unsupported_setter unsupported_getter].

(** A property of the world that every member call keeps is kept by every
    sequence of calls, up to and including the state of an abort. *)
Lemma run_preserves (P : World -> Prop) :
  (forall c w, P w -> P (state_of (invoke c w))) ->
  forall cs w, P w -> P (state_of (run cs w)).
Proof.
  intros step cs; induction cs as [|c cs IH]; intros w Pw; simpl.
  - exact Pw.
  - unfold bind. specialize (step c w Pw).
    destruct (invoke c w) as [v w1|msg w1]; simpl in step |- *.
    + specialize (IH w1 step).
      destruct (run cs w1) as [vs w2|msg w2]; simpl in IH |- *; exact IH.
    + exact step.
Qed.

Lemma invoke_keeps_cublas (h : Z) (c : call) (w : World) :
  h <> 0 -> cublasHandle_ (self w) = h ->
  cublasHandle_ (self (state_of (invoke c w))) = h.
Proof.
  intros Hh Hw. destruct c; run_call; simpl;
    repeat match goal with
           | |- context [if ?b then _ else _] => destruct b eqn:?
           end; simpl; try assumption.
  apply Z.eqb_eq in Heqb. congruence.
Qed.

Lemma invoke_keeps_cusparse (h : Z) (c : call) (w : World) :
  h <> 0 -> cusparseHandle_ (self w) = h ->
  cusparseHandle_ (self (state_of (invoke c w))) = h.
Proof.
  intros Hh Hw. destruct c; run_call; simpl;
    repeat match goal with
           | |- context [if ?b then _ else _] => destruct b eqn:?
           end; simpl; try assumption.
  apply Z.eqb_eq in Heqb. congruence.
Qed.

Lemma invoke_keeps_tensorCore (c : call) (w : World) :
  tensorCore_ (self w) = true ->
  tensorCore_ (self (state_of (invoke c w))) = true.
Proof.
  intros Hw. destruct c; run_call; simpl;
    repeat match goal with
           | |- context [if ?b then _ else _] => destruct b eqn:?
           end; simpl; try assumption; reflexivity.
Qed.

Lemma log_count_app (s : site) (tr1 tr2 : list event) :
  log_count s (tr1 ++ tr2) = (log_count s tr1 + log_count s tr2)%nat.
Proof.
  unfold log_count. rewrite filter_app, length_app. reflexivity.
Qed.

Lemma site_eqb_eq (s t : site) : site_eqb s t = true -> s = t.
Proof. destruct s, t; simpl; congruence. Qed.

Lemma log_inv_ext (w w' : World) :
  logged w' = logged w ->
  (forall s, log_count s (trace w') = log_count s (trace w)) ->
  log_inv w -> log_inv w'.
Proof.
  intros Hl Hc Hw s. rewrite Hl, Hc. exact (Hw s).
Qed.

Lemma log_inv_once (w : World) (t : site) (msg : string) :
  log_inv w -> log_inv (state_of (LOG_ONCE t msg w)).
Proof.
  intros Hw. unfold LOG_ONCE.
  destruct (existsb (site_eqb t) (logged w)) eqn:Et; simpl; [exact Hw|].
  intros s. destruct (Hw s) as [H0 H1]. simpl.
  rewrite log_count_app. unfold log_count at 2 4. simpl.
  destruct (site_eqb s t) eqn:Est; simpl.
  - apply site_eqb_eq in Est. subst t. rewrite (H0 Et). split; [discriminate|lia].
  - rewrite !Nat.add_0_r. split; assumption.
Qed.

Lemma state_of_returning {A} (inj : A -> value) (m : M World A) (w : World) :
  state_of (returning inj m w) = state_of (m w).
Proof.
  unfold returning, bind, ret. destruct (m w); reflexivity.
Qed.

Lemma invoke_keeps_log_inv (c : call) (w : World) :
  log_inv w -> log_inv (state_of (invoke c w)).
Proof.
  intros Hw.
  destruct c; unfold Backend.invoke; rewrite state_of_returning;
    try (apply log_inv_once; exact Hw);
    apply log_inv_ext with w; try exact Hw;
    run_call;
    repeat match goal with
           | |- context [if ?b then _ else _] => destruct b eqn:?
           end; simpl; try reflexivity;
    intros s; rewrite ?log_count_app; unfold log_count; simpl; lia.
Qed.

Lemma invoke_log_count_mono (s : site) (c : call) (w : World) :
  (log_count s (trace w) <= log_count s (trace (state_of (invoke c w))))%nat.
Proof.
  destruct c; unfold Backend.invoke; rewrite state_of_returning;
    run_call;
    repeat match goal with
           | |- context [if ?b then _ else _] => destruct b eqn:?
           end; simpl; rewrite ?log_count_app; lia.
Qed.

Lemma run_log_count_mono (s : site) (n : nat) (cs : list call) (w : World) :
  (n <= log_count s (trace w))%nat ->
  (n <= log_count s (trace (state_of (run cs w))))%nat.
Proof.
  apply (run_preserves (fun w => (n <= log_count s (trace w))%nat)).
  intros c w' H. pose proof (invoke_log_count_mono s c w'). lia.
Qed.

Lemma fresh_log_inv (b : Backend) : log_inv (fresh b).
Proof. intros s. split; [reflexivity|unfold log_count; simpl; lia]. Qed.

Lemma unsupported_setter_effect (s : site) (v : bool) (w : World) :
  exists msg,
    unsupported_setter s v w =
    Done tt (if existsb (site_eqb s) (logged w) then w
             else {| self := self w; trace := trace w ++ [EvLog s msg];
                     logged := s :: logged w |}).
Proof.
  destruct s; unfold unsupported_setter, setInt16, setShifted, setShiftedAll,
    setLegacyBatchedGemm, LOG_ONCE; eexists;
    match goal with
    | |- context [existsb ?f ?l] => destruct (existsb f l)
    end; reflexivity.
Qed.

(** C6: [setTensorCoreGemm(true)] aborts when the cached compute-capability
    major version is below 7 (nothing has changed when it does); from major
    version 7 on it returns, only the tensor-core flag is written, and
    [useTensorCoreGemm()] then answers [true]. *)
Theorem setTensorCoreGemm_true_needs_major_7 (w : World) :
  (major (compute_ (self w)) < 7 ->
   exists msg, setTensorCoreGemm true w = Aborted msg w) /\
  (7 <= major (compute_ (self w)) ->
   exists w',
     setTensorCoreGemm true w = Done tt w' /\
     self w' = set_tensorCore true (self w) /\
     trace w' = trace w /\ logged w' = logged w /\
     useTensorCoreGemm w' = Done true w').
Proof.
  split; intros Hm.
  - run_call. apply Z.ltb_lt in Hm. rewrite Hm. eexists. reflexivity.
  - run_call. apply Z.ltb_ge in Hm. rewrite Hm. eexists.
    repeat split.
Qed.

Lemma setTensorCoreGemm_true_needs_major_7_witness :
  (exists msg, setTensorCoreGemm true (fresh (example_backend 6))
               = Aborted msg (fresh (example_backend 6))) /\
  (exists w',
     setTensorCoreGemm true (fresh (example_backend 7)) = Done tt w' /\
     self w' = set_tensorCore true (self (fresh (example_backend 7))) /\
     trace w' = trace (fresh (example_backend 7)) /\
     logged w' = logged (fresh (example_backend 7)) /\
     useTensorCoreGemm w' = Done true w').
Proof.
  split.
  - apply (proj1 (setTensorCoreGemm_true_needs_major_7 (fresh (example_backend 6)))).
    simpl. lia.
  - apply (proj2 (setTensorCoreGemm_true_needs_major_7 (fresh (example_backend 7)))).
    simpl. lia.
Defined.

(** C7: for the dense and for the sparse library alike, a getter that finds
    its handle null binds the device and, when the runtime reports no error
    for that, has the library create a handle, stores it and binds it to the
    per-thread stream; a getter that finds a handle returns it and does
    nothing else; a handle that is not null stays the same handle through
    every sequence of member calls; and the destructor, when the runtime
    reports no error for its binding of the device, leaves both handles
    null. *)
Theorem math_handles_are_lazy_latches (w : World) :
  let bind_device := EvSetDevice (to_int (deviceId_ (self w))) in
  (cublasHandle_ (self w) = 0 ->
   cudaError (trace w ++ [bind_device]) = false ->
   let h := cublasCreate (trace w ++ [bind_device]) in
   getCublasHandle w =
   Done h {| self := set_cublasHandle h (self w);
             trace := trace w ++ [bind_device;
                                  EvCublasCreate h;
                                  EvCublasSetStreamPerThread h];
             logged := logged w |}) /\
  (cublasHandle_ (self w) <> 0 ->
   getCublasHandle w = Done (cublasHandle_ (self w)) w /\
   forall cs,
     cublasHandle_ (self (state_of (run cs w))) = cublasHandle_ (self w)) /\
  (cusparseHandle_ (self w) = 0 ->
   cudaError (trace w ++ [bind_device]) = false ->
   let h := cusparseCreate (trace w ++ [bind_device]) in
   getCusparseHandle w =
   Done h {| self := set_cusparseHandle h (self w);
             trace := trace w ++ [bind_device;
                                  EvCusparseCreate h;
                                  EvCusparseSetStreamPerThread h];
             logged := logged w |}) /\
  (cusparseHandle_ (self w) <> 0 ->
   getCusparseHandle w = Done (cusparseHandle_ (self w)) w /\
   forall cs,
     cusparseHandle_ (self (state_of (run cs w))) = cusparseHandle_ (self w)) /\
  (cudaError (trace w ++ [bind_device]) = false ->
   cublasHandle_ (self (state_of (destroy w))) = 0 /\
   cusparseHandle_ (self (state_of (destroy w))) = 0).
Proof.
  cbv zeta.
  split.
  { intros H0 Hrt. run_call. rewrite H0. simpl. rewrite Hrt. simpl.
    rewrite <- !app_assoc. reflexivity. }
  split.
  { intros H. split.
    - run_call. apply Z.eqb_neq in H. rewrite H. destruct w; reflexivity.
    - intros cs.
      apply (run_preserves
               (fun w' => cublasHandle_ (self w') = cublasHandle_ (self w))).
      + intros c w' Hw'. apply invoke_keeps_cublas; assumption.
      + reflexivity. }
  split.
  { intros H0 Hrt. run_call. rewrite H0. simpl. rewrite Hrt. simpl.
    rewrite <- !app_assoc. reflexivity. }
  split.
  { intros H. split.
    - run_call. apply Z.eqb_neq in H. rewrite H. destruct w; reflexivity.
    - intros cs.
      apply (run_preserves
               (fun w' => cusparseHandle_ (self w') = cusparseHandle_ (self w))).
      + intros c w' Hw'. apply invoke_keeps_cusparse; assumption.
      + reflexivity. }
  intros Hrt. unfold Backend.destroy. run_call. simpl. rewrite Hrt. simpl.
  destruct (cusparseHandle_ (self w) =? 0) eqn:Es; simpl;
    destruct (cublasHandle_ (self w) =? 0) eqn:Eb; simpl;
    try apply Z.eqb_eq in Es; try apply Z.eqb_eq in Eb; auto.
Qed.

(** C8: each of [setInt16], [setShifted], [setShiftedAll] and
    [setLegacyBatchedGemm] returns for any argument and leaves the object as
    it was; the only thing it may do is put its notice into the log, which
    it does when its call site has not logged yet. Whatever was called
    before, the matching getter answers [false] and changes nothing, and a
    process that starts with an empty log never holds more than one notice
    of a call site, and holds exactly one once the setter has been called. *)
Theorem unsupported_setters_are_logged_noops (s : site) (v : bool) (w : World) :
  (exists msg,
     unsupported_setter s v w =
     Done tt (if existsb (site_eqb s) (logged w) then w
              else {| self := self w; trace := trace w ++ [EvLog s msg];
                      logged := s :: logged w |})) /\
  self (state_of (unsupported_setter s v w)) = self w /\
  unsupported_getter s w = Done false w /\
  (forall cs,
     unsupported_getter s (state_of (run cs w))
     = Done false (state_of (run cs w))) /\
  (forall cs b, (log_count s (trace (state_of (run cs (fresh b)))) <= 1)%nat) /\
  (forall cs b,
     log_count s (trace (state_of
       (run (unsupported_setter_call s v :: cs) (fresh b)))) = 1%nat).
Proof.
  split; [apply unsupported_setter_effect|].
  split.
  { destruct (unsupported_setter_effect s v w) as [msg ->].
    simpl. destruct (existsb (site_eqb s) (logged w)); reflexivity. }
  split; [destruct s; reflexivity|].
  split; [intros cs; destruct s; reflexivity|].
  assert (Hle : forall cs b,
             (log_count s (trace (state_of (run cs (fresh b)))) <= 1)%nat).
  { intros cs b.
    assert (Hinv : log_inv (state_of (run cs (fresh b)))).
    { apply (run_preserves log_inv).
      - intros c w'. apply invoke_keeps_log_inv.
      - apply fresh_log_inv. }
    apply (Hinv s). }
  split; [exact Hle|].
  intros cs b.
  specialize (Hle (unsupported_setter_call s v :: cs) b).
  assert (Hge : (1 <= log_count s (trace (state_of
                   (run (unsupported_setter_call s v :: cs) (fresh b)))))%nat).
  { simpl. unfold bind at 1.
    assert (Hfirst : exists w1, invoke (unsupported_setter_call s v) (fresh b)
                                = Done VUnit w1
                                /\ (1 <= log_count s (trace w1))%nat).
    { destruct s; eexists; (split; [reflexivity|]);
        unfold log_count; simpl; lia. }
    destruct Hfirst as [w1 [-> H1]].
    pose proof (run_log_count_mono s 1 cs w1 H1) as Hmono.
    unfold bind. destruct (run cs w1); simpl in *; exact Hmono. }
  lia.
Qed.

(** C9: [setTensorCoreGemm(false)] returns and leaves the whole world as it
    was, the tensor-core flag, the trace and the log included: nothing is
    checked, nothing aborts, nothing is logged, and [useTensorCoreGemm()]
    answers after the call what it answered before it. A flag that is set
    stays set through every sequence of member calls. *)
Theorem setTensorCoreGemm_false_changes_nothing (w : World) :
  setTensorCoreGemm false w = Done tt w /\
  bind (setTensorCoreGemm false) (fun _ => useTensorCoreGemm) w
  = useTensorCoreGemm w /\
  (tensorCore_ (self w) = true ->
   forall cs, tensorCore_ (self (state_of (run cs w))) = true).
Proof.
  split; [reflexivity|]. split; [reflexivity|].
  intros Hset cs.
  apply (run_preserves (fun w' => tensorCore_ (self w') = true)).
  - intros c w' Hw'. apply invoke_keeps_tensorCore. exact Hw'.
  - exact Hset.
Qed.

End WithVendor.

Lemma math_handles_are_lazy_latches_witness :
  let w0 := fresh (example_backend 7) in
  let h := example_create [EvSetDevice 0] in
  let w1 := {| self := set_cublasHandle h (example_backend 7);
               trace := [EvSetDevice 0; EvCublasCreate h;
                         EvCublasSetStreamPerThread h];
               logged := [] |} in
  let w2 := {| self := set_cusparseHandle h (example_backend 7);
               trace := [EvSetDevice 0; EvCusparseCreate h;
                         EvCusparseSetStreamPerThread h];
               logged := [] |} in
  Backend.getCublasHandle example_create never_fails w0 = Done h w1 /\
  (Backend.getCublasHandle example_create never_fails w1 = Done h w1 /\
   forall cs,
     cublasHandle_
       (self (state_of (Backend.run example_create example_create never_fails
                          cs w1)))
     = h) /\
  Backend.getCusparseHandle example_create never_fails w0 = Done h w2 /\
  (Backend.getCusparseHandle example_create never_fails w2 = Done h w2 /\
   forall cs,
     cusparseHandle_
       (self (state_of (Backend.run example_create example_create never_fails
                          cs w2)))
     = h) /\
  (cublasHandle_ (self (state_of (Backend.destroy never_fails w1))) = 0 /\
   cusparseHandle_ (self (state_of (Backend.destroy never_fails w1))) = 0).
Proof.
  intros w0 h w1 w2.
  pose proof (math_handles_are_lazy_latches example_create example_create
                never_fails w0) as (Hd0 & _ & Hs0 & _).
  pose proof (math_handles_are_lazy_latches example_create example_create
                never_fails w1) as (_ & Hd1 & _ & _ & Hdes).
  pose proof (math_handles_are_lazy_latches example_create example_create
                never_fails w2) as (_ & _ & _ & Hs1 & _).
  split; [apply Hd0; reflexivity|].
  split; [apply Hd1; vm_compute; discriminate|].
  split; [apply Hs0; reflexivity|].
  split; [apply Hs1; vm_compute; discriminate|].
  apply Hdes. reflexivity.
Defined.

Lemma setTensorCoreGemm_false_changes_nothing_witness :
  let w := {| self := set_tensorCore true (example_backend 7);
              trace := []; logged := [] |} in
  setTensorCoreGemm false w = Done tt w /\
  forall cs,
    tensorCore_
      (self (state_of (Backend.run example_create example_create never_fails
                         cs w)))
    = true.
Proof.
  intros w.
  pose proof (setTensorCoreGemm_false_changes_nothing
                example_create example_create never_fails w)
    as (Hnoop & _ & Hlatch).
  split; [exact Hnoop|]. apply Hlatch. reflexivity.
Defined.

End BackendFacts.

(** * Properties of the N-best selection *)

Module NthElementFacts.

Import NthElement.

Section Extraction.

Variable score : Type.
Variable COMPILE_FP16 : bool.
Variable cudaError : list event -> bool.

Local Abbreviation World := (@NthElement.World score).
Local Abbreviation NthElementGPU := (@NthElement.NthElementGPU score).
Local Abbreviation Tensor := (@NthElement.Tensor score).
Local Abbreviation TopK := (@NthElement.TopK score).
Local Abbreviation Launcher := (@NthElement.Launcher score).
Local Abbreviation getNBestList :=
  (@NthElement.getNBestList score COMPILE_FP16 cudaError).
Local Abbreviation getPairs := (@NthElement.getPairs score cudaError).
Local Abbreviation extraction_fails :=
  (@NthElement.extraction_fails score cudaError).
Local Abbreviation runtime_fails := (@NthElement.runtime_fails score cudaError).

Lemma world_eta (w : World) :
  {| self := self w; outCosts := outCosts w; outKeys := outKeys w;
     trace := trace w |} = w.
Proof. destruct w; reflexivity. Qed.

(** The loop of [getPairs] pushes the records [i .. i + n - 1] of the host
    mirror, each one's index and value at the same position of the two
    vectors. *)
Lemma getPairs_loop_spec (n : nat) : forall (i : nat) (w : World),
  getPairs_loop n i w =
  Done tt {| self := self w;
             outCosts := outCosts w
                         ++ map (fun j => u (topsHost (self w) j)) (seq i n);
             outKeys := outKeys w
                        ++ map (fun j => to_unsigned (p (topsHost (self w) j)))
                               (seq i n);
             trace := trace w |}.
Proof.
  induction n as [|n IH]; intros i w; simpl.
  - unfold ret. rewrite !app_nil_r, world_eta. reflexivity.
  - unfold bind, push_back_pair, modify. rewrite IH. simpl.
    rewrite <- !app_assoc. reflexivity.
Qed.

(** [getPairs] aborts at the first of its two checked calls that reports an
    error, with nothing copied or pushed, and does its work otherwise. *)
Lemma getPairs_outcome (numElts : Z) (w : World) :
  getPairs numElts w
  = if cudaError (trace (copy_issued numElts w))
    then Aborted "CUDA error {} '{}' - {}:{}: {}" (copy_issued numElts w)
    else if cudaError (trace (sync_issued numElts w))
         then Aborted "CUDA error {} '{}' - {}:{}: {}" (sync_issued numElts w)
         else Done tt (extracted numElts w).
Proof.
  unfold NthElement.getPairs, copy_issued, sync_issued.
  unfold bind at 1. unfold cudaSetDevice, bind at 1.
  unfold field at 1. unfold emit at 1. unfold modify at 1.
  unfold bind at 1. unfold CUDA_CHECK at 1. unfold bind at 1.
  unfold emit at 1. unfold modify at 1. unfold bind at 1. unfold get at 1.
  unfold ABORT_IF at 1. cbn [trace self outCosts outKeys].
  rewrite <- !app_assoc. cbn [app].
  destruct (cudaError (trace w ++ [EvSetDevice (deviceId_ (self w));
                                   EvMemcpyDeviceToHost (copy_bytes numElts)]));
    [reflexivity|].
  unfold bind at 1. unfold CUDA_CHECK at 1. unfold bind at 1.
  unfold emit at 1. unfold modify at 1. unfold bind at 1. unfold get at 1.
  unfold ABORT_IF at 1. cbn [trace self outCosts outKeys].
  rewrite <- !app_assoc. cbn [app].
  destruct (cudaError (trace w ++ [EvSetDevice (deviceId_ (self w));
                                   EvMemcpyDeviceToHost (copy_bytes numElts);
                                   EvStreamSynchronize]));
    [reflexivity|].
  unfold bind, on_self, modify.
  rewrite getPairs_loop_spec. unfold extracted, records. cbv zeta. simpl.
  rewrite !map_map. reflexivity.
Qed.

Lemma getPairs_extracted (numElts : Z) (w : World) :
  extraction_fails numElts w = false ->
  getPairs numElts w = Done tt (extracted numElts w).
Proof.
  unfold NthElement.extraction_fails. intros H.
  apply orb_false_iff in H. destruct H as [Hc Hs].
  rewrite getPairs_outcome, Hc, Hs. reflexivity.
Qed.

(** A failed extraction aborts with the engine and both vectors as they
    were. *)
Lemma getPairs_fails (numElts : Z) (w : World) :
  extraction_fails numElts w = true ->
  exists w',
    getPairs numElts w = Aborted "CUDA error {} '{}' - {}:{}: {}" w' /\
    self w' = self w /\ outCosts w' = outCosts w /\ outKeys w' = outKeys w /\
    (w' = copy_issued numElts w \/ w' = sync_issued numElts w).
Proof.
  unfold NthElement.extraction_fails. intros H. rewrite getPairs_outcome.
  destruct (cudaError (trace (copy_issued numElts w))) eqn:Ec.
  - eexists. split; [reflexivity|]. repeat split. left. reflexivity.
  - change (cudaError (trace (sync_issued numElts w)) = true) in H.
    rewrite H.
    eexists. split; [reflexivity|]. repeat split. right. reflexivity.
Qed.

Lemma selectNBest_launched (launch : Launcher) (scores : Tensor) (N : Z)
    (w : World) :
  selectNBest launch (data scores) (dim_4 (shape scores))
              (dim_2 (shape scores)) (to_int N) (dim_1 (shape scores))
              (bound w)
  = Done tt (launched launch scores N w).
Proof.
  unfold selectNBest, bind, cudaSetDevice, field, emit, on_self, modify,
    launched, bound. simpl.
  rewrite <- !app_assoc. reflexivity.
Qed.

(** A failed check aborts in the world the checks started in. *)
Lemma getNBestList_check_fails (launch : Launcher) (scores : Tensor) (N : Z)
    (isFirst : bool) (w : World) :
  checks_ok (self w) scores N isFirst = false ->
  exists msg, getNBestList launch scores N isFirst w = Aborted msg (bound w).
Proof.
  unfold checks_ok, NthElement.getNBestList. intros H.
  unfold bind at 1. unfold cudaSetDevice at 1. unfold bind at 1.
  unfold field at 1. unfold emit at 1. unfold modify at 1.
  fold (bound w).
  unfold bind at 1. unfold field at 1.
  unfold bind at 1. unfold field at 1.
  change (self (bound w)) with (self w).
  unfold bind at 1. unfold ABORT_IF at 1.
  destruct (to_size_t (dim_2 (shape scores)) =? (if isFirst then 1 else N));
    simpl negb; cbv iota; [|eexists; reflexivity].
  unfold bind at 1. unfold ABORT_IF at 1.
  destruct (dim_1 (shape scores) >? MAX_VOCAB_SIZE);
    cbv iota; [eexists; reflexivity|].
  unfold bind at 1. unfold ABORT_IF at 1.
  destruct (to_size_t (dim_4 (shape scores)) >? maxBatchSize_ (self w));
    cbv iota; [eexists; reflexivity|].
  unfold bind at 1. unfold ABORT_IF at 1.
  destruct (Z.max N (to_size_t (dim_2 (shape scores))) >? maxBeamSize_ (self w));
    cbv iota; [eexists; reflexivity|].
  discriminate H.
Qed.

(** With the checks passed, the run is decided by the element type, by the
    runtime and by the final size check. *)
Lemma getNBestList_after_checks (launch : Launcher) (scores : Tensor) (N : Z)
    (isFirst : bool) (w : World) :
  checks_ok (self w) scores N isFirst = true ->
  getNBestList launch scores N isFirst w =
  if type_supported COMPILE_FP16 (type scores) then
    (bind (getPairs (numElts_of scores N))
       (fun _ => bind get (fun w0 : World =>
          ABORT_IF (negb (Z.of_nat (List.length (outKeys w0))
                          =? numElts_of scores N))
                   "Expected {} but got {} values during topk")))
      (launched launch scores N w)
  else Aborted "getNBestList not implemented for type {}" (bound w).
Proof.
  unfold checks_ok, NthElement.getNBestList. intros H.
  apply andb_prop in H. destruct H as [H H4].
  apply andb_prop in H. destruct H as [H H3].
  apply andb_prop in H. destruct H as [H1 H2].
  apply negb_true_iff in H2, H3, H4.
  unfold bind at 1. unfold cudaSetDevice at 1. unfold bind at 1.
  unfold field at 1. unfold emit at 1. unfold modify at 1.
  fold (bound w).
  unfold bind at 1. unfold field at 1.
  unfold bind at 1. unfold field at 1.
  change (self (bound w)) with (self w).
  unfold bind at 1. unfold ABORT_IF at 1. rewrite H1. simpl negb. cbv iota.
  unfold bind at 1. unfold ABORT_IF at 1. rewrite H2. cbv iota.
  unfold bind at 1. unfold ABORT_IF at 1. rewrite H3. cbv iota.
  unfold bind at 1. unfold ABORT_IF at 1. rewrite H4. cbv iota.
  unfold bind at 1.
  unfold type_supported.
  destruct (type scores) as [| |tag].
  - rewrite selectNBest_launched. reflexivity.
  - destruct COMPILE_FP16.
    + rewrite selectNBest_launched. reflexivity.
    + reflexivity.
  - reflexivity.
Qed.

Lemma getNBestList_checks_pass (launch : Launcher) (scores : Tensor) (N : Z)
    (isFirst : bool) (w : World) :
  checks_ok (self w) scores N isFirst = true ->
  runtime_fails launch scores N w = false ->
  getNBestList launch scores N isFirst w =
  if type_supported COMPILE_FP16 (type scores) then
    let w' := extracted (numElts_of scores N) (launched launch scores N w) in
    if Z.of_nat (List.length (outKeys w')) =? numElts_of scores N
    then Done tt w'
    else Aborted "Expected {} but got {} values during topk" w'
  else Aborted "getNBestList not implemented for type {}" (bound w).
Proof.
  intros H Hrt. rewrite (getNBestList_after_checks launch scores N isFirst w H).
  destruct (type_supported COMPILE_FP16 (type scores)); [|reflexivity].
  unfold bind at 1. rewrite (getPairs_extracted _ _ Hrt).
  unfold bind, get, ABORT_IF. cbv zeta.
  destruct (Z.of_nat _ =? _); reflexivity.
Qed.

(** With the checks passed and the element type supported, a runtime error
    during the extraction aborts the call after the launch, with nothing
    pushed. *)
Lemma getNBestList_runtime_error (launch : Launcher) (scores : Tensor) (N : Z)
    (isFirst : bool) (w : World) :
  checks_ok (self w) scores N isFirst = true ->
  type_supported COMPILE_FP16 (type scores) = true ->
  runtime_fails launch scores N w = true ->
  exists w',
    getNBestList launch scores N isFirst w
    = Aborted "CUDA error {} '{}' - {}:{}: {}" w' /\
    self w' = self (launched launch scores N w) /\
    outCosts w' = outCosts w /\ outKeys w' = outKeys w /\
    (w' = copy_issued (numElts_of scores N) (launched launch scores N w) \/
     w' = sync_issued (numElts_of scores N) (launched launch scores N w)).
Proof.
  intros H Hty Hrt.
  rewrite (getNBestList_after_checks launch scores N isFirst w H), Hty.
  destruct (getPairs_fails _ _ Hrt) as (w' & Hrun & Hs & Hc & Hk & Hw).
  exists w'. unfold bind at 1. rewrite Hrun.
  split; [reflexivity|]. repeat split; assumption.
Qed.

Lemma to_size_t_small (x : Z) : 0 <= x < 2 ^ 31 -> to_size_t x = x.
Proof. intros H. unfold to_size_t. apply Z.mod_small. lia. Qed.

Lemma checks_ok_iff (e : NthElementGPU) (scores : Tensor) (N : Z)
    (isFirst : bool) :
  shape_ok scores ->
  (checks_ok e scores N isFirst = true <-> preconditions e scores N isFirst).
Proof.
  intros (H4 & H2 & H1).
  unfold checks_ok, preconditions.
  rewrite !to_size_t_small by assumption.
  rewrite !andb_true_iff, !negb_true_iff, Z.eqb_eq.
  rewrite !Z.gtb_ltb, !Z.ltb_ge. tauto.
Qed.

Lemma numElts_of_exact (e : NthElementGPU) (scores : Tensor) (N : Z)
    (isFirst : bool) :
  capacity_ok e -> shape_ok scores -> 0 <= N ->
  preconditions e scores N isFirst ->
  numElts_of scores N = dim_4 (shape scores) * N /\
  0 <= dim_4 (shape scores) * N /\
  dim_4 (shape scores) * N * sizeof_TopK < 2 ^ 64.
Proof.
  intros (Hbeam & Hbatch & Hcap) (H4 & H2 & H1) HN (_ & _ & Hb & Hm).
  assert (Hle : N <= maxBeamSize_ e) by lia.
  assert (Hprod : dim_4 (shape scores) * N <= maxBatchSize_ e * maxBeamSize_ e)
    by (apply Z.mul_le_mono_nonneg; lia).
  assert (Hpos : 0 <= dim_4 (shape scores) * N) by nia.
  unfold sizeof_TopK in *.
  split; [|split; [exact Hpos|lia]].
  unfold numElts_of.
  rewrite (to_size_t_small (dim_4 (shape scores))) by assumption.
  unfold to_size_t. apply Z.mod_small. lia.
Qed.

(** A copy whose byte count has not wrapped around brings over exactly the
    records the loop reads. *)
Lemma records_after_copy (numElts : Z) (e : NthElementGPU) :
  0 <= numElts -> numElts * sizeof_TopK < 2 ^ 64 ->
  records (topsHost (memcpy_tops (copy_bytes numElts) e)) (Z.to_nat numElts)
  = records (tops e) (Z.to_nat numElts).
Proof.
  intros Hpos Hfit. unfold records. apply map_ext_in. intros i Hi.
  apply in_seq in Hi. unfold memcpy_tops, copy_bytes, to_size_t. simpl.
  unfold sizeof_TopK in *.
  rewrite Z.mod_small by lia.
  assert (Hle : ((Z.of_nat i + 1) * 8 <=? numElts * 8) = true)
    by (apply Z.leb_le; lia).
  rewrite Hle. reflexivity.
Qed.

Lemma appended_app {A} (old new : list A) : appended old (old ++ new) = new.
Proof.
  unfold appended. induction old as [|a old IH]; simpl; [reflexivity|exact IH].
Qed.

Lemma length_records (buf : nat -> TopK) (n : nat) :
  List.length (records buf n) = n.
Proof. unfold records. rewrite length_map, length_seq. reflexivity. Qed.

Lemma nth_error_records (buf : nat -> TopK) (n i : nat) :
  (i < n)%nat -> nth_error (records buf n) i = Some (buf i).
Proof.
  intros Hi. unfold records. rewrite nth_error_map.
  rewrite nth_error_seq.
  destruct (Nat.ltb_spec i n); [reflexivity|lia].
Qed.

(** The final size check passes exactly when the keys vector was empty on
    entry. *)
Lemma final_check_iff (launch : Launcher) (scores : Tensor) (N : Z) (w : World) :
  let w' := extracted (numElts_of scores N) (launched launch scores N w) in
  (Z.of_nat (List.length (outKeys w')) =? numElts_of scores N) = true
  <-> outKeys w = [].
Proof.
  cbv zeta. unfold extracted. simpl.
  rewrite length_app, length_map, length_records, Z.eqb_eq.
  assert (Hn : 0 <= numElts_of scores N).
  { unfold numElts_of, to_size_t. apply Z.mod_pos_bound. lia. }
  rewrite Nat2Z.inj_add, Z2Nat.id by assumption.
  split.
  - intros H. destruct (outKeys w) as [|k ks]; [reflexivity|].
    cbn [List.length] in H. lia.
  - intros ->. simpl. lia.
Qed.

(** What [getPairs] pushes when the byte count of its copy has not wrapped
    around: index and value of the first [numElts] records of the device
    result buffer. *)
Lemma extracted_outputs (numElts : Z) (w : World) :
  0 <= numElts -> numElts * sizeof_TopK < 2 ^ 64 ->
  outKeys (extracted numElts w)
  = outKeys w ++ map (fun t => to_unsigned (p t))
                     (records (tops (self w)) (Z.to_nat numElts)) /\
  outCosts (extracted numElts w)
  = outCosts w ++ map u (records (tops (self w)) (Z.to_nat numElts)).
Proof.
  intros Hpos Hfit. unfold extracted. cbv zeta. cbn [outKeys outCosts].
  rewrite records_after_copy by assumption. split; reflexivity.
Qed.

(** C2, as amended: when the shape preconditions hold (the dimensions being
    sizes, [N] not negative, and the byte size of the engine's result
    buffers within [size_t]), the element type is one the build dispatches
    on, the keys vector is empty on entry and neither the copy nor the
    synchronisation of the extraction reports an error, the call returns,
    and exactly [dimBatch * N] entries have been appended to the keys and to
    the costs, whatever the costs vector held before. *)
Theorem getNBestList_appends_dimBatch_times_N
    (launch : Launcher) (e : NthElementGPU) (scores : Tensor) (N : Z)
    (isFirst : bool) (costs : list score) (tr : list event) :
  capacity_ok e -> shape_ok scores -> 0 <= N ->
  preconditions e scores N isFirst ->
  type_supported COMPILE_FP16 (type scores) = true ->
  runtime_fails launch scores N
    {| self := e; outCosts := costs; outKeys := []; trace := tr |} = false ->
  exists w',
    getNBestList launch scores N isFirst
      {| self := e; outCosts := costs; outKeys := []; trace := tr |}
    = Done tt w' /\
    Z.of_nat (List.length (outKeys w')) = dim_4 (shape scores) * N /\
    firstn (List.length costs) (outCosts w') = costs /\
    Z.of_nat (List.length (appended costs (outCosts w')))
    = dim_4 (shape scores) * N.
Proof.
  intros Hcap Hts HN Hpre Hty Hrt.
  set (w := {| self := e; outCosts := costs; outKeys := []; trace := tr |}) in *.
  destruct (numElts_of_exact e scores N isFirst Hcap Hts HN Hpre)
    as (Hnum & Hpos & _).
  assert (Hchk : checks_ok (self w) scores N isFirst = true)
    by (apply checks_ok_iff; assumption).
  rewrite (getNBestList_checks_pass launch scores N isFirst w Hchk Hrt), Hty.
  cbv zeta.
  assert (Hfin := proj2 (final_check_iff launch scores N w) eq_refl).
  cbv zeta in Hfin. rewrite Hfin.
  eexists. split; [reflexivity|].
  rewrite Hnum.
  unfold extracted; simpl. repeat split.
  - rewrite length_map, length_records, Z2Nat.id; [reflexivity|assumption].
  - rewrite firstn_app, Nat.sub_diag, firstn_all. simpl. apply app_nil_r.
  - rewrite appended_app, length_map, length_records, Z2Nat.id;
      [reflexivity|assumption].
Qed.

(** C3, as amended: the call aborts exactly when one of the four shape
    preconditions is violated, or the element type is not one the build
    dispatches on, or the copy or the synchronisation of the extraction
    reports an error, or the keys vector is not empty on entry. A vocabulary
    of 500,001 and a beam one above the configured maximum abort. *)
Theorem getNBestList_aborts_iff
    (launch : Launcher) (scores : Tensor) (N : Z) (isFirst : bool) (w : World) :
  shape_ok scores ->
  (aborted (getNBestList launch scores N isFirst w) = true <->
   (~ preconditions (self w) scores N isFirst \/
    type_supported COMPILE_FP16 (type scores) = false \/
    runtime_fails launch scores N w = true \/
    outKeys w <> [])) /\
  (dim_1 (shape scores) = 500001 ->
   aborted (getNBestList launch scores N isFirst w) = true) /\
  (Z.max N (dim_2 (shape scores)) = maxBeamSize_ (self w) + 1 ->
   aborted (getNBestList launch scores N isFirst w) = true).
Proof.
  intros Hts.
  assert (Hiff :
    aborted (getNBestList launch scores N isFirst w) = true <->
    (~ preconditions (self w) scores N isFirst \/
     type_supported COMPILE_FP16 (type scores) = false \/
     runtime_fails launch scores N w = true \/
     outKeys w <> [])).
  { pose proof (checks_ok_iff (self w) scores N isFirst Hts) as Hchk.
    destruct (checks_ok (self w) scores N isFirst) eqn:Ec.
    - destruct (type_supported COMPILE_FP16 (type scores)) eqn:Et.
      + destruct (runtime_fails launch scores N w) eqn:Er.
        * destruct (getNBestList_runtime_error launch scores N isFirst w
                      Ec Et Er) as (w' & -> & _).
          simpl. split; [|reflexivity]. intros _. right. right. left.
          reflexivity.
        * rewrite (getNBestList_checks_pass launch scores N isFirst w Ec Er), Et.
          pose proof (final_check_iff launch scores N w) as Hfin.
          cbv zeta in *.
          destruct (Z.of_nat _ =? _) eqn:Ef; simpl.
          -- split; [discriminate|]. intros [Hp|[Ht|[Hr|Hk]]].
             ++ exfalso. apply Hp. apply Hchk. reflexivity.
             ++ discriminate.
             ++ discriminate.
             ++ exfalso. apply Hk. apply Hfin. reflexivity.
          -- split; [|reflexivity]. intros _. right. right. right. intros Hk.
             apply Hfin in Hk. congruence.
      + rewrite (getNBestList_after_checks launch scores N isFirst w Ec), Et.
        simpl. split; [|reflexivity]. intros _. right. left. reflexivity.
    - destruct (getNBestList_check_fails launch scores N isFirst w Ec)
        as [msg ->]. simpl. split; [|reflexivity].
      intros _. left. intros Hp. apply Hchk in Hp. discriminate. }
  split; [exact Hiff|]. split.
  - intros Hv. apply Hiff. left. intros (_ & Hvocab & _).
    unfold MAX_VOCAB_SIZE in Hvocab. lia.
  - intros Hb. apply Hiff. left. intros (_ & _ & _ & Hbeam). lia.
Qed.

(** C4: when the runtime reports no error for the copy and for the
    synchronisation, [getPairs numElts] binds the device, copies
    [numElts * sizeof(TopK)] bytes of the device result buffer into the host
    mirror, synchronizes, and pushes index and value of the records
    [0 .. numElts - 1] of the mirror in buffer order. In [getNBestList] the
    count is [dimBatch * N]: exactly that many records are copied, the trace
    ends with the copy and the synchronization, and the i-th appended key and
    the i-th appended cost are index and value of record i of the device
    result buffer. *)
Theorem getPairs_copies_and_appends_in_order
    (launch : Launcher) (scores : Tensor) (N : Z) (isFirst : bool) (w : World) :
  (forall numElts (w0 : World),
     extraction_fails numElts w0 = false ->
     getPairs numElts w0 = Done tt (extracted numElts w0)) /\
  (capacity_ok (self w) -> shape_ok scores -> 0 <= N ->
   preconditions (self w) scores N isFirst ->
   type_supported COMPILE_FP16 (type scores) = true ->
   runtime_fails launch scores N w = false ->
   let w' := state_of (getNBestList launch scores N isFirst w) in
   let n := Z.to_nat (dim_4 (shape scores) * N) in
   let d := deviceId_ (self w) in
   trace w' = trace (launched launch scores N w)
              ++ [EvSetDevice d;
                  EvMemcpyDeviceToHost (dim_4 (shape scores) * N * sizeof_TopK);
                  EvStreamSynchronize] /\
   (forall i, (i < n)%nat -> topsHost (self w') i = tops (self w') i) /\
   (forall i, (n <= i)%nat -> topsHost (self w') i = topsHost (self w) i) /\
   appended (outKeys w) (outKeys w')
   = map (fun t => to_unsigned (p t)) (records (tops (self w')) n) /\
   appended (outCosts w) (outCosts w') = map u (records (tops (self w')) n) /\
   (forall i, (i < n)%nat ->
      nth_error (appended (outKeys w) (outKeys w')) i
      = Some (to_unsigned (p (tops (self w') i))) /\
      nth_error (appended (outCosts w) (outCosts w')) i
      = Some (u (tops (self w') i)))).
Proof.
  split; [intros; apply getPairs_extracted; assumption|].
  intros Hcap Hts HN Hpre Hty Hrt.
  destruct (numElts_of_exact (self w) scores N isFirst Hcap Hts HN Hpre)
    as (Hnum & Hpos & Hfit).
  assert (Hchk : checks_ok (self w) scores N isFirst = true)
    by (apply checks_ok_iff; assumption).
  rewrite (getNBestList_checks_pass launch scores N isFirst w Hchk Hrt), Hty.
  cbv zeta. rewrite Hnum.
  assert (Hkeys : outKeys (launched launch scores N w) = outKeys w)
    by reflexivity.
  assert (Hcosts : outCosts (launched launch scores N w) = outCosts w)
    by reflexivity.
  assert (Hhost : topsHost (self (launched launch scores N w))
                  = topsHost (self w)) by reflexivity.
  assert (Hdev : deviceId_ (self (launched launch scores N w))
                 = deviceId_ (self w)) by reflexivity.
  remember (launched launch scores N w) as w1 eqn:Ew1.
  assert (Hst : forall (c : bool) (x : World) (m : string),
             state_of (if c then Done tt x else Aborted m x) = x)
    by (intros [] x m; reflexivity).
  rewrite Hst. clear Hst.
  destruct (extracted_outputs (dim_4 (shape scores) * N) w1 Hpos Hfit)
    as [Hok Hoc].
  rewrite Hok, Hoc, Hkeys, Hcosts, !appended_app.
  assert (Hbytes : copy_bytes (dim_4 (shape scores) * N)
                   = dim_4 (shape scores) * N * sizeof_TopK)
    by (unfold copy_bytes, to_size_t; apply Z.mod_small; unfold sizeof_TopK in *; lia).
  unfold extracted. cbv zeta. rewrite Hbytes. simpl.
  rewrite Hhost, Hdev.
  split; [reflexivity|]. split.
  { intros i Hi.
    assert (Hle : ((Z.of_nat i + 1) * sizeof_TopK
                   <=? dim_4 (shape scores) * N * sizeof_TopK) = true)
      by (apply Z.leb_le; unfold sizeof_TopK; lia).
    rewrite Hle. reflexivity. }
  split.
  { intros i Hi.
    assert (Hgt : ((Z.of_nat i + 1) * sizeof_TopK
                   <=? dim_4 (shape scores) * N * sizeof_TopK) = false)
      by (apply Z.leb_gt; unfold sizeof_TopK; lia).
    rewrite Hgt. reflexivity. }
  split; [reflexivity|]. split; [reflexivity|].
  intros i Hi. rewrite !nth_error_map, nth_error_records by assumption.
  split; reflexivity.
Qed.

(** C10: when a shape precondition is violated or the element type is not
    supported, the call aborts in the world it started in with only the
    device bound: the engine and both vectors are as on entry, and the trace
    has gained neither a kernel launch nor a copy. *)
Theorem getNBestList_aborts_before_any_work
    (launch : Launcher) (scores : Tensor) (N : Z) (isFirst : bool) (w : World) :
  shape_ok scores ->
  (~ preconditions (self w) scores N isFirst \/
   type_supported COMPILE_FP16 (type scores) = false) ->
  exists msg w',
    getNBestList launch scores N isFirst w = Aborted msg w' /\
    self w' = self w /\
    outCosts w' = outCosts w /\
    outKeys w' = outKeys w /\
    trace w' = trace w ++ [EvSetDevice (deviceId_ (self w))] /\
    existsb is_launch (appended (trace w) (trace w')) = false /\
    existsb is_copy (appended (trace w) (trace w')) = false.
Proof.
  intros Hts Hbad.
  assert (Hgoal : exists msg,
            getNBestList launch scores N isFirst w = Aborted msg (bound w)).
  { destruct (checks_ok (self w) scores N isFirst) eqn:Ec.
    - destruct Hbad as [Hp|Ht].
      + exfalso. apply Hp. apply checks_ok_iff; assumption.
      + rewrite (getNBestList_after_checks launch scores N isFirst w Ec), Ht.
        eexists. reflexivity.
    - apply getNBestList_check_fails. exact Ec. }
  destruct Hgoal as [msg Hrun].
  exists msg, (bound w). split; [exact Hrun|].
  unfold bound; simpl. rewrite appended_app. repeat split.
Qed.

End Extraction.

(** The keys vector of the example run is not empty on entry: all
    preconditions hold and the call aborts at the final size check. *)
Lemma getNBestList_aborts_on_nonempty_keys :
  capacity_ok example_engine /\
  shape_ok example_scores /\
  preconditions example_engine example_scores 3 true /\
  type_supported false (type example_scores) = true /\
  exists w',
    NthElement.getNBestList false never_fails example_launch example_scores 3 true
      (example_world [] [7])
    = Aborted "Expected {} but got {} values during topk" w' /\
    firstn 1 (outKeys w') = [7] /\
    List.length (outKeys w') = 7%nat.
Proof.
  repeat split; try (vm_compute; congruence).
  eexists. split; [vm_compute; reflexivity|]. split; reflexivity.
Qed.

(** The four shape preconditions hold for the example run, and the call
    aborts all the same because of the element type. *)
Lemma getNBestList_aborts_on_unsupported_type :
  shape_ok (example_scores_typed (other_type 0)) /\
  preconditions example_engine (example_scores_typed (other_type 0)) 3 true /\
  ~ (aborted (NthElement.getNBestList false never_fails example_launch
                (example_scores_typed (other_type 0)) 3 true
                (example_world [] []))
     = true
     <-> ~ preconditions example_engine
             (example_scores_typed (other_type 0)) 3 true).
Proof.
  assert (Hpre : preconditions example_engine
                   (example_scores_typed (other_type 0)) 3 true).
  { repeat split; vm_compute; congruence. }
  split; [repeat split; vm_compute; congruence|].
  split; [exact Hpre|].
  intros [Hab _]. apply Hab; [vm_compute; reflexivity|exact Hpre].
Qed.

Lemma example_shape_ok (t : Type_) (vocab : Z) :
  0 <= vocab < 2 ^ 31 -> shape_ok (example_vocab t vocab).
Proof. intros H. repeat split; simpl; lia. Qed.

Lemma getNBestList_appends_dimBatch_times_N_witness :
  exists w',
    NthElement.getNBestList false never_fails example_launch example_scores 3 true
      (example_world [5] [])
    = Done tt w' /\
    Z.of_nat (List.length (outKeys w')) = 2 * 3 /\
    firstn 1 (outCosts w') = [5] /\
    Z.of_nat (List.length (appended [5] (outCosts w'))) = 2 * 3.
Proof.
  apply (getNBestList_appends_dimBatch_times_N Z false never_fails
           example_launch example_engine example_scores 3 true [5] []).
  - repeat split; vm_compute; congruence.
  - repeat split; vm_compute; congruence.
  - lia.
  - repeat split; vm_compute; congruence.
  - reflexivity.
  - reflexivity.
Defined.

(** The boundaries: a vocabulary of 500,000 and a beam of the configured
    maximum (3) pass, 500,001 and a beam of 4 abort; so does a tensor of
    half-precision scores in a build without [COMPILE_FP16], and so does a
    call that is right in every respect when the synchronisation fails. *)
Lemma getNBestList_aborts_iff_witness :
  aborted (NthElement.getNBestList false never_fails example_launch
             (example_vocab float32 500000) 3 true (example_world [] []))
  <> true /\
  aborted (NthElement.getNBestList false never_fails example_launch
             (example_vocab float32 500001) 3 true (example_world [] []))
  = true /\
  aborted (NthElement.getNBestList false never_fails example_launch
             (example_vocab float32 5) 4 true (example_world [] []))
  = true /\
  aborted (NthElement.getNBestList false never_fails example_launch
             (example_vocab float16 5) 3 true (example_world [] []))
  = true /\
  aborted (NthElement.getNBestList false sync_fails example_launch
             (example_vocab float32 5) 3 true (example_world [] []))
  = true.
Proof.
  split; [|split; [|split; [|split]]].
  - intros Hab.
    apply (proj1 (proj1 (getNBestList_aborts_iff Z false never_fails
                    example_launch
                    (example_vocab float32 500000) 3 true (example_world [] [])
                    (example_shape_ok float32 500000 ltac:(lia))))) in Hab.
    destruct Hab as [Hpre|[Hty|[Hrt|Hkeys]]].
    + apply Hpre. repeat split; vm_compute; congruence.
    + discriminate Hty.
    + discriminate Hrt.
    + apply Hkeys. reflexivity.
  - apply (proj1 (proj2 (getNBestList_aborts_iff Z false never_fails
                    example_launch
                    (example_vocab float32 500001) 3 true (example_world [] [])
                    (example_shape_ok float32 500001 ltac:(lia))))).
    reflexivity.
  - apply (proj2 (proj2 (getNBestList_aborts_iff Z false never_fails
                    example_launch
                    (example_vocab float32 5) 4 true (example_world [] [])
                    (example_shape_ok float32 5 ltac:(lia))))).
    reflexivity.
  - apply (proj2 (proj1 (getNBestList_aborts_iff Z false never_fails
                    example_launch
                    (example_vocab float16 5) 3 true (example_world [] [])
                    (example_shape_ok float16 5 ltac:(lia))))).
    right. left. reflexivity.
  - apply (proj2 (proj1 (getNBestList_aborts_iff Z false sync_fails
                    example_launch
                    (example_vocab float32 5) 3 true (example_world [] [])
                    (example_shape_ok float32 5 ltac:(lia))))).
    right. right. left. vm_compute. reflexivity.
Defined.

Lemma getPairs_copies_and_appends_in_order_witness :
  let w' := state_of (NthElement.getNBestList false never_fails example_launch
                        example_scores 3 true (example_world [] [])) in
  trace w'
  = trace (launched example_launch example_scores 3 (example_world [] []))
    ++ [EvSetDevice 0; EvMemcpyDeviceToHost 48; EvStreamSynchronize] /\
  appended [] (outKeys w')
  = map (fun t => to_unsigned (p t)) (records (tops (self w')) 6) /\
  appended [] (outCosts w') = map u (records (tops (self w')) 6).
Proof.
  pose proof (proj2 (getPairs_copies_and_appends_in_order Z false
                       never_fails example_launch example_scores 3 true
                       (example_world [] []))) as H.
  cbv zeta. cbv zeta in H.
  assert (Hcap : capacity_ok (self (example_world [] [])))
    by (repeat split; vm_compute; congruence).
  assert (Hts : shape_ok example_scores)
    by (repeat split; vm_compute; congruence).
  assert (Hpre : preconditions (self (example_world [] [])) example_scores 3 true)
    by (repeat split; vm_compute; congruence).
  destruct (H Hcap Hts ltac:(lia) Hpre eq_refl eq_refl)
    as (Ht & _ & _ & Hk & Hc & _).
  split; [exact Ht|]. split; [exact Hk|exact Hc].
Defined.

Lemma getNBestList_aborts_before_any_work_witness :
  exists msg w',
    NthElement.getNBestList false never_fails example_launch example_scores 4 true
      (example_world [5] [7])
    = Aborted msg w' /\
    self w' = example_engine /\
    outCosts w' = [5] /\
    outKeys w' = [7] /\
    trace w' = [EvSetDevice 0] /\
    existsb is_launch (appended [] (trace w')) = false /\
    existsb is_copy (appended [] (trace w')) = false.
Proof.
  apply (getNBestList_aborts_before_any_work Z false never_fails example_launch
           example_scores 4 true (example_world [5] [7])).
  - repeat split; vm_compute; congruence.
  - left. intros (_ & _ & _ & Hbeam). vm_compute in Hbeam. congruence.
Defined.

(** ** Lists cut into pieces of equal length *)

Section Slices.

Context {A : Type}.

Lemma firstn_add (a c : nat) : forall l : list A,
  firstn (a + c) l = firstn a l ++ firstn c (skipn a l).
Proof.
  induction a as [|a IH]; intros l; simpl; [reflexivity|].
  destruct l as [|x l]; simpl.
  - rewrite firstn_nil. reflexivity.
  - rewrite IH. reflexivity.
Qed.

Lemma skipn_concat_uniform (w : nat) (ls : list (list A)) :
  Forall (fun l => List.length l = w) ls ->
  forall a, skipn (a * w) (concat ls) = concat (skipn a ls).
Proof.
  induction 1 as [|l ls Hl Hls IH]; intros a.
  - simpl. rewrite !skipn_nil. reflexivity.
  - destruct a as [|a]; [reflexivity|].
    simpl. rewrite skipn_app, Hl.
    rewrite skipn_all2 by lia.
    replace (w + a * w - w)%nat with (a * w)%nat by lia.
    simpl. apply IH.
Qed.

Lemma firstn_concat_uniform (w : nat) (ls : list (list A)) :
  Forall (fun l => List.length l = w) ls ->
  forall n, firstn (n * w) (concat ls) = concat (firstn n ls).
Proof.
  induction 1 as [|l ls Hl Hls IH]; intros n.
  - simpl. rewrite !firstn_nil. reflexivity.
  - destruct n as [|n]; [reflexivity|].
    simpl. rewrite firstn_app, Hl.
    rewrite firstn_all2 by lia.
    replace (w + n * w - w)%nat with (n * w)%nat by lia.
    rewrite IH. reflexivity.
Qed.

Lemma Forall_skipn (P : list A -> Prop) (ls : list (list A)) (a : nat) :
  Forall P ls -> Forall P (skipn a ls).
Proof.
  intros H. rewrite <- (firstn_skipn a ls) in H.
  apply Forall_app in H. apply H.
Qed.

Lemma slice_concat_uniform (w : nat) (ls : list (list A)) (a n : nat) :
  Forall (fun l => List.length l = w) ls ->
  slice (a * w) (n * w) (concat ls) = concat (slice a n ls).
Proof.
  intros H. unfold slice.
  rewrite (skipn_concat_uniform w ls H).
  apply firstn_concat_uniform. apply Forall_skipn. exact H.
Qed.

Lemma length_concat_uniform (w : nat) (ls : list (list A)) :
  Forall (fun l => List.length l = w) ls ->
  List.length (concat ls) = (List.length ls * w)%nat.
Proof.
  induction 1 as [|l ls Hl Hls IH]; simpl; [reflexivity|].
  rewrite length_app, IH, Hl. reflexivity.
Qed.

Lemma slice_map_seq {B} (f : nat -> B) (a n m : nat) :
  (a + n <= m)%nat -> slice a n (map f (seq 0 m)) = map f (seq a n).
Proof.
  intros H. unfold slice.
  rewrite skipn_map, firstn_map, skipn_seq. simpl.
  replace (m - a)%nat with (n + (m - a - n))%nat by lia.
  rewrite seq_app, firstn_app, length_seq, Nat.sub_diag.
  rewrite firstn_all2 by (rewrite length_seq; lia).
  simpl. rewrite app_nil_r. reflexivity.
Qed.

Lemma concat_slices_from (c : nat) (l : list A) (n : nat) : forall a,
  concat (map (fun k => slice (k * c) c l) (seq a n)) = slice (a * c) (n * c) l.
Proof.
  induction n as [|n IH]; intros a; simpl; [reflexivity|].
  rewrite IH. unfold slice.
  rewrite firstn_add, skipn_skipn.
  replace (c + a * c)%nat with (S a * c)%nat by lia. reflexivity.
Qed.

Lemma slice_all (n : nat) (l : list A) :
  (List.length l <= n)%nat -> slice 0 n l = l.
Proof. intros H. unfold slice. simpl. apply firstn_all2. exact H. Qed.

Lemma slice_length_le (off len : nat) (l : list A) :
  (List.length (slice off len l) <= len)%nat.
Proof. unfold slice. rewrite length_firstn. lia. Qed.

Lemma In_slice (off len : nat) (l : list A) (x : A) :
  In x (slice off len l) -> In x l.
Proof.
  unfold slice. intros H.
  rewrite <- (firstn_skipn off l). apply in_or_app. right.
  rewrite <- (firstn_skipn len (skipn off l)). apply in_or_app. left. exact H.
Qed.

Lemma NoDup_slice (off len : nat) (l : list A) :
  NoDup l -> NoDup (slice off len l).
Proof.
  unfold slice. intros H.
  rewrite <- (firstn_skipn off l) in H. apply NoDup_app_remove_l in H.
  rewrite <- (firstn_skipn len (skipn off l)) in H.
  apply NoDup_app_remove_r in H. exact H.
Qed.

End Slices.

Section Sorting.

Variable score : Type.
Variable leb : score -> score -> bool.
Hypothesis leb_total : forall a b, leb a b = true \/ leb b a = true.
Hypothesis leb_trans : forall a b c, leb a b = true -> leb b c = true -> leb a c = true.

Local Abbreviation TopK := (@NthElement.TopK score).




Lemma insert_desc_perm (x : TopK) (l : list TopK) :
  Permutation (insert_desc leb x l) (x :: l).
Proof.
  induction l as [|y t IH]; simpl; [apply Permutation_refl|].
  destruct (leb (u y) (u x)); [apply Permutation_refl|].
  rewrite IH. apply perm_swap.
Qed.

Lemma sort_desc_perm (l : list TopK) : Permutation (sort_desc leb l) l.
Proof.
  induction l as [|x l IH]; simpl; [constructor|].
  rewrite insert_desc_perm. constructor. exact IH.
Qed.

Lemma insert_desc_sorted (x : TopK) (l : list TopK) :
  StronglySorted (desc leb) l -> StronglySorted (desc leb) (insert_desc leb x l).
Proof.
  induction 1 as [|y t Ht IH Hy]; simpl.
  - constructor; constructor.
  - destruct (leb (u y) (u x)) eqn:E.
    + constructor; [constructor; assumption|].
      constructor; [exact E|].
      rewrite Forall_forall in Hy |- *. intros z Hz.
      unfold desc in *. apply leb_trans with (u y); [apply Hy; exact Hz|exact E].
    + constructor; [exact IH|].
      rewrite Forall_forall in Hy |- *. intros z Hz.
      apply (Permutation_in _ (insert_desc_perm x t)) in Hz.
      destruct Hz as [<-|Hz]; [|apply Hy; exact Hz].
      unfold desc. destruct (leb_total (u x) (u y)) as [H|H]; congruence.
Qed.

Lemma sort_desc_sorted (l : list TopK) : StronglySorted (desc leb) (sort_desc leb l).
Proof.
  induction l as [|x l IH]; simpl; [constructor|].
  apply insert_desc_sorted. exact IH.
Qed.

Lemma sorted_app_cross (l1 l2 : list TopK) :
  StronglySorted (desc leb) (l1 ++ l2) ->
  StronglySorted (desc leb) l1 /\
  forall a b, In a l1 -> In b l2 -> (desc leb) a b.
Proof.
  induction l1 as [|x l1 IH]; simpl; intros H.
  - split; [constructor|contradiction].
  - apply StronglySorted_inv in H. destruct H as [Hs Hx].
    destruct (IH Hs) as [IH1 IH2]. split.
    + constructor; [exact IH1|].
      apply Forall_app in Hx. apply Hx.
    + intros a b [<-|Ha] Hb.
      * rewrite Forall_forall in Hx. apply Hx. apply in_or_app. right. exact Hb.
      * apply IH2; assumption.
Qed.

Lemma top_k_split (k : nat) (l : list TopK) :
  Permutation (top_k leb k l ++ skipn k (sort_desc leb l)) l.
Proof.
  unfold top_k. rewrite firstn_skipn. apply sort_desc_perm.
Qed.

Lemma top_k_sorted (k : nat) (l : list TopK) :
  StronglySorted (desc leb) (top_k leb k l).
Proof.
  pose proof (sort_desc_sorted l) as H.
  rewrite <- (firstn_skipn k) in H. apply sorted_app_cross in H. apply H.
Qed.

Lemma top_k_incl (k : nat) (l : list TopK) (x : TopK) :
  In x (top_k leb k l) -> In x l.
Proof.
  intros H. apply (Permutation_in _ (top_k_split k l)).
  apply in_or_app. left. exact H.
Qed.

Lemma top_k_length (k : nat) (l : list TopK) :
  List.length (top_k leb k l) = Nat.min k (List.length l).
Proof.
  unfold top_k. rewrite length_firstn.
  rewrite (Permutation_length (sort_desc_perm l)). reflexivity.
Qed.

Lemma top_k_NoDup (k : nat) (l : list TopK) :
  NoDup l -> NoDup (top_k leb k l).
Proof.
  intros H. apply (Permutation_NoDup (Permutation_sym (top_k_split k l))) in H.
  apply NoDup_app_remove_r in H. exact H.
Qed.

(** What [top_k] leaves out is no better than anything it keeps. *)
Lemma top_k_beats_rest (k : nat) (l : list TopK) (y c : TopK) :
  In y (skipn k (sort_desc leb l)) -> In c (top_k leb k l) ->
  leb (u y) (u c) = true.
Proof.
  intros Hy Hc.
  pose proof (sort_desc_sorted l) as Hs.
  rewrite <- (firstn_skipn k) in Hs. apply sorted_app_cross in Hs.
  destruct Hs as [_ Hcross]. apply (Hcross c y); assumption.
Qed.

(** When [top_k] leaves something out, it is full. *)
Lemma top_k_rest_full (k : nat) (l : list TopK) (y : TopK) :
  In y (skipn k (sort_desc leb l)) -> List.length (top_k leb k l) = k.
Proof.
  intros Hy. rewrite top_k_length.
  destruct (Nat.le_gt_cases (List.length (sort_desc leb l)) k) as [Hle|Hgt].
  - rewrite skipn_all2 in Hy by exact Hle. contradiction.
  - rewrite (Permutation_length (sort_desc_perm l)) in Hgt. lia.
Qed.

(** When [top_k] is not full, it has kept everything. *)
Lemma top_k_short (k : nat) (l : list TopK) :
  (List.length (top_k leb k l) < k)%nat -> Permutation (top_k leb k l) l.
Proof.
  rewrite top_k_length. intros H. unfold top_k.
  rewrite firstn_all2
    by (rewrite (Permutation_length (sort_desc_perm l)); lia).
  apply sort_desc_perm.
Qed.

End Sorting.

Section Kernel.

Variable score : Type.
Variable leb : score -> score -> bool.
Variable no_score : score.
Variable MAX_BLOCKS_PER_BEAM : nat.

Local Abbreviation TopK := (@NthElement.TopK score).
Local Abbreviation top_k := (NthElement.top_k leb).
Local Abbreviation pad_to := (NthElement.pad_to no_score).
Local Abbreviation block_of := (NthElement.block_of MAX_BLOCKS_PER_BEAM).
Local Abbreviation block_slots :=
  (NthElement.block_slots MAX_BLOCKS_PER_BEAM leb no_score).
Local Abbreviation row_slots :=
  (NthElement.row_slots MAX_BLOCKS_PER_BEAM leb no_score).
Local Abbreviation stage1 := (NthElement.stage1 MAX_BLOCKS_PER_BEAM leb no_score).
Local Abbreviation stage2 := (NthElement.stage2 MAX_BLOCKS_PER_BEAM leb no_score).
Local Abbreviation merge_row :=
  (NthElement.merge_row MAX_BLOCKS_PER_BEAM leb no_score).
Local Abbreviation local_tops := (NthElement.local_tops MAX_BLOCKS_PER_BEAM leb).
Local Abbreviation candidates := (NthElement.candidates MAX_BLOCKS_PER_BEAM leb).
Local Abbreviation final_row := (NthElement.final_row MAX_BLOCKS_PER_BEAM leb).

Lemma topk_eta (t : TopK) : {| p := p t; u := u t |} = t.
Proof. destruct t; reflexivity. Qed.

(** *** The enumerated tensor *)

Lemma map_p_combine_seq (l : list score) : forall a,
  map (fun iv : nat * score => Z.of_nat (fst iv)) (combine (seq a (List.length l)) l)
  = map Z.of_nat (seq a (List.length l)).
Proof.
  induction l as [|x l IH]; intros a; simpl; [reflexivity|].
  rewrite IH. reflexivity.
Qed.

Lemma map_p_enumerate (probs : list score) :
  map p (enumerate probs) = map Z.of_nat (seq 0 (List.length probs)).
Proof.
  unfold enumerate. rewrite map_map. simpl. apply map_p_combine_seq.
Qed.

Lemma enumerate_NoDup_p (probs : list score) : NoDup (map p (enumerate probs)).
Proof.
  rewrite map_p_enumerate. apply Injective_map_NoDup.
  - intros a b. apply Nat2Z.inj.
  - apply seq_NoDup.
Qed.

Lemma NoDup_map_NoDup {A B} (f : A -> B) (l : list A) :
  NoDup (map f l) -> NoDup l.
Proof.
  induction l as [|x l IH]; simpl; intros H; [constructor|].
  inversion H as [|y t Hnot Hrest]; subst. constructor.
  - intros Hin. apply Hnot. apply in_map. exact Hin.
  - apply IH. exact Hrest.
Qed.

Lemma enumerate_is_candidate (probs : list score) (c : TopK) :
  In c (enumerate probs) -> is_candidate c = true.
Proof.
  intros H. apply (in_map p) in H. rewrite map_p_enumerate in H.
  apply in_map_iff in H. destruct H as [i [Hi _]].
  unfold is_candidate. rewrite <- Hi.
  apply negb_true_iff. apply Z.eqb_neq. lia.
Qed.

Lemma nth_error_enumerate_aux (l : list score) : forall a i,
  nth_error (combine (seq a (List.length l)) l) i
  = option_map (fun v => ((a + i)%nat, v)) (nth_error l i).
Proof.
  induction l as [|x l IH]; intros a i; simpl.
  - destruct i; reflexivity.
  - destruct i as [|i]; simpl.
    + rewrite Nat.add_0_r. reflexivity.
    + rewrite IH. replace (S a + i)%nat with (a + S i)%nat by lia. reflexivity.
Qed.

Lemma nth_error_enumerate (probs : list score) (i : nat) :
  nth_error (enumerate probs) i
  = option_map (fun v => {| p := Z.of_nat i; u := v |}) (nth_error probs i).
Proof.
  unfold enumerate. rewrite nth_error_map, nth_error_enumerate_aux.
  destruct (nth_error probs i); reflexivity.
Qed.

(** *** Padding *)

Lemma pad_to_length (K : nat) (l : list TopK) : List.length (pad_to K l) = K.
Proof.
  unfold NthElement.pad_to. rewrite length_firstn, length_app, repeat_length. lia.
Qed.

Lemma pad_to_short (K : nat) (l : list TopK) :
  (List.length l <= K)%nat ->
  pad_to K l = l ++ repeat (no_candidate no_score) (K - List.length l).
Proof.
  intros H. unfold NthElement.pad_to.
  rewrite firstn_app, firstn_all2 by lia. f_equal.
  apply nth_ext with (d := no_candidate no_score) (d' := no_candidate no_score).
  - rewrite length_firstn, !repeat_length. lia.
  - intros n Hn. rewrite nth_firstn.
    rewrite length_firstn, repeat_length in Hn.
    destruct (Nat.ltb_spec n (K - List.length l)); [|lia].
    rewrite !nth_repeat. reflexivity.
Qed.

Lemma filter_pad_to (K : nat) (l : list TopK) :
  (List.length l <= K)%nat -> (forall c, In c l -> is_candidate c = true) ->
  filter is_candidate (pad_to K l) = l.
Proof.
  intros Hlen Hall. rewrite pad_to_short by exact Hlen.
  rewrite filter_app.
  rewrite forallb_filter_id by (apply forallb_forall; exact Hall).
  assert (Hpad : forall n, filter is_candidate
                             (repeat (no_candidate no_score) n) = []).
  { induction n as [|n IH]; simpl; [reflexivity|exact IH]. }
  rewrite Hpad. apply app_nil_r.
Qed.

(** *** Reading back what was written *)

Lemma slice_nth (off len : nat) (s : list TopK) (d : TopK) :
  (off + len <= List.length s)%nat ->
  slice off len s = map (fun i => nth (off + i) s d) (seq 0 len).
Proof.
  intros H. apply nth_ext with (d := d) (d' := d).
  - unfold slice. rewrite length_firstn, length_skipn, length_map, length_seq. lia.
  - intros n Hn. unfold slice in *.
    rewrite length_firstn, length_skipn in Hn.
    rewrite nth_firstn. destruct (Nat.ltb_spec n len); [|lia].
    rewrite nth_skipn.
    rewrite (nth_indep (map _ _) d (nth (off + 0) s d))
      by (rewrite length_map, length_seq; lia).
    rewrite (map_nth (fun i => nth (off + i) s d) (seq 0 len) 0%nat n).
    rewrite seq_nth by lia. reflexivity.
Qed.

Lemma read_slots_overwrite (s : list TopK) (o1 : nat -> Z) (o2 : nat -> score)
    (off len : nat) :
  (off + len <= List.length s)%nat ->
  read_slots (overwrite (map p s) o1) (overwrite (map u s) o2) off len
  = slice off len s.
Proof.
  intros H. rewrite (slice_nth off len s (no_candidate no_score) H).
  unfold read_slots, overwrite. apply map_ext_in. intros i Hi.
  apply in_seq in Hi.
  rewrite (nth_indep (map p s) _ (p (no_candidate no_score)))
    by (rewrite length_map; lia).
  rewrite (nth_indep (map u s) _ (u (no_candidate no_score)))
    by (rewrite length_map; lia).
  rewrite !map_nth. apply topk_eta.
Qed.

Lemma records_overwrite (new : list TopK) (old : nat -> TopK) :
  records (overwrite new old) (List.length new) = new.
Proof.
  unfold records, overwrite.
  apply nth_ext with (d := no_candidate no_score) (d' := no_candidate no_score).
  - rewrite length_map, length_seq. reflexivity.
  - intros n Hn. rewrite length_map, length_seq in Hn.
    rewrite (nth_indep (map _ _) _
               (nth 0 new (old 0%nat)))
      by (rewrite length_map, length_seq; exact Hn).
    rewrite (map_nth (fun i => nth i new (old i)) (seq 0 (List.length new)) 0%nat n).
    rewrite seq_nth by exact Hn. simpl. apply nth_indep. exact Hn.
Qed.

(** *** The two stages *)

Lemma row_slots_length (probs : list score) (vocab K r : nat) :
  List.length (row_slots probs vocab K r) = (MAX_BLOCKS_PER_BEAM * K)%nat.
Proof.
  unfold NthElement.row_slots.
  rewrite (length_concat_uniform K).
  - rewrite length_map, length_seq. reflexivity.
  - apply Forall_forall. intros l Hl. apply in_map_iff in Hl.
    destruct Hl as [k [<- _]]. apply pad_to_length.
Qed.

Lemma stage1_uniform (probs : list score) (vocab K rows : nat) :
  Forall (fun l : list TopK => List.length l = (MAX_BLOCKS_PER_BEAM * K)%nat)
         (map (row_slots probs vocab K) (seq 0 rows)).
Proof.
  apply Forall_forall. intros l Hl. apply in_map_iff in Hl.
  destruct Hl as [r [<- _]]. apply row_slots_length.
Qed.

Lemma stage1_length (probs : list score) (vocab K rows : nat) :
  List.length (stage1 probs rows vocab K)
  = (rows * (MAX_BLOCKS_PER_BEAM * K))%nat.
Proof.
  unfold NthElement.stage1.
  rewrite (length_concat_uniform _ _ (stage1_uniform probs vocab K rows)).
  rewrite length_map, length_seq. reflexivity.
Qed.

Lemma block_candidates (probs : list score) (vocab r k : nat) (c : TopK) :
  In c (block_of probs vocab r k) -> In c (enumerate probs).
Proof.
  unfold NthElement.block_of, beam_row. intros H.
  apply In_slice in H. apply In_slice in H. exact H.
Qed.

Lemma filter_row_slots (probs : list score) (vocab K r : nat) :
  filter is_candidate (row_slots probs vocab K r) = local_tops probs vocab K r.
Proof.
  unfold NthElement.row_slots, NthElement.local_tops.
  rewrite <- concat_filter_map, map_map. f_equal.
  apply map_ext. intros k. unfold NthElement.block_slots.
  apply filter_pad_to.
  - rewrite top_k_length. lia.
  - intros c Hc. apply top_k_incl in Hc.
    apply enumerate_is_candidate with probs.
    apply block_candidates with vocab r k. exact Hc.
Qed.

(** The slots stage 2 reads for batch entry [b] are the ones stage 1 wrote
    for the beam rows of [b], whatever the buffers held before. *)
Lemma merge_row_fresh (probs : list score) (o1 : nat -> Z) (o2 : nat -> score)
    (batch beams vocab K N b : nat) :
  (b < batch)%nat ->
  let slots := stage1 probs (batch * beams) vocab K in
  merge_row (overwrite (map p slots) o1) (overwrite (map u slots) o2)
            beams K N b
  = pad_to N (top_k N (candidates probs beams vocab K b)).
Proof.
  intros Hb slots. unfold NthElement.merge_row. cbv zeta.
  f_equal. f_equal.
  rewrite read_slots_overwrite
    by (unfold slots; rewrite stage1_length; nia).
  unfold slots, NthElement.stage1.
  replace (b * (beams * (MAX_BLOCKS_PER_BEAM * K)))%nat
    with ((b * beams) * (MAX_BLOCKS_PER_BEAM * K))%nat by lia.
  rewrite (slice_concat_uniform _ _ _ _
             (stage1_uniform probs vocab K (batch * beams))).
  rewrite slice_map_seq by nia.
  rewrite <- concat_filter_map, map_map.
  unfold NthElement.candidates. f_equal.
  apply map_ext. intros r. apply filter_row_slots.
Qed.

Lemma stage2_fresh (probs : list score) (o1 : nat -> Z) (o2 : nat -> score)
    (batch beams vocab K : nat) :
  let slots := stage1 probs (batch * beams) vocab K in
  stage2 (overwrite (map p slots) o1) (overwrite (map u slots) o2)
         batch beams K K
  = concat (map (fun b => pad_to K (final_row probs beams vocab K b))
                (seq 0 batch)).
Proof.
  intros slots. unfold NthElement.stage2. f_equal.
  apply map_ext_in. intros b Hb. apply in_seq in Hb.
  apply merge_row_fresh. lia.
Qed.

Lemma final_rows_uniform (probs : list score) (beams vocab K batch : nat) :
  Forall (fun l : list TopK => List.length l = K)
         (map (fun b => pad_to K (final_row probs beams vocab K b))
              (seq 0 batch)).
Proof.
  apply Forall_forall. intros l Hl. apply in_map_iff in Hl.
  destruct Hl as [b [<- _]]. apply pad_to_length.
Qed.

(** The records the kernels leave in the result buffer: [K] per batch
    entry, a function of the scores and the sizes alone. *)
Lemma launcher_records (probs : list score) (o1 : nat -> Z) (o2 : nat -> score)
    (o3 : nat -> TopK) (batchSize beamsPerBatch beamWidth vocabSize : Z) :
  let batch := Z.to_nat batchSize in
  let K := Z.to_nat beamWidth in
  records (snd (topK_kernelLauncher MAX_BLOCKS_PER_BEAM leb no_score
                  probs o1 o2 o3 batchSize beamsPerBatch beamWidth vocabSize))
          (batch * K)
  = concat (map (fun b => pad_to K (final_row probs (Z.to_nat beamsPerBatch)
                                              (Z.to_nat vocabSize) K b))
                (seq 0 batch)).
Proof.
  intros batch K. unfold topK_kernelLauncher. cbv zeta. simpl snd.
  rewrite stage2_fresh.
  fold batch. fold K.
  set (rows := concat _).
  assert (Hlen : List.length rows = (batch * K)%nat).
  { unfold rows.
    rewrite (length_concat_uniform _ _
               (final_rows_uniform probs _ _ K batch)).
    rewrite length_map, length_seq. reflexivity. }
  rewrite <- Hlen. apply records_overwrite.
Qed.

Lemma slice_final_rows (probs : list score) (beams vocab K batch b : nat) :
  (b < batch)%nat ->
  slice (b * K) K
        (concat (map (fun b => pad_to K (final_row probs beams vocab K b))
                     (seq 0 batch)))
  = pad_to K (final_row probs beams vocab K b).
Proof.
  intros Hb.
  replace K with (1 * K)%nat at 2 by lia.
  rewrite (slice_concat_uniform _ _ _ _
             (final_rows_uniform probs beams vocab K batch)).
  rewrite slice_map_seq by lia. simpl. apply app_nil_r.
Qed.

End Kernel.

Section Perm.

Context {A : Type}.

Lemma concat_split_perm (f h : nat -> list A) (l : list nat) :
  (forall x, In x l -> exists g, Permutation (f x ++ g) (h x)) ->
  exists G, Permutation (concat (map f l) ++ G) (concat (map h l)).
Proof.
  induction l as [|a l IH]; intros H; simpl.
  - exists []. constructor.
  - destruct (H a (or_introl eq_refl)) as [g Hg].
    destruct IH as [G HG]; [intros x Hx; apply H; right; exact Hx|].
    exists (g ++ G).
    rewrite <- app_assoc.
    rewrite (Permutation_app_swap_app (concat (map f l)) g G).
    rewrite app_assoc. apply Permutation_app; assumption.
Qed.

Lemma concat_map_perm (f h : nat -> list A) (l : list nat) :
  (forall x, In x l -> Permutation (f x) (h x)) ->
  Permutation (concat (map f l)) (concat (map h l)).
Proof.
  induction l as [|a l IH]; intros H; simpl; [constructor|].
  apply Permutation_app.
  - apply H. left. reflexivity.
  - apply IH. intros x Hx. apply H. right. exact Hx.
Qed.

Lemma length_in_concat_map (f : nat -> list A) (l : list nat) (x : nat) :
  In x l -> (List.length (f x) <= List.length (concat (map f l)))%nat.
Proof.
  induction l as [|a l IH]; simpl; [contradiction|].
  rewrite length_app. intros [->|Hx]; [lia|].
  specialize (IH Hx). lia.
Qed.

End Perm.

Section TopN.

Variable score : Type.
Variable leb : score -> score -> bool.
Variable MAX_BLOCKS_PER_BEAM : nat.

Hypothesis leb_total : forall a b, leb a b = true \/ leb b a = true.
Hypothesis leb_trans :
  forall a b c, leb a b = true -> leb b c = true -> leb a c = true.
Hypothesis blocks_pos : (1 <= MAX_BLOCKS_PER_BEAM)%nat.

Local Abbreviation TopK := (@NthElement.TopK score).
Local Abbreviation top_k := (NthElement.top_k leb).
Local Abbreviation block_of := (NthElement.block_of MAX_BLOCKS_PER_BEAM).
Local Abbreviation block_len := (NthElement.block_len MAX_BLOCKS_PER_BEAM).
Local Abbreviation local_tops := (NthElement.local_tops MAX_BLOCKS_PER_BEAM leb).
Local Abbreviation candidates := (NthElement.candidates MAX_BLOCKS_PER_BEAM leb).
Local Abbreviation final_row := (NthElement.final_row MAX_BLOCKS_PER_BEAM leb).

(** The row of batch entry [b] for a tensor of [beams] beam rows per batch
    entry over a vocabulary of [vocab]. *)
Local Abbreviation row_of probs beams vocab b :=
  (slice (b * (beams * vocab)) (beams * vocab) (enumerate probs)).

Lemma blocks_reach (vocab : nat) :
  (vocab <= MAX_BLOCKS_PER_BEAM * block_len vocab)%nat.
Proof.
  unfold NthElement.block_len.
  pose proof (Nat.div_mod_eq (vocab + MAX_BLOCKS_PER_BEAM - 1) MAX_BLOCKS_PER_BEAM).
  pose proof (Nat.mod_upper_bound (vocab + MAX_BLOCKS_PER_BEAM - 1)
                MAX_BLOCKS_PER_BEAM ltac:(lia)).
  lia.
Qed.

(** The blocks of a beam row make up the beam row. *)
Lemma blocks_cover (probs : list score) (vocab r : nat) :
  concat (map (fun k => block_of probs vocab r k) (seq 0 MAX_BLOCKS_PER_BEAM))
  = beam_row probs vocab r.
Proof.
  unfold NthElement.block_of.
  rewrite concat_slices_from. simpl.
  apply slice_all.
  pose proof (slice_length_le (r * vocab) vocab (enumerate probs)).
  pose proof (blocks_reach vocab). unfold beam_row. lia.
Qed.

(** The beam rows of a batch entry make up its row. *)
Lemma beam_rows_cover (probs : list score) (beams vocab b : nat) :
  concat (map (beam_row probs vocab) (seq (b * beams) beams))
  = row_of probs beams vocab b.
Proof.
  unfold beam_row. rewrite concat_slices_from.
  replace (b * beams * vocab)%nat with (b * (beams * vocab))%nat by lia.
  reflexivity.
Qed.

Lemma local_tops_split (probs : list score) (vocab K r : nat) :
  exists rest,
    Permutation (local_tops probs vocab K r ++ rest) (beam_row probs vocab r).
Proof.
  rewrite <- blocks_cover. unfold NthElement.local_tops.
  apply concat_split_perm. intros k _.
  eexists. apply top_k_split.
Qed.

(** The candidates of a batch entry are entries of its row, each one once. *)
Lemma candidates_split (probs : list score) (beams vocab K b : nat) :
  exists rest,
    Permutation (candidates probs beams vocab K b ++ rest)
                (row_of probs beams vocab b).
Proof.
  rewrite <- beam_rows_cover. unfold NthElement.candidates.
  apply concat_split_perm. intros r _. apply local_tops_split.
Qed.

Lemma row_NoDup_p (probs : list score) (beams vocab b : nat) :
  NoDup (map p (row_of probs beams vocab b)).
Proof.
  unfold slice. rewrite <- firstn_map, <- skipn_map.
  apply (NoDup_slice (b * (beams * vocab)) (beams * vocab)).
  apply enumerate_NoDup_p.
Qed.

Lemma candidates_NoDup_p (probs : list score) (beams vocab K b : nat) :
  NoDup (map p (candidates probs beams vocab K b)).
Proof.
  destruct (candidates_split probs beams vocab K b) as [rest Hperm].
  pose proof (row_NoDup_p probs beams vocab b) as Hnd.
  apply (Permutation_NoDup (Permutation_map p (Permutation_sym Hperm))) in Hnd.
  rewrite map_app in Hnd. apply NoDup_app_remove_r in Hnd. exact Hnd.
Qed.

Lemma final_row_sorted (probs : list score) (beams vocab N b : nat) :
  StronglySorted (desc leb) (final_row probs beams vocab N b).
Proof. apply top_k_sorted; assumption. Qed.

Lemma final_row_NoDup_p (probs : list score) (beams vocab N b : nat) :
  NoDup (map p (final_row probs beams vocab N b)).
Proof.
  pose proof (candidates_NoDup_p probs beams vocab N b) as Hnd.
  apply (Permutation_NoDup
           (Permutation_map p (Permutation_sym
              (top_k_split score leb N (candidates probs beams vocab N b)))))
    in Hnd.
  rewrite map_app in Hnd. apply NoDup_app_remove_r in Hnd. exact Hnd.
Qed.

Lemma final_row_incl (probs : list score) (beams vocab N b : nat) (c : TopK) :
  In c (final_row probs beams vocab N b) -> In c (row_of probs beams vocab b).
Proof.
  intros H. apply top_k_incl in H.
  destruct (candidates_split probs beams vocab N b) as [rest Hperm].
  apply (Permutation_in _ Hperm). apply in_or_app. left. exact H.
Qed.

Lemma block_NoDup (probs : list score) (vocab r k : nat) :
  NoDup (block_of probs vocab r k).
Proof.
  unfold NthElement.block_of, beam_row.
  apply NoDup_slice. apply NoDup_slice.
  apply (NoDup_map_NoDup p). apply enumerate_NoDup_p.
Qed.

Lemma in_row_in_block (probs : list score) (beams vocab b : nat) (x : TopK) :
  In x (row_of probs beams vocab b) ->
  exists r k, In r (seq (b * beams) beams) /\
              In k (seq 0 MAX_BLOCKS_PER_BEAM) /\
              In x (block_of probs vocab r k).
Proof.
  rewrite <- beam_rows_cover. intros H.
  apply in_concat in H. destruct H as [l [Hl Hx]].
  apply in_map_iff in Hl. destruct Hl as [r [<- Hr]].
  rewrite <- blocks_cover in Hx.
  apply in_concat in Hx. destruct Hx as [l [Hl Hx]].
  apply in_map_iff in Hl. destruct Hl as [k [<- Hk]].
  exists r, k. auto.
Qed.

Lemma local_in_candidates (probs : list score) (beams vocab K b r k : nat)
    (c : TopK) :
  In r (seq (b * beams) beams) -> In k (seq 0 MAX_BLOCKS_PER_BEAM) ->
  In c (top_k K (block_of probs vocab r k)) ->
  In c (candidates probs beams vocab K b).
Proof.
  intros Hr Hk Hc. unfold NthElement.candidates.
  apply in_concat. exists (local_tops probs vocab K r). split.
  - apply in_map. exact Hr.
  - unfold NthElement.local_tops. apply in_concat.
    exists (top_k K (block_of probs vocab r k)). split; [|exact Hc].
    apply (in_map (fun k => top_k K (block_of probs vocab r k))). exact Hk.
Qed.

(** The heart of the two-stage reduction: an entry of the row that is not
    among the final [N] is no better than any of them. *)
Lemma final_row_dominates (probs : list score) (beams vocab N b : nat)
    (x : TopK) :
  In x (row_of probs beams vocab b) ->
  In x (final_row probs beams vocab N b) \/
  forall c, In c (final_row probs beams vocab N b) -> leb (u x) (u c) = true.
Proof.
  intros Hx.
  destruct (in_row_in_block probs beams vocab b x Hx) as (r & k & Hr & Hk & Hblk).
  set (blk := block_of probs vocab r k) in *.
  set (cands := candidates probs beams vocab N b).
  pose proof (top_k_beats_rest score leb leb_total leb_trans N) as Hcross.
  apply (Permutation_in _ (Permutation_sym (top_k_split score leb N blk))) in Hblk.
  apply in_app_or in Hblk. destruct Hblk as [Hloc|Hout].
  - (* x is a candidate: stage 2 keeps it or beats it *)
    assert (Hc : In x cands)
      by (apply local_in_candidates with r k; assumption).
    apply (Permutation_in _ (Permutation_sym (top_k_split score leb N cands)))
      in Hc.
    apply in_app_or in Hc. destruct Hc as [Hc|Hc]; [left; exact Hc|].
    right. intros c Hin. apply (Hcross cands); assumption.
  - (* x lost in its own block: the N that beat it there would, together
       with a worse final entry, be N + 1 final entries *)
    right. intros f Hf.
    destruct (leb (u x) (u f)) eqn:Exf; [reflexivity|exfalso].
    pose proof (top_k_rest_full score leb N blk x Hout) as Hfull.
    assert (Hall : incl (f :: top_k N blk) (final_row probs beams vocab N b)).
    { intros c [<-|Hc]; [exact Hf|].
      assert (Hcc : In c cands)
        by (apply local_in_candidates with r k; assumption).
      apply (Permutation_in _ (Permutation_sym (top_k_split score leb N cands)))
        in Hcc.
      apply in_app_or in Hcc. destruct Hcc as [Hcc|Hcc]; [exact Hcc|].
      exfalso.
      pose proof (Hcross cands c f Hcc Hf) as Hcf.
      pose proof (Hcross blk x c Hout Hc) as Hxc.
      rewrite (leb_trans _ _ _ Hxc Hcf) in Exf. discriminate. }
    assert (Hnd : NoDup (f :: top_k N blk)).
    { constructor.
      - intros Hin. pose proof (Hcross blk x f Hout Hin) as Hxf. congruence.
      - apply top_k_NoDup. apply block_NoDup. }
    apply NoDup_incl_length in Hall; [|exact Hnd].
    simpl in Hall. rewrite Hfull in Hall.
    unfold NthElement.final_row in Hall. rewrite top_k_length in Hall. lia.
Qed.

(** As many as asked for, unless the row has fewer. *)
Lemma final_row_length (probs : list score) (beams vocab N b : nat) :
  List.length (final_row probs beams vocab N b)
  = Nat.min N (List.length (row_of probs beams vocab b)).
Proof.
  unfold NthElement.final_row. rewrite top_k_length.
  set (cands := candidates probs beams vocab N b).
  destruct (candidates_split probs beams vocab N b) as [rest Hperm].
  pose proof (Permutation_length Hperm) as Hlen. rewrite length_app in Hlen.
  fold cands in Hlen.
  destruct (Nat.le_gt_cases N (List.length cands)) as [Hge|Hlt]; [lia|].
  assert (Hall : Permutation cands (row_of probs beams vocab b)).
  { rewrite <- beam_rows_cover. unfold cands, NthElement.candidates.
    apply concat_map_perm. intros r Hr.
    rewrite <- blocks_cover. unfold NthElement.local_tops.
    apply concat_map_perm. intros k Hk.
    apply top_k_short.
    pose proof (length_in_concat_map
                  (fun k => top_k N (block_of probs vocab r k))
                  (seq 0 MAX_BLOCKS_PER_BEAM) k Hk) as H1.
    pose proof (length_in_concat_map (local_tops probs vocab N)
                  (seq (b * beams) beams) r Hr) as H2.
    unfold NthElement.local_tops in H2 at 1.
    unfold cands, NthElement.candidates in Hlt. lia. }
  rewrite (Permutation_length Hall). reflexivity.
Qed.

End TopN.

(** ** Rows of the tensor *)

Section Rows.

Variable score : Type.
Local Abbreviation Tensor := (@NthElement.Tensor score).
Local Abbreviation TopK := (@NthElement.TopK score).

(** The row of batch entry [b] holds exactly the elements at the flattened
    positions [b * width .. (b + 1) * width - 1], each with its position. *)
Lemma batch_row_spec (scores : Tensor) (b : nat) (c : TopK) :
  let width := (Z.to_nat (dim_2 (shape scores))
                * Z.to_nat (dim_1 (shape scores)))%nat in
  In c (batch_row scores b) <->
  exists i, (b * width <= i < b * width + width)%nat /\
            p c = Z.of_nat i /\
            nth_error (data scores) i = Some (u c).
Proof.
  intros width. unfold batch_row. fold width. unfold slice. split.
  - intros H. apply In_nth_error in H. destruct H as [j Hj].
    rewrite nth_error_firstn in Hj.
    destruct (Nat.ltb_spec j width) as [Hlt|Hge]; [|discriminate].
    rewrite nth_error_skipn, nth_error_enumerate in Hj.
    destruct (nth_error (data scores) (b * width + j)) as [v|] eqn:Ev;
      [|discriminate].
    simpl in Hj. injection Hj as <-. simpl.
    exists (b * width + j)%nat. repeat split; try lia. exact Ev.
  - intros (i & Hi & Hp & Hu).
    apply nth_error_In with (n := (i - b * width)%nat).
    rewrite nth_error_firstn.
    destruct (Nat.ltb_spec (i - b * width) width) as [Hlt|Hge]; [|lia].
    rewrite nth_error_skipn, nth_error_enumerate.
    replace (b * width + (i - b * width))%nat with i by lia.
    rewrite Hu. simpl. f_equal. destruct c as [pc uc]. simpl in *.
    rewrite Hp. reflexivity.
Qed.

End Rows.

(** ** The selection as a whole *)

Section Selection.

Variable score : Type.
Variable COMPILE_FP16 : bool.
Variable cudaError : list event -> bool.
Variable leb : score -> score -> bool.
Variable no_score : score.
Variable MAX_BLOCKS_PER_BEAM : nat.

Hypothesis blocks_pos : (1 <= MAX_BLOCKS_PER_BEAM)%nat.

Local Abbreviation World := (@NthElement.World score).
Local Abbreviation NthElementGPU := (@NthElement.NthElementGPU score).
Local Abbreviation Tensor := (@NthElement.Tensor score).
Local Abbreviation TopK := (@NthElement.TopK score).
Local Abbreviation launch :=
  (topK_kernelLauncher MAX_BLOCKS_PER_BEAM leb no_score).
Local Abbreviation getNBestList :=
  (@NthElement.getNBestList score COMPILE_FP16 cudaError launch).
Local Abbreviation runtime_fails := (@NthElement.runtime_fails score cudaError).
Local Abbreviation engine_ok := (@NthElement.engine_ok score MAX_BLOCKS_PER_BEAM).
Local Abbreviation pad_to := (NthElement.pad_to no_score).
Local Abbreviation final_row := (NthElement.final_row MAX_BLOCKS_PER_BEAM leb).

Lemma mul_ge_l (x y : Z) : 0 <= x -> 1 <= y -> x <= x * y.
Proof. intros Hx Hy. nia. Qed.

Lemma engine_ok_capacity (e : NthElementGPU) : engine_ok e -> capacity_ok e.
Proof.
  unfold NthElement.engine_ok, capacity_ok, tempElts.
  intros (Hbeam & Hbatch & Hfit). repeat split; try assumption.
  assert (HB : 1 <= Z.of_nat MAX_BLOCKS_PER_BEAM) by lia.
  destruct (Z.eq_dec (maxBeamSize_ e) 0) as [H0|Hne];
    [rewrite H0, Z.mul_0_r; reflexivity|].
  assert (H1 : 0 <= maxBatchSize_ e * maxBeamSize_ e) by nia.
  pose proof (mul_ge_l _ (maxBeamSize_ e) H1 ltac:(lia)) as H2.
  assert (H3 : 0 <= maxBatchSize_ e * maxBeamSize_ e * maxBeamSize_ e) by nia.
  pose proof (mul_ge_l _ (Z.of_nat MAX_BLOCKS_PER_BEAM) H3 HB) as H4.
  unfold sizeof_TopK. lia.
Qed.

Lemma to_int_small (x : Z) : 0 <= x < 2 ^ 31 -> to_int x = x.
Proof.
  intros H. unfold to_int. rewrite Z.mod_small by lia. lia.
Qed.

Lemma beam_fits_int (e : NthElementGPU) (scores : Tensor) (N : Z)
    (isFirst : bool) :
  engine_ok e -> 0 <= N -> preconditions e scores N isFirst ->
  1 <= dim_4 (shape scores) -> N < 2 ^ 31.
Proof.
  unfold NthElement.engine_ok, tempElts.
  intros (Hbeam & Hbatch & Hfit) HN (_ & _ & Hb & Hm) H4.
  assert (HB : 1 <= Z.of_nat MAX_BLOCKS_PER_BEAM) by lia.
  assert (Hle : N <= maxBeamSize_ e) by lia.
  destruct (Z.eq_dec (maxBeamSize_ e) 0) as [H0|Hne]; [lia|].
  rewrite (Z.mul_comm (maxBatchSize_ e)) in Hfit.
  pose proof (mul_ge_l (maxBeamSize_ e) (maxBatchSize_ e) Hbeam ltac:(lia)) as H1.
  assert (H2 : 0 <= maxBeamSize_ e * maxBatchSize_ e) by nia.
  pose proof (mul_ge_l _ (maxBeamSize_ e) H2 ltac:(lia)) as H3.
  assert (H5 : 0 <= maxBeamSize_ e * maxBatchSize_ e * maxBeamSize_ e) by nia.
  pose proof (mul_ge_l _ (Z.of_nat MAX_BLOCKS_PER_BEAM) H5 HB) as H6.
  lia.
Qed.

(** The records [getPairs] reads after the launch are the final rows of the
    batch entries, one after the other: nothing of what the buffers held
    before the call is among them. *)
Lemma launched_records (e : NthElementGPU) (scores : Tensor) (N : Z)
    (isFirst : bool) (w : World) :
  engine_ok e -> shape_ok scores -> 0 <= N ->
  preconditions e scores N isFirst ->
  records (tops (self (launched launch scores N w)))
          (Z.to_nat (numElts_of scores N))
  = concat (map (fun b => pad_to (Z.to_nat N)
                            (final_row (data scores)
                               (Z.to_nat (dim_2 (shape scores)))
                               (Z.to_nat (dim_1 (shape scores)))
                               (Z.to_nat N) b))
                (seq 0 (Z.to_nat (dim_4 (shape scores))))).
Proof.
  intros Hok Hts HN Hpre.
  rewrite (proj1 (numElts_of_exact score e scores N isFirst
                    (engine_ok_capacity e Hok) Hts HN Hpre)).
  assert (H4 : 0 <= dim_4 (shape scores)) by (apply Hts).
  destruct (Z.eq_dec (dim_4 (shape scores)) 0) as [H0|Hpos].
  - rewrite H0. reflexivity.
  - assert (Hint : N < 2 ^ 31)
      by (apply (beam_fits_int e scores N isFirst); try assumption; lia).
    unfold launched. cbv zeta. simpl self. simpl tops.
    rewrite to_int_small by lia.
    rewrite Z2Nat.inj_mul by lia.
    apply launcher_records.
Qed.

Lemma slice_map {A B} (f : A -> B) (off len : nat) (l : list A) :
  slice off len (map f l) = map f (slice off len l).
Proof. unfold slice. rewrite skipn_map, firstn_map. reflexivity. Qed.

(** With everything in order the call returns in the world [getPairs]
    leaves. *)
Lemma getNBestList_done (lch : @Launcher score) (scores : Tensor) (N : Z)
    (isFirst : bool) (w : World) :
  shape_ok scores ->
  preconditions (self w) scores N isFirst ->
  type_supported COMPILE_FP16 (type scores) = true ->
  runtime_fails lch scores N w = false ->
  outKeys w = [] ->
  NthElement.getNBestList COMPILE_FP16 cudaError lch scores N isFirst w
  = Done tt (extracted (numElts_of scores N) (launched lch scores N w)).
Proof.
  intros Hts Hpre Hty Hrt Hkeys.
  assert (Hchk : checks_ok (self w) scores N isFirst = true)
    by (apply checks_ok_iff; assumption).
  rewrite (getNBestList_checks_pass score COMPILE_FP16 cudaError lch scores N
             isFirst w Hchk Hrt).
  rewrite Hty. cbv zeta.
  assert (Hfin := proj2 (final_check_iff score lch scores N w) Hkeys).
  cbv zeta in Hfin. rewrite Hfin. reflexivity.
Qed.

(** A call that returned has passed every check. *)
Lemma getNBestList_done_inv (lch : @Launcher score) (scores : Tensor) (N : Z)
    (isFirst : bool) (w w1 : World) :
  shape_ok scores ->
  NthElement.getNBestList COMPILE_FP16 cudaError lch scores N isFirst w
  = Done tt w1 ->
  preconditions (self w) scores N isFirst /\
  type_supported COMPILE_FP16 (type scores) = true /\
  outKeys w = [] /\
  w1 = extracted (numElts_of scores N) (launched lch scores N w).
Proof.
  intros Hts Hrun.
  destruct (checks_ok (self w) scores N isFirst) eqn:Ec.
  - destruct (type_supported COMPILE_FP16 (type scores)) eqn:Et.
    + destruct (runtime_fails lch scores N w) eqn:Er.
      * destruct (getNBestList_runtime_error score COMPILE_FP16 cudaError lch
                    scores N isFirst w Ec Et Er) as (w' & Hab & _).
        congruence.
      * rewrite (getNBestList_checks_pass score COMPILE_FP16 cudaError lch
                   scores N isFirst w Ec Er), Et in Hrun.
        cbv zeta in Hrun.
        pose proof (final_check_iff score lch scores N w) as Hfin.
        cbv zeta in Hfin.
        destruct (Z.of_nat _ =? _) eqn:Ef; [|discriminate].
        split; [apply checks_ok_iff; assumption|].
        split; [reflexivity|].
        split; [apply Hfin; reflexivity|congruence].
    + rewrite (getNBestList_after_checks score COMPILE_FP16 cudaError lch
                 scores N isFirst w Ec), Et in Hrun.
      discriminate.
  - destruct (getNBestList_check_fails score COMPILE_FP16 cudaError lch scores
                N isFirst w Ec) as [msg Hab].
    congruence.
Qed.

Hypothesis leb_total : forall a b, leb a b = true \/ leb b a = true.
Hypothesis leb_trans :
  forall a b c, leb a b = true -> leb b c = true -> leb a c = true.

(** C1: for a tensor that passes the checks, and a runtime that reports no
    error for the copy and the synchronisation of the extraction, the [N]
    pairs appended for batch entry [b] are the records of [top], where [top] holds [N] entries of the
    row of [b], each at most once, in the order of falling scores, and every
    entry of the row that is not in [top] has a score at most that of every
    entry in [top]. A row of fewer than [N] entries is returned whole, and
    the pairs that remain are empty slots. *)
Theorem getNBestList_selects_top_N
    (e : NthElementGPU) (scores : Tensor) (N : Z) (isFirst : bool)
    (costs : list score) (tr : list event) (b : nat) :
  engine_ok e -> tensor_ok scores -> 0 <= N ->
  preconditions e scores N isFirst ->
  type_supported COMPILE_FP16 (type scores) = true ->
  runtime_fails launch scores N
    {| self := e; outCosts := costs; outKeys := []; trace := tr |} = false ->
  (b < Z.to_nat (dim_4 (shape scores)))%nat ->
  let n := Z.to_nat N in
  exists w' top,
    getNBestList scores N isFirst
      {| self := e; outCosts := costs; outKeys := []; trace := tr |}
    = Done tt w' /\
    slice (b * n) n (outKeys w')
    = map (fun t => to_unsigned (p t))
          (top ++ repeat (no_candidate no_score) (n - List.length top)) /\
    slice (b * n) n (appended costs (outCosts w'))
    = map u (top ++ repeat (no_candidate no_score) (n - List.length top)) /\
    List.length top = Nat.min n (List.length (batch_row scores b)) /\
    StronglySorted (desc leb) top /\
    NoDup (map p top) /\
    (forall c, In c top -> In c (batch_row scores b)) /\
    (forall x, In x (batch_row scores b) ->
       In x top \/ forall c, In c top -> leb (u x) (u c) = true).
Proof.
  intros Hok Htensor HN Hpre Hty Hrt Hb n.
  assert (Hts : shape_ok scores) by (apply Htensor).
  set (w := {| self := e; outCosts := costs; outKeys := []; trace := tr |}) in *.
  pose proof (getNBestList_done launch scores N isFirst w Hts Hpre Hty Hrt
                eq_refl) as Hdone.
  pose proof (launched_records e scores N isFirst w Hok Hts HN Hpre) as Hrec.
  destruct (numElts_of_exact score e scores N isFirst
              (engine_ok_capacity e Hok) Hts HN Hpre) as (Hnum & Hpos & Hfit).
  rewrite <- Hnum in Hpos, Hfit.
  destruct (extracted_outputs score (numElts_of scores N)
              (launched launch scores N w) Hpos Hfit) as [Hkeys Hcosts].
  exists (extracted (numElts_of scores N) (launched launch scores N w)).
  exists (final_row (data scores) (Z.to_nat (dim_2 (shape scores)))
                    (Z.to_nat (dim_1 (shape scores))) n b).
  split; [exact Hdone|].
  rewrite Hkeys, Hcosts.
  change (outKeys (launched launch scores N w)) with (@nil Z).
  change (outCosts (launched launch scores N w)) with costs.
  rewrite appended_app, app_nil_l, Hrec, !slice_map.
  fold n. rewrite (slice_final_rows score leb no_score MAX_BLOCKS_PER_BEAM)
    by exact Hb.
  assert (Hlen : List.length
                   (final_row (data scores) (Z.to_nat (dim_2 (shape scores)))
                              (Z.to_nat (dim_1 (shape scores))) n b)
                 = Nat.min n (List.length (batch_row scores b)))
    by (apply final_row_length; assumption).
  rewrite (pad_to_short score no_score) by lia.
  split; [reflexivity|]. split; [reflexivity|].
  split; [exact Hlen|].
  unfold batch_row. cbv zeta.
  split; [apply final_row_sorted; assumption|].
  split; [apply final_row_NoDup_p; assumption|].
  split; [intros c; apply final_row_incl; assumption|].
  intros x. apply final_row_dominates; assumption.
Qed.

(** C5: the scratch buffers carry nothing from one call to the next. When a
    call has returned, a call with the same tensor and parameters on the
    same engine appends the same keys and the same costs as the first,
    whatever the four buffers of the engine hold by then (what the first
    call left in them, or anything else), whatever the two vectors hold,
    provided the runtime reports no error for its extraction; and it
    returns when the keys vector it is given is empty. *)
Theorem getNBestList_twice_appends_the_same
    (scores : Tensor) (N : Z) (isFirst : bool) (w w1 : World)
    (e2 : NthElementGPU) (costs2 : list score) (keys2 : list Z)
    (tr2 : list event) :
  engine_ok (self w) -> tensor_ok scores -> 0 <= N ->
  getNBestList scores N isFirst w = Done tt w1 ->
  maxBeamSize_ e2 = maxBeamSize_ (self w1) ->
  maxBatchSize_ e2 = maxBatchSize_ (self w1) ->
  let w2 := {| self := e2; outCosts := costs2; outKeys := keys2;
               trace := tr2 |} in
  runtime_fails launch scores N w2 = false ->
  let again := getNBestList scores N isFirst w2 in
  appended keys2 (outKeys (state_of again)) = appended (outKeys w) (outKeys w1) /\
  appended costs2 (outCosts (state_of again))
  = appended (outCosts w) (outCosts w1) /\
  (keys2 = [] -> exists w2', again = Done tt w2').
Proof.
  intros Hok Htensor HN Hrun Hbeam1 Hbatch1 w2 Hrt.
  assert (Hts : shape_ok scores) by (apply Htensor).
  destruct (getNBestList_done_inv launch scores N isFirst w w1 Hts Hrun)
    as (Hpre & Hty & Hkeys & Hw1).
  subst w1.
  set (w1 := extracted (numElts_of scores N) (launched launch scores N w)) in *.
  assert (Hbeam : maxBeamSize_ (self w2) = maxBeamSize_ (self w))
    by exact Hbeam1.
  assert (Hbatch : maxBatchSize_ (self w2) = maxBatchSize_ (self w))
    by exact Hbatch1.
  assert (Hpre2 : preconditions (self w2) scores N isFirst).
  { unfold preconditions in *. rewrite Hbeam, Hbatch. exact Hpre. }
  assert (Hok2 : engine_ok (self w2)).
  { unfold NthElement.engine_ok in *. rewrite Hbeam, Hbatch. exact Hok. }
  assert (Hchk : checks_ok (self w2) scores N isFirst = true)
    by (apply checks_ok_iff; assumption).
  pose proof (launched_records (self w) scores N isFirst w Hok Hts HN Hpre)
    as Hrec1.
  pose proof (launched_records (self w2) scores N isFirst w2 Hok2 Hts HN Hpre2)
    as Hrec2.
  cbv zeta.
  rewrite (getNBestList_checks_pass score COMPILE_FP16 cudaError launch scores
             N isFirst w2 Hchk Hrt), Hty.
  cbv zeta.
  assert (Hst : forall (c : bool) (x : World) (m : string),
             state_of (if c then Done tt x else Aborted m x) = x)
    by (intros [] x m; reflexivity).
  rewrite Hst.
  destruct (numElts_of_exact score (self w) scores N isFirst
              (engine_ok_capacity (self w) Hok) Hts HN Hpre)
    as (Hnum & Hpos & Hfit).
  rewrite <- Hnum in Hpos, Hfit.
  destruct (extracted_outputs score (numElts_of scores N)
              (launched launch scores N w) Hpos Hfit) as [Hk1 Hc1].
  destruct (extracted_outputs score (numElts_of scores N)
              (launched launch scores N w2) Hpos Hfit) as [Hk2 Hc2].
  split; [|split].
  - unfold w1. rewrite Hk1, Hk2.
    change (outKeys (launched launch scores N w2)) with keys2.
    change (outKeys (launched launch scores N w)) with (outKeys w).
    rewrite !appended_app, Hrec1, Hrec2. reflexivity.
  - unfold w1. rewrite Hc1, Hc2.
    change (outCosts (launched launch scores N w2)) with costs2.
    change (outCosts (launched launch scores N w)) with (outCosts w).
    rewrite !appended_app, Hrec1, Hrec2. reflexivity.
  - intros Hk.
    assert (Hfin := proj2 (final_check_iff score launch scores N w2) Hk).
    cbv zeta in Hfin. rewrite Hfin. eexists. reflexivity.
Qed.

End Selection.

(** *** The example run *)

Lemma Zleb_total (a b : Z) : (a <=? b) = true \/ (b <=? a) = true.
Proof. rewrite !Z.leb_le. lia. Qed.

Lemma Zleb_trans (a b c : Z) :
  (a <=? b) = true -> (b <=? c) = true -> (a <=? c) = true.
Proof. rewrite !Z.leb_le. lia. Qed.

(** The scenario of two rows over a vocabulary of five: the keys are the
    flattened positions of the three best scores of each row, best first. *)
Example example_run_result :
  exists w',
    NthElement.getNBestList false never_fails example_launch example_scores 3 true
      (example_world [] [])
    = Done tt w' /\
    outKeys w' = [1; 4; 2; 7; 9; 5] /\
    outCosts w' = [90; 40; 30; 80; 60; 20] /\
    trace w' = [EvSetDevice 0; EvSetDevice 0; EvKernelLaunch 2 1 3 5;
                EvSetDevice 0; EvMemcpyDeviceToHost 48; EvStreamSynchronize].
Proof.
  eexists. split; [vm_compute; reflexivity|].
  repeat split.
Qed.

Lemma getNBestList_selects_top_N_witness :
  let n := 3%nat in
  exists w' top,
    NthElement.getNBestList false never_fails example_launch example_scores 3 true
      (example_world [5] [])
    = Done tt w' /\
    slice (1 * n) n (outKeys w')
    = map (fun t => to_unsigned (p t))
          (top ++ repeat (no_candidate (-1000000)) (n - List.length top)) /\
    slice (1 * n) n (appended [5] (outCosts w'))
    = map u (top ++ repeat (no_candidate (-1000000)) (n - List.length top)) /\
    List.length top = Nat.min n (List.length (batch_row example_scores 1)) /\
    StronglySorted (desc Z.leb) top /\
    NoDup (map p top) /\
    (forall c, In c top -> In c (batch_row example_scores 1)) /\
    (forall x, In x (batch_row example_scores 1) ->
       In x top \/ forall c, In c top -> (u x <=? u c) = true).
Proof.
  apply (getNBestList_selects_top_N Z false never_fails Z.leb (-1000000) 8%nat
           ltac:(lia) Zleb_total Zleb_trans
           example_engine example_scores 3 true [5] [] 1%nat).
  - repeat split; vm_compute; congruence.
  - repeat split; vm_compute; congruence.
  - lia.
  - repeat split; vm_compute; congruence.
  - reflexivity.
  - reflexivity.
  - vm_compute. lia.
Defined.

(** The second call is made once on the engine as the first call left it,
    and once on the same engine with all four buffers overwritten. *)
Lemma getNBestList_twice_appends_the_same_witness :
  let w := example_world [5] [] in
  let w1 := state_of (NthElement.getNBestList false never_fails example_launch
                        example_scores 3 true w) in
  let again :=
    NthElement.getNBestList false never_fails example_launch example_scores 3
      true
      {| self := self w1; outCosts := [6; 7]; outKeys := [];
         trace := trace w1 |} in
  let scribbled :=
    NthElement.getNBestList false never_fails example_launch example_scores 3
      true
      {| self := construct 3 2 0 (fun i => Z.of_nat i) (fun _ => 1)
                   (fun i => {| p := 4; u := Z.of_nat i |}) (fun _ => stale);
         outCosts := []; outKeys := [8]; trace := [] |} in
  (appended [] (outKeys (state_of again)) = appended (outKeys w) (outKeys w1) /\
   appended [6; 7] (outCosts (state_of again))
   = appended (outCosts w) (outCosts w1) /\
   (@nil Z = [] -> exists w2, again = Done tt w2)) /\
  (appended [8] (outKeys (state_of scribbled))
   = appended (outKeys w) (outKeys w1) /\
   appended [] (outCosts (state_of scribbled))
   = appended (outCosts w) (outCosts w1) /\
   ([8] = [] -> exists w2, scribbled = Done tt w2)).
Proof.
  intros w w1. split.
  - apply (getNBestList_twice_appends_the_same Z false never_fails Z.leb
             (-1000000) 8%nat ltac:(lia) example_scores 3 true w w1
             (self w1) [6; 7] [] (trace w1)).
    + repeat split; vm_compute; congruence.
    + repeat split; vm_compute; congruence.
    + lia.
    + vm_compute. reflexivity.
    + reflexivity.
    + reflexivity.
    + reflexivity.
  - apply (getNBestList_twice_appends_the_same Z false never_fails Z.leb
             (-1000000) 8%nat ltac:(lia) example_scores 3 true w w1
             (construct 3 2 0 (fun i => Z.of_nat i) (fun _ => 1)
                (fun i => {| p := 4; u := Z.of_nat i |}) (fun _ => stale))
             [] [8] []).
    + repeat split; vm_compute; congruence.
    + repeat split; vm_compute; congruence.
    + lia.
    + vm_compute. reflexivity.
    + reflexivity.
    + reflexivity.
    + reflexivity.
Defined.

End NthElementFacts.

(** * Further properties of the backend *)

Module BackendExtras.

Import Backend.

Section WithVendor.

Variable cublasCreate : list event -> Z.
Variable cusparseCreate : list event -> Z.
Variable cudaError : list event -> bool.

Local Abbreviation run := (Backend.run cublasCreate cusparseCreate cudaError).
Local Abbreviation invoke :=
  (Backend.invoke cublasCreate cusparseCreate cudaError).
Local Abbreviation getCublasHandle :=
  (Backend.getCublasHandle cublasCreate cudaError).
Local Abbreviation getCusparseHandle :=
  (Backend.getCusparseHandle cusparseCreate cudaError).
Local Abbreviation destroy := (Backend.destroy cudaError).
Local Abbreviation check_fails := (Backend.check_fails cudaError).

Ltac step_call :=
  cbv [invoke Backend.invoke returning bind ret get put modify field emit
       on_self Backend.setDevice Backend.synchronize CUDA_CHECK
       Backend.check_fails checked_call
       Backend.getCublasHandle Backend.getCusparseHandle
       getOneGPU getZeroGPU getCudaComputeCapability setInt16 isInt16 setInt8
       isInt8 setShifted isShifted setShiftedAll isShiftedAll setDumpQuantMult
       DumpQuantMult setPrecomputedAlpha isPrecomputedAlpha
       setLegacyBatchedGemm isLegacyBatchedGemm setTensorCoreGemm
       useTensorCoreGemm setFused isFused LOG_ONCE ABORT_IF state_of aborted].

Ltac split_ifs :=
  repeat match goal with
         | |- context [if ?b then _ else _] =>
             match type of b with bool => destruct b eqn:? end
         end.

(** *** One call *)

Lemma run_cons (c : call) (cs : list call) (w : World) :
  run (c :: cs) w =
  match invoke c w with
  | Done v w1 =>
      match run cs w1 with
      | Done vs w2 => Done (v :: vs) w2
      | Aborted msg w2 => Aborted msg w2
      end
  | Aborted msg w1 => Aborted msg w1
  end.
Proof. reflexivity. Qed.

(** A call aborts exactly when the runtime reports an error for the checked
    call it makes, or it is [setTensorCoreGemm(true)] on a device below
    compute capability 7. *)
Lemma invoke_aborted (c : call) (w : World) :
  aborted (invoke c w)
  = check_fails c w
    || (enables_tensorCore c && (major (compute_ (self w)) <? 7)).
Proof.
  destruct c as [ | | | | | | | | | | | | | | | | | | | | |[|]| | | ];
    step_call; simpl; split_ifs; simpl in *; congruence.
Qed.

(** [setTensorCoreGemm(true)] aborts in the world it was called in. *)
Lemma invoke_aborted_state (c : call) (w : World) :
  enables_tensorCore c = true ->
  aborted (invoke c w) = true -> state_of (invoke c w) = w.
Proof.
  destruct c as [ | | | | | | | | | | | | | | | | | | | | |[|]| | | ];
    try discriminate.
  intros _. step_call; simpl; split_ifs; simpl; try discriminate; reflexivity.
Qed.

Lemma no_error_no_check_fails (c : call) (w : World) :
  (forall tr, cudaError tr = false) -> check_fails c w = false.
Proof.
  intros H. unfold Backend.check_fails.
  destruct (checked_call c w); [apply H|reflexivity].
Qed.

Lemma invoke_constants (c : call) (w : World) :
  let w' := state_of (invoke c w) in
  deviceId_ (self w') = deviceId_ (self w) /\
  compute_ (self w') = compute_ (self w) /\
  oneGPU (self w') = oneGPU (self w) /\
  zeroGPU (self w') = zeroGPU (self w).
Proof.
  destruct c as [ | | | | | | | | | | | | | | | | | | | | |[|]| | | ];
    step_call; simpl; split_ifs; simpl; repeat split.
Qed.

Lemma invoke_flag (f : flag) (c : call) (w : World) :
  aborted (invoke c w) = false ->
  flag_value f (self (state_of (invoke c w)))
  = match written f c with Some v => v | None => flag_value f (self w) end.
Proof.
  destruct f;
    destruct c as [ | | | | | | | | | | | | | | | | | | | | |[|]| | | ];
    step_call; simpl; split_ifs; simpl; intros; reflexivity.
Qed.

Lemma invoke_tensorCore (c : call) (w : World) :
  aborted (invoke c w) = false ->
  tensorCore_ (self (state_of (invoke c w)))
  = tensorCore_ (self w) || enables_tensorCore c.
Proof.
  destruct c as [ | | | | | | | | | | | | | | | | | | | | |[|]| | | ];
    step_call; simpl; split_ifs; simpl; intros;
    rewrite ?orb_false_r, ?orb_true_r; try reflexivity; discriminate.
Qed.

(** *** Sequences of calls *)

Lemma run_aborted_cons (c : call) (cs : list call) (w : World) :
  aborted (run (c :: cs) w)
  = aborted (invoke c w) || aborted (run cs (state_of (invoke c w))).
Proof.
  rewrite run_cons. destruct (invoke c w) as [v w1|msg w1]; simpl; [|reflexivity].
  destruct (run cs w1); reflexivity.
Qed.

Lemma run_state_cons (c : call) (cs : list call) (w : World) :
  state_of (run (c :: cs) w)
  = if aborted (invoke c w) then state_of (invoke c w)
    else state_of (run cs (state_of (invoke c w))).
Proof.
  rewrite run_cons. destruct (invoke c w) as [v w1|msg w1]; simpl; [|reflexivity].
  destruct (run cs w1); reflexivity.
Qed.

Lemma run_aborted_app (cs1 cs2 : list call) : forall w,
  aborted (run (cs1 ++ cs2) w)
  = aborted (run cs1 w) || aborted (run cs2 (state_of (run cs1 w))).
Proof.
  induction cs1 as [|c cs1 IH]; intros w; [reflexivity|].
  rewrite <- app_comm_cons, !run_aborted_cons, run_state_cons.
  destruct (aborted (invoke c w)); simpl; [reflexivity|]. apply IH.
Qed.

Lemma run_state_app (cs1 cs2 : list call) : forall w,
  state_of (run (cs1 ++ cs2) w)
  = if aborted (run cs1 w) then state_of (run cs1 w)
    else state_of (run cs2 (state_of (run cs1 w))).
Proof.
  induction cs1 as [|c cs1 IH]; intros w; [reflexivity|].
  rewrite <- app_comm_cons, !run_state_cons, run_aborted_cons.
  destruct (aborted (invoke c w)); simpl; [reflexivity|]. apply IH.
Qed.

Lemma run_constants (cs : list call) (w : World) :
  deviceId_ (self (state_of (run cs w))) = deviceId_ (self w) /\
  compute_ (self (state_of (run cs w))) = compute_ (self w) /\
  oneGPU (self (state_of (run cs w))) = oneGPU (self w) /\
  zeroGPU (self (state_of (run cs w))) = zeroGPU (self w).
Proof.
  apply (BackendFacts.run_preserves cublasCreate cusparseCreate cudaError
           (fun w' => deviceId_ (self w') = deviceId_ (self w) /\
                      compute_ (self w') = compute_ (self w) /\
                      oneGPU (self w') = oneGPU (self w) /\
                      zeroGPU (self w') = zeroGPU (self w))).
  - intros c w' (H1 & H2 & H3 & H4).
    destruct (invoke_constants c w') as (G1 & G2 & G3 & G4).
    cbv zeta in *. repeat split; congruence.
  - repeat split.
Qed.


Lemma flag_getter_reads (f : flag) (w : World) :
  flag_getter f w = Done (flag_value f (self w)) w.
Proof. destruct f; reflexivity. Qed.

(** X1: the four flags with a field behind them are four independent
    registers:
    after a sequence of member calls that has not aborted, the getter of a
    flag answers the argument of the last call of its setter in the
    sequence, or what it answered before the sequence if there is none. *)
Theorem flags_are_independent_registers (f : flag) (cs : list call) :
  forall w,
    aborted (run cs w) = false ->
    flag_getter f (state_of (run cs w))
    = Done (last_written f cs (flag_value f (self w))) (state_of (run cs w)).
Proof.
  induction cs as [|c cs IH]; intros w Hok.
  - apply flag_getter_reads.
  - rewrite run_aborted_cons in Hok. apply orb_false_iff in Hok.
    destruct Hok as [Hc Hcs].
    rewrite run_state_cons, Hc. rewrite (IH _ Hcs).
    rewrite (invoke_flag f c w Hc). reflexivity.
Qed.

(** X2: the tensor-core flag is a latch: after a sequence of member calls that
    has not aborted it is set exactly when it was set before or the sequence
    holds a [setTensorCoreGemm(true)]. *)
Theorem tensorCore_is_set_by_enabling_only (cs : list call) :
  forall w,
    aborted (run cs w) = false ->
    useTensorCoreGemm (state_of (run cs w))
    = Done (tensorCore_ (self w) || existsb enables_tensorCore cs)
           (state_of (run cs w)).
Proof.
  unfold useTensorCoreGemm, field.
  induction cs as [|c cs IH]; intros w Hok.
  - simpl. rewrite orb_false_r. reflexivity.
  - rewrite run_aborted_cons in Hok. apply orb_false_iff in Hok.
    destruct Hok as [Hc Hcs].
    rewrite run_state_cons, Hc. rewrite (IH _ Hcs).
    rewrite (invoke_tensorCore c w Hc). simpl existsb.
    rewrite orb_assoc. reflexivity.
Qed.

(** X3: when the runtime reports no error, the only way a sequence of
    member calls aborts is a [setTensorCoreGemm(true)] on a device below
    compute capability 7: the sequence aborts exactly when the device is
    below 7 and the sequence holds such a call. *)
Theorem run_aborts_iff_tensorCore_requested_below_7 (cs : list call) (w : World) :
  (forall tr, cudaError tr = false) ->
  aborted (run cs w)
  = (major (compute_ (self w)) <? 7) && existsb enables_tensorCore cs.
Proof.
  intros Hrt. revert w. induction cs as [|c cs IH]; intros w.
  - simpl. rewrite andb_false_r. reflexivity.
  - rewrite run_aborted_cons, invoke_aborted, IH.
    rewrite (no_error_no_check_fails c w Hrt).
    destruct (invoke_constants c w) as (_ & Hcc & _).
    cbv zeta in Hcc. rewrite Hcc. simpl existsb.
    destruct (enables_tensorCore c), (major (compute_ (self w)) <? 7),
      (existsb enables_tensorCore cs); reflexivity.
Qed.

(** X4: when a sequence of member calls aborts, the process dies in the state
    that the calls before the first [setTensorCoreGemm(true)] left: the
    aborting call writes nothing and no later call runs. *)
Theorem run_abort_keeps_the_state_before_it
    (cs1 : list call) (c : call) (cs2 : list call) (w : World) :
  existsb enables_tensorCore cs1 = false ->
  enables_tensorCore c = true ->
  major (compute_ (self w)) < 7 ->
  aborted (run (cs1 ++ c :: cs2) w) = true /\
  state_of (run (cs1 ++ c :: cs2) w) = state_of (run cs1 w).
Proof.
  intros H1 Hc Hm.
  assert (Hlt : (major (compute_ (self w)) <? 7) = true)
    by (apply Z.ltb_lt; exact Hm).
  destruct (run_constants cs1 w) as (_ & Hcc & _).
  assert (Hinv : aborted (invoke c (state_of (run cs1 w))) = true).
  { rewrite invoke_aborted, Hc, Hcc, Hlt. apply orb_true_r. }
  split.
  { rewrite run_aborted_app, run_aborted_cons, Hinv. apply orb_true_r. }
  rewrite run_state_app.
  destruct (aborted (run cs1 w)); [reflexivity|].
  rewrite run_state_cons, Hinv. apply invoke_aborted_state; assumption.
Qed.

(** X5: no member call ever writes the device number, the cached compute
    capability or the addresses of the two device constants: after any
    sequence of calls their getters answer what they answered before. *)
Theorem run_keeps_device_constants (cs : list call) (w : World) :
  let w' := state_of (run cs w) in
  deviceId_ (self w') = deviceId_ (self w) /\
  getCudaComputeCapability w' = Done (compute_ (self w)) w' /\
  getOneGPU w' = Done (oneGPU (self w)) w' /\
  getZeroGPU w' = Done (zeroGPU (self w)) w'.
Proof.
  cbv zeta. destruct (run_constants cs w) as (H1 & H2 & H3 & H4).
  unfold getCudaComputeCapability, getOneGPU, getZeroGPU, field.
  rewrite H2, H3, H4. repeat split. exact H1.
Qed.

(** *** The math-library handles over the life of the object *)

Lemma invoke_cublas_creations (c : call) (w : World) (k : nat) :
  filter is_cublas_create (trace w)
  = repeat (EvCublasCreate 0) k
    ++ (if cublasHandle_ (self w) =? 0 then []
        else [EvCublasCreate (cublasHandle_ (self w))]) ->
  exists k',
    ((forall tr, cublasCreate tr <> 0) -> k' = k) /\
    filter is_cublas_create (trace (state_of (invoke c w)))
    = repeat (EvCublasCreate 0) k'
      ++ (if cublasHandle_ (self (state_of (invoke c w))) =? 0 then []
          else [EvCublasCreate (cublasHandle_ (self (state_of (invoke c w))))]).
Proof.
  intros H.
  destruct c as [ | | | | | | | | | | | | | | | | | | | | |[|]| | | ];
    try (exists k; split; [reflexivity|]; revert H;
         step_call; cbv [set_cublasHandle set_cusparseHandle]; simpl;
         split_ifs; simpl in *; try congruence;
         rewrite ?filter_app; simpl; rewrite ?app_nil_r; intros H; exact H).
  step_call. simpl.
  destruct (cublasHandle_ (self w) =? 0) eqn:E0; simpl.
  - destruct (cudaError (trace w ++ [EvSetDevice (to_int (deviceId_ (self w)))]));
      simpl.
    { exists k. rewrite E0, filter_app, H. simpl. rewrite !app_nil_r.
      split; reflexivity. }
    rewrite !filter_app, H. simpl. rewrite !app_nil_r.
    set (h' := cublasCreate
                 (trace w ++ [EvSetDevice (to_int (deviceId_ (self w)))])).
    destruct (h' =? 0) eqn:E1.
    + exists (S k). split.
      * intros Hnn. apply Z.eqb_eq in E1. exfalso. exact (Hnn _ E1).
      * apply Z.eqb_eq in E1. rewrite E1, app_nil_r.
        symmetry. apply (repeat_cons k (EvCublasCreate 0)).
    + exists k. split; reflexivity.
  - exists k. rewrite E0. split; [reflexivity|exact H].
Qed.

Lemma invoke_cusparse_creations (c : call) (w : World) (k : nat) :
  filter is_cusparse_create (trace w)
  = repeat (EvCusparseCreate 0) k
    ++ (if cusparseHandle_ (self w) =? 0 then []
        else [EvCusparseCreate (cusparseHandle_ (self w))]) ->
  exists k',
    ((forall tr, cusparseCreate tr <> 0) -> k' = k) /\
    filter is_cusparse_create (trace (state_of (invoke c w)))
    = repeat (EvCusparseCreate 0) k'
      ++ (if cusparseHandle_ (self (state_of (invoke c w))) =? 0 then []
          else [EvCusparseCreate (cusparseHandle_ (self (state_of (invoke c w))))]).
Proof.
  intros H.
  destruct c as [ | | | | | | | | | | | | | | | | | | | | |[|]| | | ];
    try (exists k; split; [reflexivity|]; revert H;
         step_call; cbv [set_cublasHandle set_cusparseHandle]; simpl;
         split_ifs; simpl in *; try congruence;
         rewrite ?filter_app; simpl; rewrite ?app_nil_r; intros H; exact H).
  step_call. simpl.
  destruct (cusparseHandle_ (self w) =? 0) eqn:E0; simpl.
  - destruct (cudaError (trace w ++ [EvSetDevice (to_int (deviceId_ (self w)))]));
      simpl.
    { exists k. rewrite E0, filter_app, H. simpl. rewrite !app_nil_r.
      split; reflexivity. }
    rewrite !filter_app, H. simpl. rewrite !app_nil_r.
    set (h' := cusparseCreate
                 (trace w ++ [EvSetDevice (to_int (deviceId_ (self w)))])).
    destruct (h' =? 0) eqn:E1.
    + exists (S k). split.
      * intros Hnn. apply Z.eqb_eq in E1. exfalso. exact (Hnn _ E1).
      * apply Z.eqb_eq in E1. rewrite E1, app_nil_r.
        symmetry. apply (repeat_cons k (EvCusparseCreate 0)).
    + exists k. split; reflexivity.
  - exists k. rewrite E0. split; [reflexivity|exact H].
Qed.

(** No member call destroys a handle or frees device memory. *)
Lemma invoke_releases_nothing (c : call) (w : World) :
  filter is_cublas_destroy (trace (state_of (invoke c w)))
  = filter is_cublas_destroy (trace w) /\
  filter is_cusparse_destroy (trace (state_of (invoke c w)))
  = filter is_cusparse_destroy (trace w) /\
  filter is_free (trace (state_of (invoke c w))) = filter is_free (trace w).
Proof.
  destruct c as [ | | | | | | | | | | | | | | | | | | | | |[|]| | | ];
    step_call; simpl; split_ifs; simpl;
    rewrite ?filter_app; simpl; rewrite ?app_nil_r; repeat split.
Qed.

Lemma invoke_cublas_null (c : call) (w : World) :
  (forall tr, cublasCreate tr <> 0) ->
  (cublasHandle_ (self (state_of (invoke c w))) =? 0)
  = (cublasHandle_ (self w) =? 0)
    && negb (requests_cublas c && negb (aborted (invoke c w))).
Proof.
  intros Hnn.
  destruct c as [ | | | | | | | | | | | | | | | | | | | | |[|]| | | ];
    try (step_call; cbv [set_cublasHandle set_cusparseHandle]; simpl;
         split_ifs; simpl in *; rewrite ?andb_true_r; congruence).
  step_call. simpl.
  destruct (cublasHandle_ (self w) =? 0) eqn:E0; simpl.
  - destruct (cudaError (trace w ++ [EvSetDevice (to_int (deviceId_ (self w)))]));
      simpl; [exact E0|].
    apply Z.eqb_neq. apply Hnn.
  - exact E0.
Qed.

Lemma invoke_cusparse_null (c : call) (w : World) :
  (forall tr, cusparseCreate tr <> 0) ->
  (cusparseHandle_ (self (state_of (invoke c w))) =? 0)
  = (cusparseHandle_ (self w) =? 0)
    && negb (requests_cusparse c && negb (aborted (invoke c w))).
Proof.
  intros Hnn.
  destruct c as [ | | | | | | | | | | | | | | | | | | | | |[|]| | | ];
    try (step_call; cbv [set_cublasHandle set_cusparseHandle]; simpl;
         split_ifs; simpl in *; rewrite ?andb_true_r; congruence).
  step_call. simpl.
  destruct (cusparseHandle_ (self w) =? 0) eqn:E0; simpl.
  - destruct (cudaError (trace w ++ [EvSetDevice (to_int (deviceId_ (self w)))]));
      simpl; [exact E0|].
    apply Z.eqb_neq. apply Hnn.
  - exact E0.
Qed.

Lemma run_cublas_null (cs : list call) : forall w,
  (forall tr, cublasCreate tr <> 0) ->
  aborted (run cs w) = false ->
  (cublasHandle_ (self (state_of (run cs w))) =? 0)
  = (cublasHandle_ (self w) =? 0) && negb (existsb requests_cublas cs).
Proof.
  induction cs as [|c cs IH]; intros w Hnn Hok.
  - simpl. rewrite andb_true_r. reflexivity.
  - rewrite run_aborted_cons in Hok. apply orb_false_iff in Hok.
    destruct Hok as [Hc Hcs].
    rewrite run_state_cons, Hc, (IH _ Hnn Hcs), (invoke_cublas_null c w Hnn), Hc.
    simpl existsb.
    destruct (cublasHandle_ (self w) =? 0), (requests_cublas c),
      (existsb requests_cublas cs); reflexivity.
Qed.

Lemma run_cusparse_null (cs : list call) : forall w,
  (forall tr, cusparseCreate tr <> 0) ->
  aborted (run cs w) = false ->
  (cusparseHandle_ (self (state_of (run cs w))) =? 0)
  = (cusparseHandle_ (self w) =? 0) && negb (existsb requests_cusparse cs).
Proof.
  induction cs as [|c cs IH]; intros w Hnn Hok.
  - simpl. rewrite andb_true_r. reflexivity.
  - rewrite run_aborted_cons in Hok. apply orb_false_iff in Hok.
    destruct Hok as [Hc Hcs].
    rewrite run_state_cons, Hc, (IH _ Hnn Hcs), (invoke_cusparse_null c w Hnn), Hc.
    simpl existsb.
    destruct (cusparseHandle_ (self w) =? 0), (requests_cusparse c),
      (existsb requests_cusparse cs); reflexivity.
Qed.

Lemma run_cublas_creations (cs : list call) (b : Backend) :
  cublasHandle_ b = 0 ->
  exists k,
    ((forall tr, cublasCreate tr <> 0) -> k = 0%nat) /\
    filter is_cublas_create (trace (state_of (run cs (fresh b))))
    = repeat (EvCublasCreate 0) k
      ++ (if cublasHandle_ (self (state_of (run cs (fresh b)))) =? 0 then []
          else [EvCublasCreate (cublasHandle_ (self (state_of (run cs (fresh b)))))]).
Proof.
  intros Hb.
  apply (BackendFacts.run_preserves cublasCreate cusparseCreate cudaError
           (fun w' => exists k,
              ((forall tr, cublasCreate tr <> 0) -> k = 0%nat) /\
              filter is_cublas_create (trace w')
              = repeat (EvCublasCreate 0) k
                ++ (if cublasHandle_ (self w') =? 0 then []
                    else [EvCublasCreate (cublasHandle_ (self w'))]))).
  - intros c w' (k & Hk & Hf).
    destruct (invoke_cublas_creations c w' k Hf) as (k' & Hk' & Hf').
    exists k'. split; [|exact Hf'].
    intros Hnn. rewrite (Hk' Hnn). apply Hk, Hnn.
  - exists 0%nat. split; [reflexivity|]. simpl. rewrite Hb. reflexivity.
Qed.

Lemma run_cusparse_creations (cs : list call) (b : Backend) :
  cusparseHandle_ b = 0 ->
  exists k,
    ((forall tr, cusparseCreate tr <> 0) -> k = 0%nat) /\
    filter is_cusparse_create (trace (state_of (run cs (fresh b))))
    = repeat (EvCusparseCreate 0) k
      ++ (if cusparseHandle_ (self (state_of (run cs (fresh b)))) =? 0 then []
          else [EvCusparseCreate (cusparseHandle_ (self (state_of (run cs (fresh b)))))]).
Proof.
  intros Hb.
  apply (BackendFacts.run_preserves cublasCreate cusparseCreate cudaError
           (fun w' => exists k,
              ((forall tr, cusparseCreate tr <> 0) -> k = 0%nat) /\
              filter is_cusparse_create (trace w')
              = repeat (EvCusparseCreate 0) k
                ++ (if cusparseHandle_ (self w') =? 0 then []
                    else [EvCusparseCreate (cusparseHandle_ (self w'))]))).
  - intros c w' (k & Hk & Hf).
    destruct (invoke_cusparse_creations c w' k Hf) as (k' & Hk' & Hf').
    exists k'. split; [|exact Hf'].
    intros Hnn. rewrite (Hk' Hnn). apply Hk, Hnn.
  - exists 0%nat. split; [reflexivity|]. simpl. rewrite Hb. reflexivity.
Qed.

Lemma run_releases_nothing (cs : list call) (b : Backend) :
  filter is_cublas_destroy (trace (state_of (run cs (fresh b)))) = [] /\
  filter is_cusparse_destroy (trace (state_of (run cs (fresh b)))) = [] /\
  filter is_free (trace (state_of (run cs (fresh b)))) = [].
Proof.
  apply (BackendFacts.run_preserves cublasCreate cusparseCreate cudaError
           (fun w' => filter is_cublas_destroy (trace w') = [] /\
                      filter is_cusparse_destroy (trace w') = [] /\
                      filter is_free (trace w') = [])).
  - intros c w' (H1 & H2 & H3).
    destruct (invoke_releases_nothing c w') as (G1 & G2 & G3).
    rewrite G1, G2, G3. auto.
  - repeat split.
Qed.

(** X6: over the life of an object, whatever is called on it and whatever the
    vendor library answers: each creation of a handle but the last one has
    failed and left the null handle, a creation that succeeded is the last
    one and its handle is the one the object holds, and no member function
    destroys a handle or frees device memory. *)
Theorem handle_creations_are_failed_or_current
    (deviceId : Z) (reported : CudaCompute) (one zero : Z) (cs : list call) :
  let w' := state_of (run cs (fresh (construct deviceId reported one zero))) in
  (exists k,
     filter is_cublas_create (trace w')
     = repeat (EvCublasCreate 0) k
       ++ (if cublasHandle_ (self w') =? 0 then []
           else [EvCublasCreate (cublasHandle_ (self w'))])) /\
  (exists k,
     filter is_cusparse_create (trace w')
     = repeat (EvCusparseCreate 0) k
       ++ (if cusparseHandle_ (self w') =? 0 then []
           else [EvCusparseCreate (cusparseHandle_ (self w'))])) /\
  count is_cublas_destroy (trace w') = 0%nat /\
  count is_cusparse_destroy (trace w') = 0%nat /\
  count is_free (trace w') = 0%nat.
Proof.
  cbv zeta.
  destruct (run_cublas_creations cs (construct deviceId reported one zero)
              eq_refl) as (kb & _ & Hb).
  destruct (run_cusparse_creations cs (construct deviceId reported one zero)
              eq_refl) as (ks & _ & Hs).
  destruct (run_releases_nothing cs (construct deviceId reported one zero))
    as (H1 & H2 & H3).
  unfold count. rewrite H1, H2, H3.
  split; [exists kb; exact Hb|]. split; [exists ks; exact Hs|]. repeat split.
Qed.

(** X7: the handles are created lazily and once: with a vendor library whose
    creations succeed, a sequence of calls on a new object that has not
    aborted has created the dense handle exactly once if it holds a
    [getCublasHandle] and never otherwise, and likewise the sparse handle
    for [getCusparseHandle]. *)
Theorem handles_are_created_once_on_demand
    (deviceId : Z) (reported : CudaCompute) (one zero : Z) (cs : list call) :
  (forall tr, cublasCreate tr <> 0) ->
  (forall tr, cusparseCreate tr <> 0) ->
  let w' := state_of (run cs (fresh (construct deviceId reported one zero))) in
  aborted (run cs (fresh (construct deviceId reported one zero))) = false ->
  count is_cublas_create (trace w')
  = (if existsb requests_cublas cs then 1%nat else 0%nat) /\
  (cublasHandle_ (self w') =? 0) = negb (existsb requests_cublas cs) /\
  count is_cusparse_create (trace w')
  = (if existsb requests_cusparse cs then 1%nat else 0%nat) /\
  (cusparseHandle_ (self w') =? 0) = negb (existsb requests_cusparse cs).
Proof.
  intros Hb Hs w' Hok. subst w'.
  destruct (run_cublas_creations cs (construct deviceId reported one zero)
              eq_refl) as (kb & Hkb & Hfb).
  destruct (run_cusparse_creations cs (construct deviceId reported one zero)
              eq_refl) as (ks & Hks & Hfs).
  pose proof (run_cublas_null cs _ Hb Hok) as Nb.
  pose proof (run_cusparse_null cs _ Hs Hok) as Ns.
  simpl in Nb, Ns.
  unfold count. rewrite Hfb, Hfs, (Hkb Hb), (Hks Hs), Nb, Ns. simpl.
  destruct (existsb requests_cublas cs), (existsb requests_cusparse cs);
    repeat split.
Qed.

(** What the destructor does to the handles and the constants, for any
    state [w] the object can be in, when the runtime reports no error for
    its binding of the device. *)
Lemma destroy_effect (w : World) :
  cudaError (trace w ++ [EvSetDevice (to_int (deviceId_ (self w)))]) = false ->
  aborted (destroy w) = false /\
  cublasHandle_ (self (state_of (destroy w))) = 0 /\
  cusparseHandle_ (self (state_of (destroy w))) = 0 /\
  (forall kind,
     kind (EvSetDevice (to_int (deviceId_ (self w)))) = false ->
     filter kind (trace (state_of (destroy w)))
     = filter kind (trace w)
       ++ filter kind
            ((if cusparseHandle_ (self w) =? 0 then []
              else [EvCusparseDestroy (cusparseHandle_ (self w))])
             ++ (if cublasHandle_ (self w) =? 0 then []
                 else [EvCublasDestroy (cublasHandle_ (self w))])
             ++ [EvCudaFree (oneGPU (self w)); EvCudaFree (zeroGPU (self w))])).
Proof.
  intros Hrt.
  cbv [Backend.destroy bind ret get put modify field emit on_self
       Backend.setDevice CUDA_CHECK ABORT_IF
       state_of aborted set_cublasHandle set_cusparseHandle].
  simpl. rewrite Hrt. simpl.
  destruct (cusparseHandle_ (self w) =? 0) eqn:Es; simpl;
    destruct (cublasHandle_ (self w) =? 0) eqn:Eb; simpl;
    apply Z.eqb_eq in Es || clear Es; apply Z.eqb_eq in Eb || clear Eb;
    (repeat split; try assumption;
     intros kind Hk; rewrite ?filter_app; simpl; rewrite Hk; simpl;
     repeat match goal with
            | |- context [kind ?e] => destruct (kind e)
            end;
     simpl; rewrite <- ?app_assoc; simpl; reflexivity).
Qed.

(** X8: the destructor balances what the object acquired: run on a new object
    after any calls, and when the runtime reports no error for its binding
    of the device, it returns, destroys exactly the handles that a creation
    produced non-null, each once, frees the two device constants once each
    in the order one, zero, and leaves both handle fields null. *)
Theorem destructor_releases_what_was_acquired
    (deviceId : Z) (reported : CudaCompute) (one zero : Z) (cs : list call) :
  let w' := state_of (run cs (fresh (construct deviceId reported one zero))) in
  let wd := state_of (destroy w') in
  cudaError (trace w' ++ [EvSetDevice (to_int deviceId)]) = false ->
  aborted (destroy w') = false /\
  (forall h, In (EvCublasDestroy h) (trace wd)
             <-> h <> 0 /\ In (EvCublasCreate h) (trace wd)) /\
  (count is_cublas_destroy (trace wd) <= 1)%nat /\
  (forall h, In (EvCusparseDestroy h) (trace wd)
             <-> h <> 0 /\ In (EvCusparseCreate h) (trace wd)) /\
  (count is_cusparse_destroy (trace wd) <= 1)%nat /\
  filter is_free (trace wd) = [EvCudaFree one; EvCudaFree zero] /\
  cublasHandle_ (self wd) = 0 /\ cusparseHandle_ (self wd) = 0.
Proof.
  cbv zeta.
  set (b := construct deviceId reported one zero).
  set (w' := state_of (run cs (fresh b))).
  intros Hrt.
  assert (Edev : deviceId_ (self w') = deviceId)
    by (apply (run_constants cs (fresh b))).
  rewrite <- Edev in Hrt.
  destruct (destroy_effect w' Hrt) as (Hab & Hhb & Hhs & Hfil).
  destruct (run_cublas_creations cs b eq_refl) as (kb & _ & Hcb).
  destruct (run_cusparse_creations cs b eq_refl) as (ks & _ & Hcs).
  destruct (run_releases_nothing cs b) as (Hdb & Hds & Hfr).
  fold w' in Hcb, Hcs, Hdb, Hds, Hfr.
  destruct (run_constants cs (fresh b)) as (_ & _ & Eone & Ezero).
  fold w' in Eone, Ezero. simpl in Eone, Ezero.
  assert (Fdb : filter is_cublas_destroy (trace (state_of (destroy w')))
                = if cublasHandle_ (self w') =? 0 then []
                  else [EvCublasDestroy (cublasHandle_ (self w'))]).
  { rewrite (Hfil is_cublas_destroy eq_refl), Hdb.
    destruct (cusparseHandle_ (self w') =? 0);
      destruct (cublasHandle_ (self w') =? 0); reflexivity. }
  assert (Fds : filter is_cusparse_destroy (trace (state_of (destroy w')))
                = if cusparseHandle_ (self w') =? 0 then []
                  else [EvCusparseDestroy (cusparseHandle_ (self w'))]).
  { rewrite (Hfil is_cusparse_destroy eq_refl), Hds.
    destruct (cusparseHandle_ (self w') =? 0);
      destruct (cublasHandle_ (self w') =? 0); reflexivity. }
  assert (Fcb : filter is_cublas_create (trace (state_of (destroy w')))
                = filter is_cublas_create (trace w')).
  { rewrite (Hfil is_cublas_create eq_refl).
    destruct (cusparseHandle_ (self w') =? 0);
      destruct (cublasHandle_ (self w') =? 0); simpl; apply app_nil_r. }
  assert (Fcs : filter is_cusparse_create (trace (state_of (destroy w')))
                = filter is_cusparse_create (trace w')).
  { rewrite (Hfil is_cusparse_create eq_refl).
    destruct (cusparseHandle_ (self w') =? 0);
      destruct (cublasHandle_ (self w') =? 0); simpl; apply app_nil_r. }
  assert (Ffr : filter is_free (trace (state_of (destroy w')))
                = [EvCudaFree one; EvCudaFree zero]).
  { rewrite (Hfil is_free eq_refl), Hfr, Eone, Ezero.
    destruct (cusparseHandle_ (self w') =? 0);
      destruct (cublasHandle_ (self w') =? 0); reflexivity. }
  assert (InF : forall (kind : event -> bool) e tr, kind e = true ->
                  (In e tr <-> In e (filter kind tr))).
  { intros kind e tr Hk. rewrite filter_In. tauto. }
  split; [exact Hab|].
  split.
  { intros h.
    rewrite (InF is_cublas_destroy (EvCublasDestroy h) _ eq_refl), Fdb.
    rewrite (InF is_cublas_create (EvCublasCreate h) _ eq_refl), Fcb, Hcb.
    rewrite in_app_iff.
    destruct (cublasHandle_ (self w') =? 0) eqn:Eb; simpl.
    - split; [intros []|].
      intros (Hn & [Hin|[]]). apply repeat_spec in Hin. congruence.
    - apply Z.eqb_neq in Eb. split.
      + intros [E|[]]. injection E as <-. split; [exact Eb|].
        right. left. reflexivity.
      + intros (Hn & [Hin|[E|[]]]).
        * apply repeat_spec in Hin. congruence.
        * left. congruence. }
  split.
  { unfold count. rewrite Fdb.
    destruct (cublasHandle_ (self w') =? 0); simpl; lia. }
  split.
  { intros h.
    rewrite (InF is_cusparse_destroy (EvCusparseDestroy h) _ eq_refl), Fds.
    rewrite (InF is_cusparse_create (EvCusparseCreate h) _ eq_refl), Fcs, Hcs.
    rewrite in_app_iff.
    destruct (cusparseHandle_ (self w') =? 0) eqn:Es; simpl.
    - split; [intros []|].
      intros (Hn & [Hin|[]]). apply repeat_spec in Hin. congruence.
    - apply Z.eqb_neq in Es. split.
      + intros [E|[]]. injection E as <-. split; [exact Es|].
        right. left. reflexivity.
      + intros (Hn & [Hin|[E|[]]]).
        * apply repeat_spec in Hin. congruence.
        * left. congruence. }
  split.
  { unfold count. rewrite Fds.
    destruct (cusparseHandle_ (self w') =? 0); simpl; lia. }
  split; [exact Ffr|].
  split; assumption.
Qed.

End WithVendor.

Lemma flags_are_independent_registers_witness :
  let cs := [CsetInt8 true; CsetFused true; CgetCublasHandle; CsetInt8 false;
             CsetShifted true; CsetTensorCoreGemm true] in
  let w' := state_of (Backend.run example_create example_create never_fails
                        cs (fresh (example_backend 7))) in
  isInt8 w' = Done false w' /\ isFused w' = Done true w'.
Proof.
  intros cs w'. split.
  - apply (flags_are_independent_registers example_create example_create
             never_fails FlagInt8 cs (fresh (example_backend 7))).
    reflexivity.
  - apply (flags_are_independent_registers example_create example_create
             never_fails FlagFused cs (fresh (example_backend 7))).
    reflexivity.
Defined.

Lemma tensorCore_is_set_by_enabling_only_witness :
  let w := fresh (example_backend 7) in
  let on := state_of (Backend.run example_create example_create never_fails
                        [CsetTensorCoreGemm true; CsetTensorCoreGemm false] w) in
  let off := state_of (Backend.run example_create example_create never_fails
                         [CsetTensorCoreGemm false; CsetInt8 true] w) in
  useTensorCoreGemm on = Done true on /\
  useTensorCoreGemm off = Done false off.
Proof.
  intros w on off. split.
  - apply (tensorCore_is_set_by_enabling_only example_create example_create
             never_fails [CsetTensorCoreGemm true; CsetTensorCoreGemm false] w).
    reflexivity.
  - apply (tensorCore_is_set_by_enabling_only example_create example_create
             never_fails [CsetTensorCoreGemm false; CsetInt8 true] w).
    reflexivity.
Defined.

Lemma run_aborts_iff_tensorCore_requested_below_7_witness :
  aborted (Backend.run example_create example_create never_fails
             [CsetDevice; CgetCublasHandle; Csynchronize;
              CsetTensorCoreGemm true]
             (fresh (example_backend 6)))
  = true /\
  aborted (Backend.run example_create example_create never_fails
             [CsetDevice; CgetCublasHandle; Csynchronize;
              CsetTensorCoreGemm true]
             (fresh (example_backend 7)))
  = false.
Proof.
  split.
  - apply (run_aborts_iff_tensorCore_requested_below_7 example_create
             example_create never_fails
             [CsetDevice; CgetCublasHandle; Csynchronize;
              CsetTensorCoreGemm true]
             (fresh (example_backend 6))).
    reflexivity.
  - apply (run_aborts_iff_tensorCore_requested_below_7 example_create
             example_create never_fails
             [CsetDevice; CgetCublasHandle; Csynchronize;
              CsetTensorCoreGemm true]
             (fresh (example_backend 7))).
    reflexivity.
Defined.

Lemma run_abort_keeps_the_state_before_it_witness :
  let w := fresh (example_backend 6) in
  aborted (Backend.run example_create example_create never_fails
             ([CsetInt8 true; CgetCublasHandle]
              ++ CsetTensorCoreGemm true :: [CsetInt8 false; CsetFused true]) w)
  = true /\
  state_of (Backend.run example_create example_create never_fails
              ([CsetInt8 true; CgetCublasHandle]
               ++ CsetTensorCoreGemm true :: [CsetInt8 false; CsetFused true]) w)
  = state_of (Backend.run example_create example_create never_fails
                [CsetInt8 true; CgetCublasHandle] w).
Proof.
  intros w.
  apply (run_abort_keeps_the_state_before_it example_create example_create
           never_fails
           [CsetInt8 true; CgetCublasHandle] (CsetTensorCoreGemm true)
           [CsetInt8 false; CsetFused true] w).
  - reflexivity.
  - reflexivity.
  - simpl. lia.
Defined.

Lemma example_create_succeeds (tr : list event) : example_create tr <> 0.
Proof. unfold example_create. lia. Qed.

Lemma handles_are_created_once_on_demand_witness :
  let cs := [CgetCublasHandle; CsetInt8 true; CgetCublasHandle; Csynchronize] in
  let w' := state_of (Backend.run example_create example_create never_fails cs
                        (fresh (example_backend 7))) in
  count is_cublas_create (trace w') = 1%nat /\
  (cublasHandle_ (self w') =? 0) = false /\
  count is_cusparse_create (trace w') = 0%nat /\
  (cusparseHandle_ (self w') =? 0) = true.
Proof.
  intros cs w'.
  apply (handles_are_created_once_on_demand example_create example_create
           never_fails 0 {| major := 7; minor := 0 |} 4096 4100 cs).
  - exact example_create_succeeds.
  - exact example_create_succeeds.
  - reflexivity.
Defined.

Lemma destructor_releases_what_was_acquired_witness :
  let w' := state_of (Backend.run example_create example_create never_fails
                        [CgetCublasHandle; CsetInt8 true]
                        (fresh (example_backend 7))) in
  let wd := state_of (Backend.destroy never_fails w') in
  aborted (Backend.destroy never_fails w') = false /\
  (forall h, In (EvCublasDestroy h) (trace wd)
             <-> h <> 0 /\ In (EvCublasCreate h) (trace wd)) /\
  (count is_cublas_destroy (trace wd) <= 1)%nat /\
  (forall h, In (EvCusparseDestroy h) (trace wd)
             <-> h <> 0 /\ In (EvCusparseCreate h) (trace wd)) /\
  (count is_cusparse_destroy (trace wd) <= 1)%nat /\
  filter is_free (trace wd) = [EvCudaFree 4096; EvCudaFree 4100] /\
  cublasHandle_ (self wd) = 0 /\ cusparseHandle_ (self wd) = 0.
Proof.
  intros w' wd.
  apply (destructor_releases_what_was_acquired example_create example_create
           never_fails 0 {| major := 7; minor := 0 |} 4096 4100
           [CgetCublasHandle; CsetInt8 true]).
  reflexivity.
Defined.

End BackendExtras.

(** * Further properties of the N-best selection *)

Module NthElementExtras.

Import NthElement.

Section Calls.

Variable score : Type.
Variable COMPILE_FP16 : bool.
Variable cudaError : list event -> bool.

Local Abbreviation World := (@NthElement.World score).
Local Abbreviation NthElementGPU := (@NthElement.NthElementGPU score).
Local Abbreviation Tensor := (@NthElement.Tensor score).
Local Abbreviation TopK := (@NthElement.TopK score).
Local Abbreviation Launcher := (@NthElement.Launcher score).
Local Abbreviation getNBestList :=
  (@NthElement.getNBestList score COMPILE_FP16 cudaError).
Local Abbreviation runtime_fails := (@NthElement.runtime_fails score cudaError).

(** The ways a call can go: it aborts with only the device bound; or it
    launches the kernel and aborts on a runtime error of the extraction,
    with nothing pushed; or it does all its work and then passes or fails
    the final size check. *)
Lemma getNBestList_cases (launch : Launcher) (scores : Tensor) (N : Z)
    (isFirst : bool) (w : World) :
  (exists msg, getNBestList launch scores N isFirst w = Aborted msg (bound w)) \/
  (exists msg w',
     getNBestList launch scores N isFirst w = Aborted msg w' /\
     self w' = self (launched launch scores N w) /\
     outCosts w' = outCosts w /\ outKeys w' = outKeys w /\
     (w' = copy_issued (numElts_of scores N) (launched launch scores N w) \/
      w' = sync_issued (numElts_of scores N) (launched launch scores N w))) \/
  (checks_ok (self w) scores N isFirst = true /\
   type_supported COMPILE_FP16 (type scores) = true /\
   runtime_fails launch scores N w = false /\
   let w' := extracted (numElts_of scores N) (launched launch scores N w) in
   getNBestList launch scores N isFirst w
   = if Z.of_nat (List.length (outKeys w')) =? numElts_of scores N
     then Done tt w'
     else Aborted "Expected {} but got {} values during topk" w').
Proof.
  destruct (checks_ok (self w) scores N isFirst) eqn:Ec.
  - destruct (type_supported COMPILE_FP16 (type scores)) eqn:Et.
    + destruct (runtime_fails launch scores N w) eqn:Er.
      * right. left.
        destruct (NthElementFacts.getNBestList_runtime_error score COMPILE_FP16
                    cudaError launch scores N isFirst w Ec Et Er)
          as (w' & Hrun & Hrest).
        eexists. exists w'. split; [exact Hrun|exact Hrest].
      * right. right.
        pose proof (NthElementFacts.getNBestList_checks_pass score COMPILE_FP16
                      cudaError launch scores N isFirst w Ec Er) as Hrun.
        rewrite Et in Hrun. repeat split. exact Hrun.
    + left.
      rewrite (NthElementFacts.getNBestList_after_checks score COMPILE_FP16
                 cudaError launch scores N isFirst w Ec), Et.
      eexists. reflexivity.
  - left. apply NthElementFacts.getNBestList_check_fails. exact Ec.
Qed.

Lemma numElts_of_nonneg (scores : Tensor) (N : Z) : 0 <= numElts_of scores N.
Proof. unfold numElts_of, to_size_t. apply Z.mod_pos_bound. lia. Qed.

Lemma to_unsigned_range (x : Z) : 0 <= to_unsigned x < 2 ^ 32.
Proof. unfold to_unsigned. apply Z.mod_pos_bound. lia. Qed.

(** X9: whatever its arguments and however it ends, a call only appends.
    What the two vectors held on entry is still their prefix, the same
    number of entries has been appended to both, that number is zero or the
    [dimBatch * N] the code computes in [size_t], every appended key is a
    32-bit unsigned number, the engine keeps its device and its two limits,
    and the trace has only grown. *)
Theorem getNBestList_only_appends (launch : Launcher) (scores : Tensor)
    (N : Z) (isFirst : bool) (w : World) :
  let w' := state_of (getNBestList launch scores N isFirst w) in
  (exists ks cs,
     outKeys w' = outKeys w ++ ks /\
     outCosts w' = outCosts w ++ cs /\
     List.length ks = List.length cs /\
     Forall (fun k => 0 <= k < 2 ^ 32) ks /\
     (ks = [] \/ Z.of_nat (List.length ks) = numElts_of scores N)) /\
  deviceId_ (self w') = deviceId_ (self w) /\
  maxBeamSize_ (self w') = maxBeamSize_ (self w) /\
  maxBatchSize_ (self w') = maxBatchSize_ (self w) /\
  (exists evs, trace w' = trace w ++ evs).
Proof.
  cbv zeta.
  destruct (getNBestList_cases launch scores N isFirst w)
    as [[msg Hrun]|[(msg & w' & Hrun & Hs & Hc & Hk & Hw)|(_ & _ & _ & Hrun)]].
  - rewrite Hrun. simpl. split.
    + exists [], []. rewrite !app_nil_r. repeat split; auto.
    + repeat split. eexists. reflexivity.
  - rewrite Hrun. cbn [state_of]. split.
    + exists [], []. rewrite !app_nil_r, Hc, Hk. repeat split; auto.
    + rewrite Hs. repeat split.
      destruct Hw as [-> | ->]; unfold copy_issued, sync_issued, launched;
        cbn [trace self deviceId_ set_device_buffers];
        rewrite <- !app_assoc; eexists; reflexivity.
  - cbv zeta in Hrun.
    assert (Hst : state_of (getNBestList launch scores N isFirst w)
                  = extracted (numElts_of scores N) (launched launch scores N w)).
    { rewrite Hrun. destruct (_ =? _); reflexivity. }
    rewrite Hst. clear Hrun Hst. split.
    + eexists. eexists. split; [reflexivity|]. split; [reflexivity|].
      rewrite !length_map. split; [reflexivity|]. split.
      * apply Forall_forall. intros k Hk. apply in_map_iff in Hk.
        destruct Hk as (t & <- & _). apply to_unsigned_range.
      * right. rewrite NthElementFacts.length_records.
        apply Z2Nat.id. apply numElts_of_nonneg.
    + repeat split. simpl. rewrite <- app_assoc. eexists. reflexivity.
Qed.

Lemma final_check_fails (launch : Launcher) (scores : Tensor) (N : Z)
    (w : World) :
  outKeys w <> [] ->
  (Z.of_nat (List.length
     (outKeys (extracted (numElts_of scores N) (launched launch scores N w))))
   =? numElts_of scores N) = false.
Proof.
  intros Hk.
  pose proof (NthElementFacts.final_check_iff score launch scores N w) as H.
  cbv zeta in H. destruct (_ =? _); [|reflexivity].
  exfalso. apply Hk. apply H. reflexivity.
Qed.

Lemma keys_left_over_abort (launch : Launcher)
    (scores : Tensor) (N : Z) (isFirst : bool) (w : World) :
  outKeys w <> [] ->
  aborted (getNBestList launch scores N isFirst w) = true.
Proof.
  intros Hk.
  destruct (getNBestList_cases launch scores N isFirst w)
    as [[msg Hrun]|[(msg & w' & Hrun & _)|(_ & _ & _ & Hrun)]].
  - rewrite Hrun. reflexivity.
  - rewrite Hrun. reflexivity.
  - cbv zeta in Hrun.
    rewrite Hrun, (final_check_fails launch scores N w Hk). reflexivity.
Qed.

(** X10: keys left in the vector make the call abort, but only at the very
    end. When the shape preconditions hold, the element type is supported
    and the runtime reports no error for the extraction, a call that finds
    the keys vector not empty launches the kernel, copies the result and
    appends [dimBatch * N] entries to the keys and to the costs, and only
    then aborts with the message of the final size check. *)
Theorem getNBestList_size_check_fires_after_the_work (launch : Launcher)
    (scores : Tensor) (N : Z) (isFirst : bool) (w : World) :
  capacity_ok (self w) -> shape_ok scores -> 0 <= N ->
  preconditions (self w) scores N isFirst ->
  type_supported COMPILE_FP16 (type scores) = true ->
  runtime_fails launch scores N w = false ->
  outKeys w <> [] ->
  exists w',
    getNBestList launch scores N isFirst w
    = Aborted "Expected {} but got {} values during topk" w' /\
    existsb is_launch (appended (trace w) (trace w')) = true /\
    existsb is_copy (appended (trace w) (trace w')) = true /\
    firstn (List.length (outKeys w)) (outKeys w') = outKeys w /\
    Z.of_nat (List.length (appended (outKeys w) (outKeys w')))
    = dim_4 (shape scores) * N /\
    firstn (List.length (outCosts w)) (outCosts w') = outCosts w /\
    Z.of_nat (List.length (appended (outCosts w) (outCosts w')))
    = dim_4 (shape scores) * N.
Proof.
  intros Hcap Hts HN Hpre Hty Hrt Hk.
  assert (Ec : checks_ok (self w) scores N isFirst = true)
    by (apply NthElementFacts.checks_ok_iff; assumption).
  destruct (NthElementFacts.numElts_of_exact score (self w) scores N isFirst
              Hcap Hts HN Hpre) as (Hnum & Hpos & _).
  exists (extracted (numElts_of scores N) (launched launch scores N w)).
  rewrite (NthElementFacts.getNBestList_checks_pass score COMPILE_FP16
             cudaError launch scores N isFirst w Ec Hrt), Hty.
  cbv zeta. rewrite (final_check_fails launch scores N w Hk).
  split; [reflexivity|].
  unfold extracted, launched. cbn [trace outKeys outCosts self].
  rewrite <- !app_assoc, !NthElementFacts.appended_app.
  rewrite !length_map, !NthElementFacts.length_records.
  rewrite !firstn_app, !Nat.sub_diag, !firstn_all. simpl firstn.
  rewrite !app_nil_r, Hnum, Z2Nat.id by exact Hpos.
  repeat split.
Qed.

Lemma state_after_work (launch : Launcher) (scores : Tensor) (N : Z)
    (isFirst : bool) (w : World) :
  checks_ok (self w) scores N isFirst = true ->
  type_supported COMPILE_FP16 (type scores) = true ->
  runtime_fails launch scores N w = false ->
  state_of (getNBestList launch scores N isFirst w)
  = extracted (numElts_of scores N) (launched launch scores N w).
Proof.
  intros Ec Et Er.
  rewrite (NthElementFacts.getNBestList_checks_pass score COMPILE_FP16
             cudaError launch scores N isFirst w Ec Er), Et.
  cbv zeta. destruct (_ =? _); reflexivity.
Qed.

Lemma returns_on_empty_keys (launch : Launcher) (scores : Tensor) (N : Z)
    (isFirst : bool) (w : World) :
  checks_ok (self w) scores N isFirst = true ->
  type_supported COMPILE_FP16 (type scores) = true ->
  runtime_fails launch scores N w = false ->
  outKeys w = [] ->
  getNBestList launch scores N isFirst w
  = Done tt (extracted (numElts_of scores N) (launched launch scores N w)).
Proof.
  intros Ec Et Er Hk.
  rewrite (NthElementFacts.getNBestList_checks_pass score COMPILE_FP16
             cudaError launch scores N isFirst w Ec Er), Et.
  cbv zeta.
  pose proof (NthElementFacts.final_check_iff score launch scores N w) as H.
  cbv zeta in H. apply H in Hk. rewrite Hk. reflexivity.
Qed.

(** X11: what one call asks of the runtime. When the shape preconditions
    hold, the element type is supported and the runtime reports no error
    for the extraction, the call binds the device,
    launches the kernel once with batch size [dimBatch], [1] beam per batch
    entry at the first step and [N] afterwards, beam width [N] (the
    narrowing of [N] to [int] loses nothing below [2^31]) and the
    vocabulary size, then copies [dimBatch * N * sizeof(TopK)] bytes from
    the device and waits for the stream, in this order, whether or not the
    final size check then passes. *)
Theorem getNBestList_runtime_calls (launch : Launcher) (scores : Tensor)
    (N : Z) (isFirst : bool) (w : World) :
  capacity_ok (self w) -> shape_ok scores -> 0 <= N < 2 ^ 31 ->
  preconditions (self w) scores N isFirst ->
  type_supported COMPILE_FP16 (type scores) = true ->
  runtime_fails launch scores N w = false ->
  appended (trace w) (trace (state_of (getNBestList launch scores N isFirst w)))
  = [EvSetDevice (deviceId_ (self w));
     EvSetDevice (deviceId_ (self w));
     EvKernelLaunch (dim_4 (shape scores)) (if isFirst then 1 else N) N
                    (dim_1 (shape scores));
     EvSetDevice (deviceId_ (self w));
     EvMemcpyDeviceToHost (dim_4 (shape scores) * N * sizeof_TopK);
     EvStreamSynchronize].
Proof.
  intros Hcap Hts HN Hpre Hty Hrt.
  assert (Ec : checks_ok (self w) scores N isFirst = true)
    by (apply NthElementFacts.checks_ok_iff; assumption).
  rewrite (state_after_work launch scores N isFirst w Ec Hty Hrt).
  destruct (NthElementFacts.numElts_of_exact score (self w) scores N isFirst
              Hcap Hts ltac:(lia) Hpre) as (Hnum & Hpos & Hfit).
  destruct Hpre as (H2 & _).
  unfold extracted, launched. cbn [trace self deviceId_ set_device_buffers].
  rewrite <- !app_assoc, NthElementFacts.appended_app.
  assert (Hint : to_int N = N).
  { unfold to_int. rewrite Z.mod_small by lia. lia. }
  rewrite Hnum, H2, Hint.
  unfold copy_bytes, to_size_t, sizeof_TopK in *. rewrite Z.mod_small by lia.
  reflexivity.
Qed.

(** X12: the copy stays inside the two allocations. When the constructor's
    byte count has not wrapped around and the shape preconditions hold, the
    bytes [getPairs] copies are at most the bytes the constructor allocated
    for [tops] and for [topsHost] (both [maxBatchSize * maxBeamSize *
    sizeof(TopK)]), and every record the loop reads lies inside the host
    allocation. *)
Theorem getPairs_copy_fits_the_buffers (e : NthElementGPU) (scores : Tensor)
    (N : Z) (isFirst : bool) :
  capacity_ok e -> shape_ok scores -> 0 <= N ->
  preconditions e scores N isFirst ->
  copy_bytes (numElts_of scores N) <= tops_bytes e /\
  copy_bytes (numElts_of scores N) <= topsHost_bytes e /\
  tops_bytes e = maxBatchSize_ e * maxBeamSize_ e * sizeof_TopK /\
  topsHost_bytes e = tops_bytes e /\
  (forall i, (i < Z.to_nat (numElts_of scores N))%nat ->
             (Z.of_nat i + 1) * sizeof_TopK <= topsHost_bytes e).
Proof.
  intros Hcap Hts HN Hpre.
  destruct (NthElementFacts.numElts_of_exact score e scores N isFirst
              Hcap Hts HN Hpre) as (Hnum & Hpos & Hfit).
  destruct Hcap as (Hbeam & Hbatch & Hcap).
  destruct Hts as (H4 & _).
  destruct Hpre as (_ & _ & Hb & Hm).
  assert (Hle : N <= maxBeamSize_ e) by lia.
  assert (Hprod : dim_4 (shape scores) * N <= maxBatchSize_ e * maxBeamSize_ e)
    by (apply Z.mul_le_mono_nonneg; lia).
  assert (Hnn : 0 <= maxBatchSize_ e * maxBeamSize_ e) by nia.
  unfold sizeof_TopK in *.
  assert (Htops : tops_bytes e = maxBatchSize_ e * maxBeamSize_ e * 8).
  { unfold tops_bytes, to_size_t, sizeof_TopK.
    rewrite (Z.mod_small (maxBatchSize_ e * maxBeamSize_ e)) by lia.
    apply Z.mod_small. lia. }
  assert (Hhost : topsHost_bytes e = tops_bytes e).
  { unfold topsHost_bytes, tops_bytes.
    rewrite (Z.mul_comm (maxBeamSize_ e)). reflexivity. }
  assert (Hcopy : copy_bytes (numElts_of scores N) = dim_4 (shape scores) * N * 8).
  { rewrite Hnum. unfold copy_bytes, to_size_t, sizeof_TopK.
    apply Z.mod_small. lia. }
  rewrite Hhost, Htops, Hcopy.
  split; [lia|]. split; [lia|]. split; [reflexivity|]. split; [reflexivity|].
  intros i Hi. rewrite Hnum in Hi. lia.
Qed.

(** X13: an empty batch or a beam of width zero. The call passes its
    checks; the kernel is launched and a copy of zero bytes issued all the
    same, and when the runtime reports no error for that copy and for the
    synchronisation, the call returns with nothing appended and the host
    mirror left as it was. *)
Theorem getNBestList_of_nothing (launch : Launcher) (scores : Tensor)
    (N : Z) (isFirst : bool) (w : World) :
  shape_ok scores -> 0 <= N ->
  preconditions (self w) scores N isFirst ->
  type_supported COMPILE_FP16 (type scores) = true ->
  runtime_fails launch scores N w = false ->
  outKeys w = [] ->
  dim_4 (shape scores) = 0 \/ N = 0 ->
  exists w',
    getNBestList launch scores N isFirst w = Done tt w' /\
    outKeys w' = [] /\
    outCosts w' = outCosts w /\
    (forall i, topsHost (self w') i = topsHost (self w) i) /\
    appended (trace w) (trace w')
    = [EvSetDevice (deviceId_ (self w));
       EvSetDevice (deviceId_ (self w));
       EvKernelLaunch (dim_4 (shape scores)) (dim_2 (shape scores)) (to_int N)
                      (dim_1 (shape scores));
       EvSetDevice (deviceId_ (self w));
       EvMemcpyDeviceToHost 0;
       EvStreamSynchronize].
Proof.
  intros Hts HN Hpre Hty Hrt Hk Hzero.
  assert (Ec : checks_ok (self w) scores N isFirst = true)
    by (apply NthElementFacts.checks_ok_iff; assumption).
  assert (Hnum : numElts_of scores N = 0).
  { unfold numElts_of.
    rewrite (NthElementFacts.to_size_t_small (dim_4 (shape scores)))
      by (destruct Hts as (H4 & _); exact H4).
    destruct Hzero as [-> | ->]; rewrite ?Z.mul_0_l, ?Z.mul_0_r; reflexivity. }
  eexists. split.
  { apply returns_on_empty_keys; assumption. }
  rewrite Hnum. unfold extracted, launched.
  cbn [outKeys outCosts trace self deviceId_ topsHost set_device_buffers
       memcpy_tops set_topsHost].
  rewrite Hk. simpl records. simpl map. rewrite !app_nil_r.
  split; [reflexivity|]. split; [reflexivity|]. split.
  - intros i.
    assert (Hgt : ((Z.of_nat i + 1) * sizeof_TopK <=? copy_bytes 0) = false).
    { apply Z.leb_gt. unfold copy_bytes, to_size_t, sizeof_TopK.
      rewrite Z.mul_0_l, Zmod_0_l. lia. }
    rewrite Hgt. reflexivity.
  - rewrite <- !app_assoc, NthElementFacts.appended_app. reflexivity.
Qed.

End Calls.

Section Reuse.

Variable score : Type.
Variable COMPILE_FP16 : bool.
Variable cudaError : list event -> bool.

Local Abbreviation World := (@NthElement.World score).
Local Abbreviation NthElementGPU := (@NthElement.NthElementGPU score).
Local Abbreviation Tensor := (@NthElement.Tensor score).
Local Abbreviation TopK := (@NthElement.TopK score).
Local Abbreviation Launcher := (@NthElement.Launcher score).
Local Abbreviation getNBestList :=
  (@NthElement.getNBestList score COMPILE_FP16 cudaError).
Local Abbreviation runtime_fails := (@NthElement.runtime_fails score cudaError).

(** X14: the vectors of one call cannot be handed to the next. After a call
    that returned with at least one result, any further call on the same
    two vectors aborts, whatever its arguments, its kernel and the answers
    of the runtime: the caller has to clear the keys between decoding
    steps. *)
Theorem getNBestList_needs_fresh_vectors (launch : Launcher) (scores : Tensor)
    (N : Z) (isFirst : bool) (w : World) :
  capacity_ok (self w) -> shape_ok scores ->
  preconditions (self w) scores N isFirst ->
  type_supported COMPILE_FP16 (type scores) = true ->
  runtime_fails launch scores N w = false ->
  outKeys w = [] ->
  1 <= dim_4 (shape scores) -> 1 <= N ->
  exists w',
    getNBestList launch scores N isFirst w = Done tt w' /\
    forall cudaError2 launch2 scores2 N2 isFirst2,
      aborted (NthElement.getNBestList COMPILE_FP16 cudaError2 launch2 scores2
                 N2 isFirst2 w') = true.
Proof.
  intros Hcap Hts Hpre Hty Hrt Hk H4 H1.
  assert (Ec : checks_ok (self w) scores N isFirst = true)
    by (apply NthElementFacts.checks_ok_iff; assumption).
  destruct (NthElementFacts.numElts_of_exact score (self w) scores N isFirst
              Hcap Hts ltac:(lia) Hpre) as (Hnum & Hpos & Hfit).
  eexists. split.
  { apply returns_on_empty_keys; assumption. }
  intros cudaError2 launch2 scores2 N2 isFirst2.
  apply keys_left_over_abort.
  unfold extracted, launched. cbn [outKeys self]. rewrite Hk, Hnum. simpl app.
  intros Heq. apply (f_equal (@List.length Z)) in Heq.
  rewrite length_map, NthElementFacts.length_records in Heq.
  simpl in Heq. nia.
Qed.

Lemma preconditions_limits (e e' : NthElementGPU) (scores : Tensor) (N : Z)
    (isFirst : bool) :
  maxBeamSize_ e' = maxBeamSize_ e -> maxBatchSize_ e' = maxBatchSize_ e ->
  preconditions e scores N isFirst -> preconditions e' scores N isFirst.
Proof. unfold preconditions. intros -> ->. auto. Qed.

Lemma capacity_limits (e e' : NthElementGPU) :
  maxBeamSize_ e' = maxBeamSize_ e -> maxBatchSize_ e' = maxBatchSize_ e ->
  capacity_ok e -> capacity_ok e'.
Proof. unfold capacity_ok. intros -> ->. auto. Qed.

Lemma no_error_no_failure (launch : Launcher) (scores : Tensor) (N : Z)
    (w : World) :
  (forall tr, cudaError tr = false) -> runtime_fails launch scores N w = false.
Proof.
  intros H. unfold NthElement.runtime_fails, extraction_fails.
  rewrite !H. reflexivity.
Qed.

Lemma steps_serve (launch : Launcher) (e : NthElementGPU)
    (rs : list request) : forall w : World,
  (forall tr, cudaError tr = false) ->
  maxBeamSize_ (self w) = maxBeamSize_ e ->
  maxBatchSize_ (self w) = maxBatchSize_ e ->
  deviceId_ (self w) = deviceId_ e ->
  capacity_ok e ->
  Forall (fun r => shape_ok (req_scores r) /\ 0 <= req_N r /\
                   preconditions e (req_scores r) (req_N r) (req_isFirst r) /\
                   type_supported COMPILE_FP16 (type (req_scores r)) = true) rs ->
  exists outs w',
    steps (getNBestList launch) rs w = Done outs w' /\
    Forall2 (fun r out =>
               Z.of_nat (List.length (fst out))
               = dim_4 (shape (req_scores r)) * req_N r /\
               List.length (snd out) = List.length (fst out)) rs outs /\
    maxBeamSize_ (self w') = maxBeamSize_ e /\
    maxBatchSize_ (self w') = maxBatchSize_ e /\
    deviceId_ (self w') = deviceId_ e.
Proof.
  induction rs as [|r rs IH]; intros w Hrt Hbeam Hbatch Hdev Hcap Hall.
  - exists [], w. simpl. unfold ret. repeat split; auto.
  - inversion Hall as [|r' rs' (Hts & HN & Hpre & Hty) Hrest]; subst.
    set (wc := {| self := self w; outCosts := []; outKeys := [];
                  trace := trace w |} : World).
    assert (Hpre' : preconditions (self wc) (req_scores r) (req_N r)
                      (req_isFirst r))
      by (apply (preconditions_limits e); assumption).
    assert (Hcap' : capacity_ok (self wc))
      by (apply (capacity_limits e); assumption).
    assert (Ec : checks_ok (self wc) (req_scores r) (req_N r) (req_isFirst r)
                 = true)
      by (apply NthElementFacts.checks_ok_iff; assumption).
    pose proof (returns_on_empty_keys score COMPILE_FP16 cudaError launch
                  (req_scores r) (req_N r) (req_isFirst r) wc Ec Hty
                  (no_error_no_failure launch _ _ wc Hrt) eq_refl) as Hrun.
    destruct (NthElementFacts.numElts_of_exact score (self wc) (req_scores r)
                (req_N r) (req_isFirst r) Hcap' Hts HN Hpre')
      as (Hnum & Hpos & _).
    set (w1 := extracted (numElts_of (req_scores r) (req_N r))
                 (launched launch (req_scores r) (req_N r) wc)) in *.
    destruct (IH w1) as (outs & w' & Hsteps & Hout & Hlim); try assumption.
    exists ((outKeys w1, outCosts w1) :: outs), w'.
    split.
    { cbn [steps]. unfold bind at 1. unfold step.
      unfold bind at 1. unfold modify at 1. fold wc.
      unfold bind at 1. rewrite Hrun.
      unfold bind at 1. unfold get, ret at 1.
      unfold bind at 1. rewrite Hsteps. reflexivity. }
    split; [|exact Hlim].
    constructor; [|exact Hout].
    subst w1. unfold extracted, launched. cbn [fst snd outKeys outCosts self].
    rewrite !length_app, !length_map, !NthElementFacts.length_records.
    simpl List.length. rewrite Hnum.
    split; [|reflexivity]. rewrite Nat.add_0_l. apply Z2Nat.id. exact Hpos.
Qed.

(** X15: the callable that [createGetNBestListGPUFn] returns serves request
    after request on the one engine it holds. If the byte size of the
    engine's result buffers is within [size_t], every request fits the
    [beamSize] and [dimBatch] the factory was given, and the runtime reports
    no error, then each use with cleared vectors returns, with
    [dimBatch * N] keys and as many costs of its own request, whatever the
    earlier requests left in the engine's buffers; the engine's limits and
    device stay what the factory was given. *)
Theorem factory_callable_serves_every_request (launch : Launcher)
    (beamSize dimBatch deviceId : Z)
    (id0 : nat -> Z) (val0 : nat -> score) (tops0 host0 : nat -> TopK)
    (rs : list request) (costs : list score) (keys : list Z)
    (tr : list event) :
  let made := createGetNBestListGPUFn COMPILE_FP16 cudaError launch beamSize
                dimBatch deviceId id0 val0 tops0 host0 in
  (forall tr', cudaError tr' = false) ->
  capacity_ok (fst made) ->
  Forall (fun r => shape_ok (req_scores r) /\ 0 <= req_N r /\
                   preconditions (fst made) (req_scores r) (req_N r)
                     (req_isFirst r) /\
                   type_supported COMPILE_FP16 (type (req_scores r)) = true) rs ->
  exists outs w',
    steps (snd made) rs
      {| self := fst made; outCosts := costs; outKeys := keys; trace := tr |}
    = Done outs w' /\
    Forall2 (fun r out =>
               Z.of_nat (List.length (fst out))
               = dim_4 (shape (req_scores r)) * req_N r /\
               List.length (snd out) = List.length (fst out)) rs outs /\
    maxBeamSize_ (self w') = beamSize /\
    maxBatchSize_ (self w') = dimBatch /\
    deviceId_ (self w') = deviceId.
Proof.
  intros made Hrt Hcap Hall.
  apply (steps_serve launch (fst made) rs
           {| self := fst made; outCosts := costs; outKeys := keys;
              trace := tr |}); auto.
Qed.

End Reuse.


Lemma getNBestList_size_check_fires_after_the_work_witness :
  exists w',
    NthElement.getNBestList false never_fails example_launch example_scores 3 true
      (example_world [5] [7])
    = Aborted "Expected {} but got {} values during topk" w' /\
    existsb is_launch (appended [] (trace w')) = true /\
    existsb is_copy (appended [] (trace w')) = true /\
    firstn 1 (outKeys w') = [7] /\
    Z.of_nat (List.length (appended [7] (outKeys w'))) = 2 * 3 /\
    firstn 1 (outCosts w') = [5] /\
    Z.of_nat (List.length (appended [5] (outCosts w'))) = 2 * 3.
Proof.
  apply (getNBestList_size_check_fires_after_the_work Z false never_fails
           example_launch example_scores 3 true (example_world [5] [7])).
  - repeat split; vm_compute; congruence.
  - repeat split; vm_compute; congruence.
  - lia.
  - repeat split; vm_compute; congruence.
  - reflexivity.
  - reflexivity.
  - discriminate.
Defined.

Lemma getNBestList_runtime_calls_witness :
  appended []
    (trace (state_of (NthElement.getNBestList false never_fails example_launch
                        example_scores 3 true (example_world [] []))))
  = [EvSetDevice 0; EvSetDevice 0; EvKernelLaunch 2 1 3 5;
     EvSetDevice 0; EvMemcpyDeviceToHost (2 * 3 * sizeof_TopK);
     EvStreamSynchronize].
Proof.
  apply (getNBestList_runtime_calls Z false never_fails example_launch
           example_scores 3 true (example_world [] [])).
  - repeat split; vm_compute; congruence.
  - repeat split; vm_compute; congruence.
  - lia.
  - repeat split; vm_compute; congruence.
  - reflexivity.
  - reflexivity.
Defined.

Lemma getPairs_copy_fits_the_buffers_witness :
  copy_bytes (numElts_of example_scores 3) <= tops_bytes example_engine /\
  copy_bytes (numElts_of example_scores 3) <= topsHost_bytes example_engine /\
  tops_bytes example_engine = 2 * 3 * sizeof_TopK /\
  topsHost_bytes example_engine = tops_bytes example_engine /\
  (forall i, (i < Z.to_nat (numElts_of example_scores 3))%nat ->
             (Z.of_nat i + 1) * sizeof_TopK <= topsHost_bytes example_engine).
Proof.
  apply (getPairs_copy_fits_the_buffers Z example_engine example_scores 3 true).
  - repeat split; vm_compute; congruence.
  - repeat split; vm_compute; congruence.
  - lia.
  - repeat split; vm_compute; congruence.
Defined.

Lemma getNBestList_of_nothing_witness :
  exists w',
    NthElement.getNBestList false never_fails example_launch (example_vocab float32 5) 0
      true (example_world [5] [])
    = Done tt w' /\
    outKeys w' = [] /\
    outCosts w' = [5] /\
    (forall i, topsHost (self w') i = stale) /\
    appended [] (trace w')
    = [EvSetDevice 0; EvSetDevice 0; EvKernelLaunch 1 1 (to_int 0) 5;
       EvSetDevice 0; EvMemcpyDeviceToHost 0; EvStreamSynchronize].
Proof.
  apply (getNBestList_of_nothing Z false never_fails example_launch
           (example_vocab float32 5) 0 true (example_world [5] [])).
  - repeat split; vm_compute; congruence.
  - lia.
  - repeat split; vm_compute; congruence.
  - reflexivity.
  - reflexivity.
  - reflexivity.
  - right. reflexivity.
Defined.

Lemma getNBestList_needs_fresh_vectors_witness :
  exists w',
    NthElement.getNBestList false never_fails example_launch example_scores 3
      true (example_world [] [])
    = Done tt w' /\
    forall cudaError2 launch2 scores2 N2 isFirst2,
      aborted (NthElement.getNBestList false cudaError2 launch2 scores2 N2
                 isFirst2 w')
      = true.
Proof.
  apply (getNBestList_needs_fresh_vectors Z false never_fails example_launch
           example_scores 3 true (example_world [] [])).
  - repeat split; vm_compute; congruence.
  - repeat split; vm_compute; congruence.
  - repeat split; vm_compute; congruence.
  - reflexivity.
  - reflexivity.
  - reflexivity.
  - simpl. lia.
  - lia.
Defined.

Lemma factory_callable_serves_every_request_witness :
  let made := createGetNBestListGPUFn false never_fails example_launch 3 2 0
                (fun _ => 77) (fun _ => 55) (fun _ => stale) (fun _ => stale) in
  let first := {| req_scores := example_scores; req_N := 3;
                  req_isFirst := true |} in
  let next := {| req_scores := {| shape := {| dim_4 := 2; dim_3 := 1;
                                              dim_2 := 2; dim_1 := 5 |};
                                  type := float32;
                                  data := data example_scores
                                          ++ data example_scores |};
                 req_N := 2; req_isFirst := false |} in
  exists outs w',
    steps (snd made) [first; next; first]
      {| self := fst made; outCosts := [5]; outKeys := [7]; trace := [] |}
    = Done outs w' /\
    Forall2 (fun r out =>
               Z.of_nat (List.length (fst out))
               = dim_4 (shape (req_scores r)) * req_N r /\
               List.length (snd out) = List.length (fst out))
            [first; next; first] outs /\
    maxBeamSize_ (self w') = 3 /\
    maxBatchSize_ (self w') = 2 /\
    deviceId_ (self w') = 0.
Proof.
  intros made first next.
  apply (factory_callable_serves_every_request Z false never_fails
           example_launch 3 2 0
           (fun _ => 77) (fun _ => 55) (fun _ => stale) (fun _ => stale)
           [first; next; first] [5] [7] []).
  - reflexivity.
  - repeat split; vm_compute; congruence.
  - repeat constructor; vm_compute; congruence.
Defined.

End NthElementExtras.
